(** * ecsazrlc: the Docker activity monitor and the ECS lifecycle notifier

    A shallow embedding of the package [ecsazrlc]: the monitor ([Monitor],
    [isExcluded], [IsAzureAgentContainer], [GetRunningAzureAgents],
    [StartMonitoring], [handleDockerEvent], [HasActiveAgents], [Stop]) and
    the notifier of [ecs_notifier.go] ([SendActivitySignal],
    [StartHeartbeat], [NotifyActivity], [SetProtectionEnabled]).

    Go strings are byte sequences: they are [string] here (a list of
    [ascii] bytes), [len] is [String.length] and [s[:n]] is a byte slice.
    Go maps are [gmap]s.  A Go function is a program [prog]: a tree of the
    actions it performs on the outside (log lines, channel operations, calls
    to the Docker daemon, to ECS and to the clock), in the order of the
    source.  [run] executes a program alone; [interleave] executes two
    goroutines under a schedule.  A run ends by returning, by a runtime
    panic, or parked on a channel. *)

From Stdlib Require Import ZArith Ascii Bool DecimalString.
From Stdlib Require String.
From stdpp Require Import base option list strings gmap.

Local Open Scope Z_scope.

(** ** The [strings] package, on bytes *)

Module strings.

(** [unicode.ToLower] on one byte.  Only the ASCII capitals move; the
    patterns the monitor searches for are ASCII and hold neither [i] nor
    [k] (the two ASCII letters some non-ASCII rune lowers to), so on the
    questions the monitor asks this agrees with Go's rune-wise
    [strings.ToLower]. *)
Definition lower_byte (c : ascii) : ascii :=
  let n := Ascii.N_of_ascii c in
  if ((65 <=? n) && (n <=? 90))%N then Ascii.ascii_of_N (n + 32) else c.

Fixpoint ToLower (s : string) : string :=
  match s with
  | EmptyString => EmptyString
  | String c s' => String (lower_byte c) (ToLower s')
  end.

(** [strings.HasPrefix s prefix]. *)
Fixpoint HasPrefix (s pre : string) {struct pre} : bool :=
  match pre, s with
  | EmptyString, _ => true
  | String _ _, EmptyString => false
  | String a pre', String b s' => Ascii.eqb a b && HasPrefix s' pre'
  end.

(** [strings.Contains s substr]: [substr] occurs at some offset of [s]. *)
Fixpoint Contains (s substr : string) : bool :=
  HasPrefix s substr ||
  match s with
  | EmptyString => false
  | String _ s' => Contains s' substr
  end.

(** [strings.TrimPrefix s prefix]. *)
Definition TrimPrefix (s pre : string) : string :=
  if HasPrefix s pre
  then String.substring (String.length pre)
         (String.length s - String.length pre)%nat s
  else s.

(** The slice expression [s[:n]]: the first [n] bytes, and a runtime
    panic (slice bounds out of range), here [None], when [s] has fewer. *)
Definition slice_to (s : string) (n : nat) : option string :=
  if (n <=? String.length s)%nat then Some (String.substring 0 n s) else None.

(** What [Contains] decides: [sub] sits between some [l] and some [r]. *)
Definition occurs_in (sub s : string) : Prop :=
  ∃ l r : string, s = l +:+ sub +:+ r.

End strings.

(** ** The [time] and [fmt] packages, as far as they are used *)

Module time.

(** A [time.Time], as nanoseconds since the Unix epoch. *)
Definition Time : Type := Z.

Definition Second : Z := 1000000000.
Definition Minute : Z := 60 * Second.

(** [time.Unix(sec, nsec)]. *)
Definition Unix (sec nsec : Z) : Time := sec * Second + nsec.

(** [t.Add(d)]. *)
Definition Add (t : Time) (d : Z) : Time := t + d.

(** [t.Unix()]: whole seconds since the epoch. *)
Definition UnixOf (t : Time) : Z := t / Second.

End time.

Module fmt.

(** [fmt.Sprintf("%d", n)]. *)
Definition Sprintf_d (n : Z) : string := NilZero.string_of_int (Z.to_int n).

End fmt.

(** ** Errors *)

Inductive error : Type :=
| ErrExternal (msg : string)             (* an error handed back by Docker or AWS *)
| ErrEOF                                 (* [io.EOF] *)
| Errorf (msg : string)                  (* [fmt.Errorf(msg)] *)
| ErrorfW (msg : string) (err : error).  (* [fmt.Errorf(msg + ": %w", err)] *)

(** What a call that returns [(T, error)] hands back. *)
Inductive reply (A : Type) : Type :=
| Reply (a : A)
| Failure (err : error).
Arguments Reply {A} a.
Arguments Failure {A} err.

(** ** Docker's data, as far as the monitor reads it *)

Module container.

(** [container.Config]: the declared configuration of a container. *)
Record Config := {
  Image : string;
  Env : list string;
  Labels : gmap string string;
}.

End container.

Module types.

(** [types.Container]: one entry of [ContainerList]. *)
Record Container := {
  ID : string;
  Names : list string;
  Image : string;
  Created : Z;
}.

(** [types.ContainerJSON]; [Config] is a pointer and may be nil. *)
Record ContainerJSON := {
  Config : option container.Config;
}.

End types.

Module events.

Definition ContainerEventType : string := "container".

Record Actor := {
  ID : string;
  Attributes : gmap string string;
}.

(** [events.Message]; [Time] is the daemon's time of the event, in
    seconds. *)
Record Message := {
  Type_ : string;
  Action : string;
  Actor_ : Actor;
  Time : Z;
  TimeNano : Z;
}.

End events.

(** ** The monitor's and the notifier's own data *)

Record ActivityEvent := {
  ContainerID : string;
  ContainerName : string;
  ImageName : string;
  Action : string;
  Timestamp : time.Time;
  IsAzureAgent : bool;
}.

Record MonitorConfig := {
  ExcludeContainers : list string;
  ExcludeImages : list string;
}.

(** The fields of [Monitor] that stay as [NewMonitorWithConfig] set them.
    The Docker client, the context and the channel are non-nil for every
    monitor it makes; what [Stop] changes about them is in [State]. *)
Record Monitor := {
  excludeContainers : list string;
  excludeImages : list string;
}.

Record ECSNotifier := {
  clusterName : string;
  containerInstanceARN : string;
  heartbeatInterval : Z;
}.

(** ** Log lines, one constructor per format string of the source *)

Inductive LogLine : Type :=
| LogExcludedByContainer (containerName id12 excluded : string)
    (* "Container %s (%s) excluded by container filter: %s" *)
| LogExcludedByImage (containerName id12 excluded : string)
    (* "Container %s (%s) excluded by image filter: %s" *)
| LogWarningInspect (id : string) (err : error)
    (* "Warning: failed to inspect container %s: %v" *)
| LogFound (n : nat)
    (* "Found %d Azure agent container(s) currently running" *)
| LogMonitoringStopped
    (* "Monitoring stopped" *)
| LogErrorReceiving (err : error)
    (* "Error receiving Docker events: %v" *)
| LogAlreadyRemoved (id12 : string)
    (* "Container %s already removed" *)
| LogFailedInspect (id12 : string) (err : error)
    (* "Failed to inspect container %s: %v" *)
| LogActivity (action containerName containerID : string)
    (* "Azure Agent Activity: %s - %s [%s]" *)
| LogArnNotSet
    (* "Container instance ARN not set, skipping ECS notification" *)
| LogSignalSent (activityStatus : string) (timestamp : Z)
    (* "Activity signal sent to ECS: %s (timestamp: %d)" *)
| LogStartingHeartbeat (interval : Z)
    (* "Starting ECS heartbeat every %v" *)
| LogErrorChecking (err : error)
    (* "Error checking for active agents: %v" *)
| LogErrorSending (err : error)
    (* "Error sending activity signal: %v" *)
| LogHeartbeatStopped
    (* "Heartbeat stopped" *)
| LogNotifying (action containerName : string)
    (* "Notifying ECS of Azure Agent activity: %s - %s" *)
| LogProtectionSet (enabled : bool).
    (* "Instance protection set to: %v" *)

(** A log line that reports a failure: the lines that print an error
    value. *)
Definition is_warning (l : LogLine) : bool :=
  match l with
  | LogWarningInspect _ _ | LogErrorReceiving _ | LogFailedInspect _ _
  | LogErrorChecking _ | LogErrorSending _ => true
  | _ => false
  end.

(** ** The outside world and the state the goroutines share *)

(** What the outside answers at one moment: the Docker daemon, the ECS
    control plane and the wall clock. *)
Record World := {
  containerList : reply (list types.Container);
  containerInspect : string → reply types.ContainerJSON;
  now : time.Time;
  putAttributes : option error;
  updateContainerInstancesState : option error;
}.

(** A buffered channel of [ActivityEvent]. *)
Record Chan := {
  buf : list ActivityEvent;
  cap : nat;
  closed : bool;
}.

Record State := {
  world : World;
  activityChan : Chan;
  ctxDone : bool;        (* [m.ctx] is cancelled *)
  clientClosed : bool;   (* [m.dockerClient.Close()] was called *)
}.

(** Actions that hand nothing back. *)
Inductive action : Type :=
| Log (l : LogLine)                 (* [log.Printf], [log.Println] *)
| Send (ev : ActivityEvent)         (* [m.activityChan <- ev] *)
| Close                             (* [close(m.activityChan)] *)
| Cancel                            (* [m.cancel()] *)
| ClientClose                       (* [m.dockerClient.Close()] *)
| Events (since : string)           (* [m.dockerClient.Events(ctx, {Since})] *)
| Go                                (* [go func() { ... }()] *)
| NewTicker (d : Z)                 (* [time.NewTicker(d)] *)
| TickerStop.                       (* [ticker.Stop()] *)

(** Calls that hand something back. *)
Inductive call : Type :=
| CallContainerList
| CallContainerInspect (id : string)
| CallNow
| CallPutAttributes (cluster : string) (attributes : list (string * string))
| CallUpdateContainerInstancesState
    (cluster : string) (containerInstances : list string) (status : string).

Inductive Effect : Type :=
| Act (a : action)
| Call (c : call).

(** A run of Go code returns, panics, or parks for ever on a channel. *)
Inductive outcome (A : Type) : Type :=
| Ok (a : A)
| Panic
| Blocked.
Arguments Ok {A} a.
Arguments Panic {A}.
Arguments Blocked {A}.

(** ** Programs *)

Inductive prog (A : Type) : Type :=
| Ret (a : A)
| Crash                                          (* a runtime panic *)
| Park                                           (* parked, nothing ready *)
| Do (a : action) (k : prog A)
| ContainerList (k : reply (list types.Container) → prog A)
| ContainerInspect (id : string) (k : reply types.ContainerJSON → prog A)
| Now (k : time.Time → prog A)
| PutAttributes (cluster : string) (attributes : list (string * string))
    (k : option error → prog A)
| UpdateContainerInstancesState
    (cluster : string) (containerInstances : list string) (status : string)
    (k : option error → prog A)
| Wake (w : World) (k : prog A).
    (* a goroutine parked in [select] wakes up, in the world as it is then *)
Arguments Ret {A} a.
Arguments Crash {A}.
Arguments Park {A}.
Arguments Do {A} a k.
Arguments ContainerList {A} k.
Arguments ContainerInspect {A} id k.
Arguments Now {A} k.
Arguments PutAttributes {A} cluster attributes k.
Arguments UpdateContainerInstancesState {A} cluster containerInstances status k.
Arguments Wake {A} w k.

Fixpoint bind {A B : Type} (p : prog A) (f : A → prog B) : prog B :=
  match p with
  | Ret a => f a
  | Crash => Crash
  | Park => Park
  | Do a k => Do a (bind k f)
  | ContainerList k => ContainerList (λ r, bind (k r) f)
  | ContainerInspect id k => ContainerInspect id (λ r, bind (k r) f)
  | Now k => Now (λ t, bind (k t) f)
  | PutAttributes c a k => PutAttributes c a (λ r, bind (k r) f)
  | UpdateContainerInstancesState c i s k =>
      UpdateContainerInstancesState c i s (λ r, bind (k r) f)
  | Wake w k => Wake w (bind k f)
  end.

#[global] Instance prog_ret : MRet prog := λ A a, Ret a.
#[global] Instance prog_bind : MBind prog := λ A B f p, bind p f.

Definition log (l : LogLine) : prog unit := Do (Log l) (Ret tt).
Definition send (ev : ActivityEvent) : prog unit := Do (Send ev) (Ret tt).
Definition act (a : action) : prog unit := Do a (Ret tt).

(** [s[:12]]. *)
Definition slice12 (s : string) : prog string :=
  match strings.slice_to s 12 with
  | Some p => Ret p
  | None => Crash
  end.

(** A pure computation that may panic, as a program. *)
Definition lift {A : Type} (o : outcome A) : prog A :=
  match o with
  | Ok a => Ret a
  | Panic => Crash
  | Blocked => Park
  end.

(** ** Running a program *)

Definition set_chan (st : State) (ch : Chan) : State :=
  {| world := world st; activityChan := ch;
     ctxDone := ctxDone st; clientClosed := clientClosed st |}.

Definition set_world (st : State) (w : World) : State :=
  {| world := w; activityChan := activityChan st;
     ctxDone := ctxDone st; clientClosed := clientClosed st |}.

(** What an action does to the shared state.  A send on a closed channel
    and a close of a closed channel panic; a send on a full channel parks
    the sender; [NewTicker] panics on a non-positive period. *)
Definition perform (a : action) (st : State) : outcome State :=
  match a with
  | Log _ | Events _ | Go | TickerStop => Ok st
  | Send ev =>
      let ch := activityChan st in
      if closed ch then Panic
      else if (length (buf ch) <? cap ch)%nat
      then Ok (set_chan st {| buf := buf ch ++ [ev]; cap := cap ch; closed := false |})
      else Blocked
  | Close =>
      let ch := activityChan st in
      if closed ch then Panic
      else Ok (set_chan st {| buf := buf ch; cap := cap ch; closed := true |})
  | Cancel =>
      Ok {| world := world st; activityChan := activityChan st;
            ctxDone := true; clientClosed := clientClosed st |}
  | ClientClose =>
      Ok {| world := world st; activityChan := activityChan st;
            ctxDone := ctxDone st; clientClosed := true |}
  | NewTicker d => if d <=? 0 then Panic else Ok st
  end.

(** The end of a run: how it ended, the state then, and what was done on
    the outside, oldest first. *)
Record Run (A : Type) := {
  result : outcome A;
  final : State;
  effects : list Effect;
}.
Arguments result {A} r.
Arguments final {A} r.
Arguments effects {A} r.

Definition after {A : Type} (e : Effect) (r : Run A) : Run A :=
  {| result := result r; final := final r; effects := e :: effects r |}.

Definition halt {A : Type} (o : outcome A) (st : State) : Run A :=
  {| result := o; final := st; effects := [] |}.

Fixpoint run {A : Type} (p : prog A) (st : State) : Run A :=
  match p with
  | Ret a => halt (Ok a) st
  | Crash => halt Panic st
  | Park => halt Blocked st
  | Do a k =>
      match perform a st with
      | Ok st' => after (Act a) (run k st')
      | Panic => halt Panic st
      | Blocked => halt Blocked st
      end
  | ContainerList k =>
      after (Call CallContainerList) (run (k (containerList (world st))) st)
  | ContainerInspect id k =>
      after (Call (CallContainerInspect id))
        (run (k (containerInspect (world st) id)) st)
  | Now k => after (Call CallNow) (run (k (now (world st))) st)
  | PutAttributes c a k =>
      after (Call (CallPutAttributes c a)) (run (k (putAttributes (world st))) st)
  | UpdateContainerInstancesState c i s k =>
      after (Call (CallUpdateContainerInstancesState c i s))
        (run (k (updateContainerInstancesState (world st))) st)
  | Wake w k => run k (set_world st w)
  end.

(** One step of a goroutine: its first action or call. *)
Definition step {A : Type} (p : prog A) (st : State)
  : outcome (prog A * State * list Effect) :=
  match p with
  | Ret a => Ok (Ret a, st, [])
  | Crash => Panic
  | Park => Blocked
  | Do a k =>
      match perform a st with
      | Ok st' => Ok (k, st', [Act a])
      | Panic => Panic
      | Blocked => Blocked
      end
  | ContainerList k => Ok (k (containerList (world st)), st, [Call CallContainerList])
  | ContainerInspect id k =>
      Ok (k (containerInspect (world st) id), st, [Call (CallContainerInspect id)])
  | Now k => Ok (k (now (world st)), st, [Call CallNow])
  | PutAttributes c a k =>
      Ok (k (putAttributes (world st)), st, [Call (CallPutAttributes c a)])
  | UpdateContainerInstancesState c i s k =>
      Ok (k (updateContainerInstancesState (world st)), st,
          [Call (CallUpdateContainerInstancesState c i s)])
  | Wake w k => Ok (k, set_world st w, [])
  end.

(** Two goroutines over one state.  The schedule says who moves next;
    a panic of either takes the process down, and a
    goroutine that cannot move leaves the turn unused. *)
Inductive who : Type := First | Second.

Record Both (A B : Type) := {
  first : prog A;
  second : prog B;
  shared : State;
  trail : list (who * Effect);
  panicked : option who;
}.
Arguments first {A B} b.
Arguments second {A B} b.
Arguments shared {A B} b.
Arguments trail {A B} b.
Arguments panicked {A B} b.

Fixpoint interleave {A B : Type} (schedule : list who)
    (p : prog A) (q : prog B) (st : State) (tr : list (who * Effect)) : Both A B :=
  match schedule with
  | [] =>
      {| first := p; second := q; shared := st; trail := tr; panicked := None |}
  | First :: rest =>
      match step p st with
      | Ok (p', st', es) => interleave rest p' q st' (tr ++ map (pair First) es)
      | Panic =>
          {| first := p; second := q; shared := st; trail := tr;
             panicked := Some First |}
      | Blocked => interleave rest p q st tr
      end
  | Second :: rest =>
      match step q st with
      | Ok (q', st', es) => interleave rest p q' st' (tr ++ map (pair Second) es)
      | Panic =>
          {| first := p; second := q; shared := st; trail := tr;
             panicked := Some Second |}
      | Blocked => interleave rest p q st tr
      end
  end.

(** How the run of [p ≫= f] is made of the run of [p] and the run of [f]. *)
Definition then_run {A B : Type} (r : Run A) (f : A → State → Run B) : Run B :=
  match result r with
  | Ok a =>
      let r' := f a (final r) in
      {| result := result r'; final := final r';
         effects := effects r ++ effects r' |}
  | Panic => {| result := Panic; final := final r; effects := effects r |}
  | Blocked => {| result := Blocked; final := final r; effects := effects r |}
  end.

(** The events a run put on the channel, oldest first. *)
Definition sends (es : list Effect) : list ActivityEvent :=
  omap (λ e, match e with Act (Send ev) => Some ev | _ => None end) es.

(** The log lines of a run. *)
Definition logs (es : list Effect) : list LogLine :=
  omap (λ e, match e with Act (Log l) => Some l | _ => None end) es.

(** The calls to the daemon, the control plane and the clock in a run. *)
Definition calls (es : list Effect) : list call :=
  omap (λ e, match e with Call c => Some c | _ => None end) es.

(** Calls to the ECS control plane. *)
Definition is_ecs_call (c : call) : bool :=
  match c with
  | CallPutAttributes _ _ | CallUpdateContainerInstancesState _ _ _ => true
  | _ => false
  end.

(** Subscriptions to the live event stream in a run. *)
Definition subscriptions (es : list Effect) : list string :=
  omap (λ e, match e with Act (Events since) => Some since | _ => None end) es.

(** ** The monitor *)

(** [NewMonitorWithConfig], once the Docker client is made: a live context,
    an open client and [make(chan ActivityEvent, 100)]. *)
Definition NewMonitorWithConfig (config : MonitorConfig) (w : World)
  : Monitor * State :=
  ({| excludeContainers := ExcludeContainers config;
      excludeImages := ExcludeImages config |},
   {| world := w;
      activityChan := {| buf := []; cap := 100; closed := false |};
      ctxDone := false; clientClosed := false |}).

Definition NewMonitor (w : World) : Monitor * State :=
  NewMonitorWithConfig {| ExcludeContainers := []; ExcludeImages := [] |} w.

(** [func (m *Monitor) isExcluded(containerID, containerName, imageName string) bool].
    Each loop returns at its first hit, after a log line that slices
    [containerID[:12]]. *)
Definition isExcluded (m : Monitor) (containerID containerName imageName : string)
  : prog bool :=
  match find (λ excluded, strings.Contains containerName excluded
                          || strings.Contains containerID excluded)
             (excludeContainers m) with
  | Some excluded =>
      id12 ← slice12 containerID;
      log (LogExcludedByContainer containerName id12 excluded);;
      Ret true
  | None =>
      match find (λ excluded, strings.Contains imageName excluded)
                 (excludeImages m) with
      | Some excluded =>
          id12 ← slice12 containerID;
          log (LogExcludedByImage containerName id12 excluded);;
          Ret true
      | None => Ret false
      end
  end.

Definition label_matches (kv : string * string) : bool :=
  let lowerKey := strings.ToLower kv.1 in
  let lowerValue := strings.ToLower kv.2 in
  if strings.Contains lowerKey "azure" || strings.Contains lowerValue "azure"
  then strings.Contains lowerKey "agent" || strings.Contains lowerValue "agent"
  else false.

Definition env_matches (env : string) : bool :=
  let lowerEnv := strings.ToLower env in
  strings.Contains lowerEnv "azp_" || strings.Contains lowerEnv "vsts_".

(** The body of [IsAzureAgentContainer] once [containerInfo.Config] is
    dereferenced.  The tests run in the order of the source, each returning
    [true] at its first hit; the [range] over the label map visits the
    entries in an order Go leaves open, which [map_to_list] fixes. *)
Definition classify (cfg : container.Config) : bool :=
  let imageName := strings.ToLower (container.Image cfg) in
  if strings.Contains imageName "azure" && strings.Contains imageName "agent"
  then true
  else if strings.Contains imageName "azp" || strings.Contains imageName "vsts"
  then true
  else if existsb label_matches (map_to_list (container.Labels cfg))
  then true
  else if existsb env_matches (container.Env cfg)
  then true
  else false.

(** [func (m *Monitor) IsAzureAgentContainer(containerInfo types.ContainerJSON) bool];
    a nil [Config] is a nil-pointer dereference. *)
Definition IsAzureAgentContainer (containerInfo : types.ContainerJSON)
  : outcome bool :=
  match types.Config containerInfo with
  | None => Panic
  | Some cfg => Ok (classify cfg)
  end.

(** The loop of [GetRunningAzureAgents] over the listed containers;
    [agents] is the slice built so far. *)
Fixpoint scan (m : Monitor) (containers : list types.Container)
    (agents : list ActivityEvent) : prog (list ActivityEvent) :=
  match containers with
  | [] => Ret agents
  | c :: rest =>
      match types.Names c !! 0%nat with
      | None => Crash                      (* [c.Names[0]], index out of range *)
      | Some name0 =>
          let name := strings.TrimPrefix name0 "/" in
          excluded ← isExcluded m (types.ID c) name (types.Image c);
          if excluded : bool then scan m rest agents
          else
            ContainerInspect (types.ID c) (λ r,
              match r with
              | Failure err =>
                  log (LogWarningInspect (types.ID c) err);;
                  scan m rest agents
              | Reply containerInfo =>
                  isAgent ← lift (IsAzureAgentContainer containerInfo);
                  if isAgent : bool
                  then
                    id12 ← slice12 (types.ID c);
                    Now (λ t,
                      scan m rest
                        (agents ++ [ {| ContainerID := id12;
                                        ContainerName := name;
                                        ImageName := types.Image c;
                                        Action := "running";
                                        Timestamp := t;
                                        IsAzureAgent := true |} ]))
                  else scan m rest agents
              end)
      end
  end.

(** [func (m *Monitor) GetRunningAzureAgents() ([]ActivityEvent, error)]. *)
Definition GetRunningAzureAgents (m : Monitor)
  : prog (list ActivityEvent * option error) :=
  ContainerList (λ r,
    match r with
    | Failure err => Ret ([], Some (ErrorfW "failed to list containers" err))
    | Reply containers =>
        agents ← scan m containers [];
        Ret (agents, None)
    end).

(** [for _, agent := range initialAgents { m.activityChan <- agent }]. *)
Fixpoint send_all (agents : list ActivityEvent) : prog unit :=
  match agents with
  | [] => Ret tt
  | agent :: rest => send agent;; send_all rest
  end.

(** [func (m *Monitor) StartMonitoring() error], up to the start of the
    consumption goroutine, which is [consume] below. *)
Definition StartMonitoring (m : Monitor) : prog (option error) :=
  r ← GetRunningAzureAgents m;
  match r.2 with
  | Some err => Ret (Some (ErrorfW "failed to get initial agents" err))
  | None =>
      let initialAgents := r.1 in
      log (LogFound (length initialAgents));;
      send_all initialAgents;;
      Now (λ t,
        act (Events (fmt.Sprintf_d
                       (time.UnixOf (time.Add t (-1 * time.Minute)))));;
        act Go;;
        Ret None)
  end.

Definition interestingActions : gmap string bool :=
  {[ "start" := true; "die" := true; "stop" := true;
     "kill" := true; "create" := true; "exec_start" := true ]}.

(** [func (m *Monitor) handleDockerEvent(event events.Message)]. *)
Definition handleDockerEvent (m : Monitor) (event : events.Message) : prog unit :=
  if negb (String.eqb (events.Type_ event) events.ContainerEventType)
  then Ret tt
  else if negb (default false (interestingActions !! events.Action event))
  then Ret tt
  else
    let actor := events.Actor_ event in
    ContainerInspect (events.ID actor) (λ r,
      match r with
      | Failure err =>
          if String.eqb (events.Action event) "die"
             || String.eqb (events.Action event) "stop"
             || String.eqb (events.Action event) "kill"
          then
            id12 ← slice12 (events.ID actor);
            log (LogAlreadyRemoved id12)
          else
            id12 ← slice12 (events.ID actor);
            log (LogFailedInspect id12 err)
      | Reply containerInfo =>
          let name := default "" (events.Attributes actor !! "name") in
          let image := default "" (events.Attributes actor !! "image") in
          excluded ← isExcluded m (events.ID actor) name image;
          if excluded : bool then Ret tt
          else
            isAzureAgent ← lift (IsAzureAgentContainer containerInfo);
            if negb isAzureAgent then Ret tt
            else
              id12 ← slice12 (events.ID actor);
              let activityEvent :=
                {| ContainerID := id12;
                   ContainerName := name;
                   ImageName := image;
                   Action := events.Action event;
                   Timestamp := time.Unix (events.Time event) 0;
                   IsAzureAgent := true |} in
              log (LogActivity (Action activityEvent)
                     (ContainerName activityEvent) (ContainerID activityEvent));;
              send activityEvent
      end).

(** What the [select] of the consumption goroutine woke up on. *)
Inductive select_case : Type :=
| CtxDone                              (* [<-m.ctx.Done()] *)
| ErrChan (err : option error)         (* [err := <-errChan] *)
| EventsChan (event : events.Message). (* [event := <-eventsChan] *)

(** The goroutine [StartMonitoring] starts: [for { select { ... } }], over
    the wake-ups it gets, each with the world as it is then.  With no
    wake-up left it stays parked in [select]. *)
Fixpoint consume (m : Monitor) (wakes : list (World * select_case)) : prog unit :=
  match wakes with
  | [] => Park
  | (w, CtxDone) :: _ => Wake w (log LogMonitoringStopped)
  | (w, ErrChan err) :: _ =>
      Wake w
        match err with
        | None | Some ErrEOF => Ret tt
        | Some e => log (LogErrorReceiving e)
        end
  | (w, EventsChan event) :: rest =>
      Wake w (handleDockerEvent m event;; consume m rest)
  end.

(** [func (m *Monitor) HasActiveAgents() (bool, error)]. *)
Definition HasActiveAgents (m : Monitor) : prog (bool * option error) :=
  r ← GetRunningAzureAgents m;
  match r.2 with
  | Some err => Ret (false, Some err)
  | None => Ret (bool_decide (0 < length r.1)%nat, None)
  end.

(** [func (m *Monitor) Stop()]. *)
Definition Stop (m : Monitor) : prog unit :=
  act Cancel;;
  act ClientClose;;
  act Close.

(** ** The notifier *)

(** [func (n *ECSNotifier) SendActivitySignal(hasActivity bool) error]. *)
Definition SendActivitySignal (n : ECSNotifier) (hasActivity : bool)
  : prog (option error) :=
  if String.eqb (containerInstanceARN n) ""
  then
    log LogArnNotSet;;
    Ret None
  else
    Now (λ t,
      let timestamp := time.UnixOf t in
      let activityStatus := if hasActivity then "active" else "inactive" in
      PutAttributes (clusterName n)
        [ ("azure-agent-activity", activityStatus);
          ("azure-agent-last-check", fmt.Sprintf_d timestamp) ]
        (λ err,
          match err with
          | Some e => Ret (Some (ErrorfW "failed to put attributes" e))
          | None =>
              log (LogSignalSent activityStatus timestamp);;
              Ret None
          end)).

(** [func (n *ECSNotifier) NotifyActivity(event ActivityEvent) error]. *)
Definition NotifyActivity (n : ECSNotifier) (event : ActivityEvent)
  : prog (option error) :=
  log (LogNotifying (Action event) (ContainerName event));;
  SendActivitySignal n true.

(** [func (n *ECSNotifier) SetProtectionEnabled(enabled bool) error]. *)
Definition SetProtectionEnabled (n : ECSNotifier) (enabled : bool)
  : prog (option error) :=
  if String.eqb (containerInstanceARN n) ""
  then Ret (Some (Errorf "container instance ARN not set"))
  else
    let status := if enabled then "ACTIVE" else "DRAINING" in
    UpdateContainerInstancesState (clusterName n) [containerInstanceARN n] status
      (λ err,
        match err with
        | Some e => Ret (Some (ErrorfW "failed to update instance state" e))
        | None =>
            log (LogProtectionSet enabled);;
            Ret None
        end).

(** What the [select] of the heartbeat loop woke up on. *)
Inductive heartbeat_case : Type :=
| TickerC     (* [<-ticker.C] *)
| StopChan.   (* [<-n.stopChan] *)

(** The body of the [case <-ticker.C] branch. *)
Definition heartbeat_tick (n : ECSNotifier) (monitor : Monitor) : prog unit :=
  r ← HasActiveAgents monitor;
  match r.2 with
  | Some err => log (LogErrorChecking err)
  | None =>
      err ← SendActivitySignal n r.1;
      match err with
      | Some e => log (LogErrorSending e)
      | None => Ret tt
      end
  end.

(** [for { select { ... } }] of [StartHeartbeat], over the wake-ups it
    gets, each with the world as it is then; the deferred [ticker.Stop()]
    runs at the [return]. *)
Fixpoint heartbeat_loop (n : ECSNotifier) (monitor : Monitor)
    (wakes : list (World * heartbeat_case)) : prog unit :=
  match wakes with
  | [] => Park
  | (w, StopChan) :: _ =>
      Wake w (log LogHeartbeatStopped;; act TickerStop)
  | (w, TickerC) :: rest =>
      Wake w (heartbeat_tick n monitor;; heartbeat_loop n monitor rest)
  end.

(** [func (n *ECSNotifier) StartHeartbeat(monitor *Monitor)]. *)
Definition StartHeartbeat (n : ECSNotifier) (monitor : Monitor)
    (wakes : list (World * heartbeat_case)) : prog unit :=
  act (NewTicker (heartbeatInterval n));;
  log (LogStartingHeartbeat (heartbeatInterval n));;
  heartbeat_loop n monitor wakes.

(** ** The vocabulary of the specification *)

(** Rule (a) of the classifier, on the image reference. *)
Definition image_rule (image : string) : Prop :=
  let s := strings.ToLower image in
  (strings.occurs_in "azure" s ∧ strings.occurs_in "agent" s)
  ∨ strings.occurs_in "azp" s ∨ strings.occurs_in "vsts" s.

(** Rule (b): some label has "azure" in its key or value and "agent" in
    its key or value. *)
Definition label_rule (labels : gmap string string) : Prop :=
  ∃ k v : string, labels !! k = Some v
    ∧ (strings.occurs_in "azure" (strings.ToLower k)
       ∨ strings.occurs_in "azure" (strings.ToLower v))
    ∧ (strings.occurs_in "agent" (strings.ToLower k)
       ∨ strings.occurs_in "agent" (strings.ToLower v)).

(** Rule (c): some environment entry holds "azp_" or "vsts_". *)
Definition env_rule (env : list string) : Prop :=
  ∃ e : string, e ∈ env
    ∧ (strings.occurs_in "azp_" (strings.ToLower e)
       ∨ strings.occurs_in "vsts_" (strings.ToLower e)).

Definition agent_rule (cfg : container.Config) : Prop :=
  image_rule (container.Image cfg)
  ∨ label_rule (container.Labels cfg)
  ∨ env_rule (container.Env cfg).

(** The exclusion rule: an excluded-container entry occurs in the name or
    in the identity, or an excluded-image entry occurs in the image. *)
Definition exclusion_rule (m : Monitor) (containerID containerName imageName : string)
  : Prop :=
  (∃ e : string, e ∈ excludeContainers m
     ∧ (strings.occurs_in e containerName ∨ strings.occurs_in e containerID))
  ∨ (∃ e : string, e ∈ excludeImages m ∧ strings.occurs_in e imageName).

(** The same, decided. *)
Definition excluded_by (m : Monitor) (containerID containerName imageName : string)
  : bool :=
  existsb (λ e, strings.Contains containerName e || strings.Contains containerID e)
          (excludeContainers m)
  || existsb (λ e, strings.Contains imageName e) (excludeImages m).

(** The display name of a listed container: its first name without the
    leading slash. *)
Definition display_name (c : types.Container) : string :=
  strings.TrimPrefix (default "" (types.Names c !! 0%nat)) "/".

(** A listed container that passes the exclusion filter, can be inspected
    and is classified as an agent. *)
Definition tracked (m : Monitor) (w : World) (c : types.Container) : bool :=
  negb (excluded_by m (types.ID c) (display_name c) (types.Image c))
  && match containerInspect w (types.ID c) with
     | Reply info =>
         match types.Config info with
         | Some cfg => classify cfg
         | None => false
         end
     | Failure _ => false
     end.

(** The event of the inventory pass for a listed container. *)
Definition running_event (w : World) (c : types.Container) : ActivityEvent :=
  {| ContainerID := String.substring 0 12 (types.ID c);
     ContainerName := display_name c;
     ImageName := types.Image c;
     Action := "running";
     Timestamp := now w;
     IsAzureAgent := true |}.

(** Where the subscription to the event stream starts: one minute before
    the clock's reading, in seconds, in decimal. *)
Definition lookback (w : World) : string :=
  fmt.Sprintf_d (time.UnixOf (now w) - 60).

(** The allow-list of actions, and the terminal ones among them. *)
Definition allowed_actions : list string :=
  ["create"; "start"; "stop"; "kill"; "die"; "exec_start"].

Definition terminal_actions : list string := ["stop"; "kill"; "die"].

(** What the inventory pass may do on the outside: log, list, inspect and
    read the clock. *)
Definition inventory_effect (e : Effect) : Prop :=
  match e with
  | Act (Log _)
  | Call CallContainerList | Call (CallContainerInspect _) | Call CallNow => True
  | _ => False
  end.

(** A listed container as the Docker daemon hands them out: an identity
    of at least 12 bytes, at least one name, and a configuration when it
    can be inspected. *)
Definition well_formed (w : World) (c : types.Container) : Prop :=
  (12 ≤ String.length (types.ID c))%nat
  ∧ types.Names c ≠ []
  ∧ (∀ info, containerInspect w (types.ID c) = Reply info →
       is_Some (types.Config info)).

(** What the loop of [GetRunningAzureAgents] does: it leaves the state
    alone, never parks, does nothing but [inventory_effect]s, and what it
    returns is the slice it was given followed by the [running_event]s of
    the [tracked] containers, in the order of the listing. *)
Definition scan_post (m : Monitor) (st : State) (containers : list types.Container)
    (agents : list ActivityEvent) (r : Run (list ActivityEvent)) : Prop :=
  final r = st
  ∧ Forall inventory_effect (effects r)
  ∧ result r ≠ Blocked
  ∧ (∀ out, result r = Ok out →
       out = agents ++ map (running_event (world st))
                           (List.filter (tracked m (world st)) containers)
       ∧ Forall (λ c, (12 ≤ String.length (types.ID c))%nat)
                (List.filter (tracked m (world st)) containers))
  ∧ (Forall (well_formed (world st)) containers → ∃ out, result r = Ok out).

(** The identity, the name and the image a runtime event carries, as the
    handler reads them: [event.Actor.ID], [event.Actor.Attributes["name"]]
    and [event.Actor.Attributes["image"]]. *)
Abbreviation event_id event := (events.ID (events.Actor_ event)).
Abbreviation event_name event :=
  (default "" (events.Attributes (events.Actor_ event) !! "name")).
Abbreviation event_image event :=
  (default "" (events.Attributes (events.Actor_ event) !! "image")).

(** Splits a [scan_post] goal: the state and the outcome go by [done],
    the effects by [tac]; what is returned and when are left. *)
Ltac split_post tac :=
  split; [done|]; split; [tac|]; split; [done|];
  split; [intros out Hout|intros Hwf].

(** The event the handler builds for a runtime event. *)
Definition live_event (event : events.Message) : ActivityEvent :=
  {| ContainerID := String.substring 0 12 (event_id event);
     ContainerName := event_name event;
     ImageName := event_image event;
     Action := events.Action event;
     Timestamp := time.Unix (events.Time event) 0;
     IsAzureAgent := true |}.

(** A runtime event the handler looks at: of the container category, with
    an action of the allow-list. *)
Definition relevant (event : events.Message) : Prop :=
  events.Type_ event = "container" ∧ events.Action event ∈ allowed_actions.

(** A runtime event of a container that passes the exclusion filter and
    is classified as an agent. *)
Definition passes (m : Monitor) (w : World) (event : events.Message) : Prop :=
  excluded_by m (event_id event) (event_name event) (event_image event) = false
  ∧ ∃ info cfg, containerInspect w (event_id event) = Reply info
                ∧ types.Config info = Some cfg
                ∧ classify cfg = true.

(** A run with [es] done before it. *)
Definition prepend {A : Type} (es : list Effect) (r : Run A) : Run A :=
  {| result := result r; final := final r; effects := es ++ effects r |}.

(** A wake-up of the heartbeat loop on the ticker. *)
Definition is_tick (x : World * heartbeat_case) : Prop := x.2 = TickerC.

(** ** Sample inputs *)

Module sample.

Definition agent_id : string :=
  "4f2a9c1d7e3b5a6088c1d2e3f4a5b6c7d8e9f0a1b2c3d4e5f6a7b8c9d0e1f2a3".

Definition vsts_config : container.Config :=
  {| container.Image := "vsts-agent:1";
     container.Env := [];
     container.Labels := ∅ |}.

Definition agent_container : types.Container :=
  {| types.ID := agent_id;
     types.Names := ["/agent-1"];
     types.Image := "vsts-agent:1";
     types.Created := 1700000000 |}.

(** A container whose identity has three bytes. *)
Definition short_container : types.Container :=
  {| types.ID := "abc";
     types.Names := ["/agent-2"];
     types.Image := "vsts-agent:1";
     types.Created := 1700000000 |}.

(** A daemon that lists [containers] and inspects every identity to the
    agent configuration; the clock reads [clock]. *)
Definition agent_world (containers : list types.Container) (clock : time.Time)
  : World :=
  {| containerList := Reply containers;
     containerInspect := λ _, Reply {| types.Config := Some vsts_config |};
     now := clock;
     putAttributes := None;
     updateContainerInstancesState := None |}.

(** A daemon whose containers are all gone. *)
Definition gone_world : World :=
  {| containerList := Reply [];
     containerInspect := λ _, Failure (ErrExternal "No such container");
     now := time.Unix 1700000200 0;
     putAttributes := None;
     updateContainerInstancesState := None |}.

Definition actor_of (c : types.Container) : events.Actor :=
  {| events.ID := types.ID c;
     events.Attributes :=
       {[ "name" := display_name c; "image" := types.Image c ]} |}.

Definition event_of (action : string) (c : types.Container) : events.Message :=
  {| events.Type_ := "container";
     events.Action := action;
     events.Actor_ := actor_of c;
     events.Time := 1700000100;
     events.TimeNano := 1700000100000000000 |}.

Definition image_filter : Monitor :=
  {| excludeContainers := []; excludeImages := ["azure-agent"] |}.

(** What an inspection hands back for a configuration. *)
Definition inspected (image : string) (env : list string)
  (labels : gmap string string) : types.ContainerJSON :=
{| types.Config :=
     Some {| container.Image := image;
             container.Env := env;
             container.Labels := labels |} |}.

Definition unresolved : ECSNotifier :=
  {| clusterName := "build-cluster";
     containerInstanceARN := "";
     heartbeatInterval := 30 * time.Second |}.

End sample.

(** ** More vocabulary for the monitor *)

(** The body of [IsAzureAgentContainer] with the [range] over the label
    map visiting the entries in the order [kvs]. *)
Definition classify_in_order (kvs : list (string * string))
    (cfg : container.Config) : bool :=
  let imageName := strings.ToLower (container.Image cfg) in
  if strings.Contains imageName "azure" && strings.Contains imageName "agent"
  then true
  else if strings.Contains imageName "azp" || strings.Contains imageName "vsts"
  then true
  else if existsb label_matches kvs
  then true
  else if existsb env_matches (container.Env cfg)
  then true
  else false.

(** The calls the inventory loop makes for one listed container: none
    when the filter excludes it, the inspection otherwise, and the clock
    when it is tracked. *)
Definition inventory_calls (m : Monitor) (w : World) (c : types.Container)
  : list call :=
  if excluded_by m (types.ID c) (display_name c) (types.Image c) then []
  else CallContainerInspect (types.ID c)
       :: (if tracked m w c then [CallNow] else []).

#[global] Instance relevant_dec (event : events.Message) : Decision (relevant event).
Proof. unfold relevant. apply _. Defined.

(** A runtime event the handler puts on the channel, in the world [w]:
    relevant, not excluded, inspected and classified. *)
Definition emits (m : Monitor) (w : World) (event : events.Message) : bool :=
  bool_decide (relevant event)
  && negb (excluded_by m (event_id event) (event_name event) (event_image event))
  && match containerInspect w (event_id event) with
     | Reply info =>
         match types.Config info with
         | Some cfg => classify cfg
         | None => false
         end
     | Failure _ => false
     end.

(** A runtime event as the daemon sends them: when it is a container
    event with an allowed action, its actor's identity is a container
    identity, of 12 bytes or more, and an inspection that succeeds
    carries a configuration.  Events of other categories (images,
    networks, volumes) name their actor as they like. *)
Definition docker_event (x : World * events.Message) : Prop :=
  relevant x.2 →
  (12 ≤ String.length (event_id x.2))%nat
  ∧ (∀ info, containerInspect x.1 (event_id x.2) = Reply info →
       is_Some (types.Config info)).

(** The wake-ups of the consumption goroutine on the events [evs]. *)
Definition event_wakes (evs : list (World * events.Message))
  : list (World * select_case) :=
  map (λ x, (x.1, EventsChan x.2)) evs.

(** A wake-up that ends the consumption goroutine. *)
Definition ends_consumption (c : select_case) : Prop :=
  match c with
  | EventsChan _ => False
  | _ => True
  end.

(** The state with [evs] appended to the channel's buffer. *)
Definition queued (st : State) (evs : list ActivityEvent) : State :=
  set_chan st {| buf := buf (activityChan st) ++ evs;
                 cap := cap (activityChan st);
                 closed := closed (activityChan st) |}.

(** What the heartbeat may do on the outside: log, handle its ticker,
    and call the daemon, the clock and ECS. *)
Definition heartbeat_effect (e : Effect) : Prop :=
  match e with
  | Act (Log _) | Act (NewTicker _) | Act TickerStop | Call _ => True
  | _ => False
  end.

(** The attributes [SendActivitySignal] puts. *)
Definition activity_attributes (hasActivity : bool) (t : time.Time)
  : list (string * string) :=
  [ ("azure-agent-activity", if hasActivity then "active" else "inactive");
    ("azure-agent-last-check", fmt.Sprintf_d (time.UnixOf t)) ].

(** ** The construction of the notifier

    [NewECSNotifier], [getAWSRegion], [fetchInstanceInfo] and
    [GetClusterInfo] talk to the process environment, the instance
    metadata service and the ECS control plane.  They run before any
    goroutine is started; a computation [setup A] reads the answers of
    the outside from a [Cloud] and hands back how it ended and what it
    did, oldest first. *)

Module ecstypes.

(** [types.ContainerInstance] of the ECS SDK, as far as it is read;
    both fields are pointers. *)
Record ContainerInstance := {
  Ec2InstanceId : option string;
  ContainerInstanceArn : option string;
}.

(** [types.Cluster]; the name and the status are pointers, the counts
    are [int32]. *)
Record Cluster := {
  ClusterName : option string;
  Status : option string;
  RunningTasksCount : Z;
  PendingTasksCount : Z;
  ActiveServicesCount : Z;
}.

End ecstypes.

(** What the outside answers during the construction.  [getMetadata] is
    the answer of [GetMetadata] and, when it hands back a content, what
    the one [Read] into the 256-byte buffer returns: the bytes read and
    the error. *)
Record Cloud := {
  environ : gmap string string;
  loadDefaultConfig : string → option error;
  getMetadata : string → reply (string * option error);
  listContainerInstances : string → reply (list string);
  describeContainerInstances :
    string → list string → reply (list ecstypes.ContainerInstance);
  describeClusters : list string → reply (list ecstypes.Cluster);
}.

Inductive SetupLine : Type :=
| LogWarningFetch (err : error)
    (* "Warning: Failed to fetch ECS instance info: %v" *)
| LogFoundInstance (arn : string).
    (* "Found ECS container instance: %s" *)

Inductive SetupEffect : Type :=
| SetupLog (l : SetupLine)
| DidLoadDefaultConfig (region : string)
| DidGetMetadata (path : string)
| DidRead                                   (* [instanceID.Read(buf)] *)
| DidClose                                  (* [instanceID.Close()] *)
| DidListContainerInstances (cluster : string)
| DidDescribeContainerInstances (cluster : string) (containerInstances : list string)
| DidDescribeClusters (clusters : list string).

Definition setup (A : Type) : Type := Cloud → outcome A * list SetupEffect.

#[global] Instance setup_ret : MRet setup := λ A a _, (Ok a, []).

#[global] Instance setup_bind : MBind setup := λ A B f p cloud,
  match p cloud with
  | (Ok a, es) => let r := f a cloud in (r.1, es ++ r.2)
  | (Panic, es) => (Panic, es)
  | (Blocked, es) => (Blocked, es)
  end.

(** A question to the outside, recorded as [e]. *)
Definition ask {A : Type} (e : SetupEffect) (f : Cloud → A) : setup A :=
  λ cloud, (Ok (f cloud), [e]).

Definition setup_log (l : SetupLine) : setup unit := ask (SetupLog l) (λ _, tt).

(** [defer e]: [e] runs when the rest is over, however it ends. *)
Definition defer {A : Type} (e : SetupEffect) (p : setup A) : setup A :=
  λ cloud, let r := p cloud in (r.1, r.2 ++ [e]).

(** The dereference of a nil pointer. *)
Definition nil_dereference {A : Type} : setup A := λ _, (Panic, []).

(** [os.Getenv]: the value, or the empty string when the variable is not
    set. *)
Definition Getenv (key : string) : setup string :=
  λ cloud, (Ok (default "" (environ cloud !! key)), []).

(** [func getAWSRegion() string]. *)
Definition getAWSRegion : setup string :=
  region ← Getenv "AWS_REGION";
  if negb (String.eqb region "") then mret region
  else
    region ← Getenv "AWS_DEFAULT_REGION";
    if negb (String.eqb region "") then mret region
    else mret "us-east-1".

(** The notifier with its instance identity set. *)
Definition with_arn (n : ECSNotifier) (arn : string) : ECSNotifier :=
  {| clusterName := clusterName n;
     containerInstanceARN := arn;
     heartbeatInterval := heartbeatInterval n |}.

(** The loop of [fetchInstanceInfo] over the described instances, and
    the error after it. *)
Fixpoint find_instance (n : ECSNotifier) (instanceIDStr : string)
    (instances : list ecstypes.ContainerInstance)
  : setup (ECSNotifier * option error) :=
  match instances with
  | [] =>
      mret (n, Some (Errorf ("could not find container instance for EC2 instance "
                             +:+ instanceIDStr)))
  | instance :: rest =>
      match ecstypes.Ec2InstanceId instance with
      | Some ec2 =>
          if String.eqb ec2 instanceIDStr
          then
            match ecstypes.ContainerInstanceArn instance with
            | None => nil_dereference
            | Some arn =>
                setup_log (LogFoundInstance arn);;
                mret (with_arn n arn, None)
            end
          else find_instance n instanceIDStr rest
      | None => find_instance n instanceIDStr rest
      end
  end.

(** [func (n *ECSNotifier) fetchInstanceInfo() error]; the notifier is
    handed back as the call leaves it. *)
Definition fetchInstanceInfo (n : ECSNotifier) : setup (ECSNotifier * option error) :=
  instanceIDOutput ← ask (DidGetMetadata "instance-id")
                         (λ cloud, getMetadata cloud "instance-id");
  match instanceIDOutput with
  | Failure err => mret (n, Some (ErrorfW "failed to get instance ID" err))
  | Reply content =>
      defer DidClose (
        read ← ask DidRead (λ _, content);
        match read.2 with
        | Some err => mret (n, Some (ErrorfW "failed to read instance ID" err))
        | None =>
            let instanceIDStr := read.1 in
            result ← ask (DidListContainerInstances (clusterName n))
                         (λ cloud, listContainerInstances cloud (clusterName n));
            match result with
            | Failure err =>
                mret (n, Some (ErrorfW "failed to list container instances" err))
            | Reply containerInstanceArns =>
                if (length containerInstanceArns =? 0)%nat
                then mret (n, Some (Errorf "no container instances found in cluster"))
                else
                  describeResult ←
                    ask (DidDescribeContainerInstances (clusterName n)
                           containerInstanceArns)
                        (λ cloud, describeContainerInstances cloud (clusterName n)
                                    containerInstanceArns);
                  match describeResult with
                  | Failure err =>
                      mret (n, Some (ErrorfW "failed to describe container instances"
                                       err))
                  | Reply instances => find_instance n instanceIDStr instances
                  end
            end
        end)
  end.

(** [func NewECSNotifier(clusterName string, heartbeatInterval time.Duration)],
    which returns the notifier and an error. *)
Definition NewECSNotifier (cluster : string) (interval : Z)
  : setup (option ECSNotifier * option error) :=
  region ← getAWSRegion;
  err ← ask (DidLoadDefaultConfig region) (λ cloud, loadDefaultConfig cloud region);
  match err with
  | Some e => mret (None, Some (ErrorfW "failed to load AWS config" e))
  | None =>
      let notifier := {| clusterName := cluster;
                         containerInstanceARN := "";
                         heartbeatInterval := interval |} in
      fetched ← fetchInstanceInfo notifier;
      match fetched.2 with
      | Some e =>
          setup_log (LogWarningFetch e);;
          mret (Some fetched.1, None)
      | None => mret (Some fetched.1, None)
      end
  end.

(** What a value of the [map[string]interface{}] of [GetClusterInfo]
    holds. *)
Inductive Value : Type :=
| VString (p : option string)     (* a [*string] *)
| VInt32 (n : Z).                 (* an [int32] *)

(** [func (n *ECSNotifier) GetClusterInfo() (map[string]interface{}, error)];
    a nil map is [None]. *)
Definition GetClusterInfo (n : ECSNotifier)
  : setup (option (gmap string Value) * option error) :=
  result ← ask (DidDescribeClusters [clusterName n])
               (λ cloud, describeClusters cloud [clusterName n]);
  match result with
  | Failure err => mret (None, Some (ErrorfW "failed to describe cluster" err))
  | Reply clusters =>
      match clusters with
      | [] => mret (None, Some (Errorf "cluster not found"))
      | cluster :: _ =>
          mret (Some {[ "name" := VString (ecstypes.ClusterName cluster);
                        "status" := VString (ecstypes.Status cluster);
                        "runningTasksCount" :=
                          VInt32 (ecstypes.RunningTasksCount cluster);
                        "pendingTasksCount" :=
                          VInt32 (ecstypes.PendingTasksCount cluster);
                        "activeServicesCount" :=
                          VInt32 (ecstypes.ActiveServicesCount cluster) ]},
                None)
      end
  end.

(** The calls to the metadata service and to ECS in a trace. *)
Definition is_aws_call (e : SetupEffect) : bool :=
  match e with
  | SetupLog _ => false
  | _ => true
  end.

(** The first described instance that runs on the EC2 instance [id]. *)
Definition first_match (id : string) (instances : list ecstypes.ContainerInstance)
  : option ecstypes.ContainerInstance :=
  find (λ i, bool_decide (ecstypes.Ec2InstanceId i = Some id)) instances.

(** ** The command [cmd/main.go], where it uses the monitor and the notifier *)

Inductive MainLine : Type :=
| LogActivityReceived (containerName containerID action imageName : string)
    (* "[ACTIVITY] Container: %s (%s) - Action: %s - Image: %s" *)
| LogErrorNotifying (err : error)
    (* "Error notifying ECS: %v" *)
| LogShutdownReceived
    (* "\nShutdown signal received, stopping..." *)
| LogApplicationStopped.
    (* "Application stopped successfully" *)

(** Code of the command: its own log lines, [notifier.Stop()], and the
    calls into the package. *)
Inductive main_prog : Type :=
| MainDone
| MainLog (l : MainLine) (k : main_prog)
| MainNotifierStop (k : main_prog)
| MainLib {B : Type} (p : prog B) (k : B → main_prog).

Inductive MainEffect : Type :=
| Printed (l : MainLine)
| NotifierStopped
| InPackage (e : Effect).

Record MainRun := {
  main_result : outcome unit;
  main_final : State;
  main_effects : list MainEffect;
}.

Fixpoint run_main (p : main_prog) (st : State) : MainRun :=
  match p with
  | MainDone => {| main_result := Ok tt; main_final := st; main_effects := [] |}
  | MainLog l k =>
      let r := run_main k st in
      {| main_result := main_result r; main_final := main_final r;
         main_effects := Printed l :: main_effects r |}
  | MainNotifierStop k =>
      let r := run_main k st in
      {| main_result := main_result r; main_final := main_final r;
         main_effects := NotifierStopped :: main_effects r |}
  | MainLib p k =>
      let q := run p st in
      match result q with
      | Ok b =>
          let r := run_main (k b) (final q) in
          {| main_result := main_result r; main_final := main_final r;
             main_effects := map InPackage (effects q) ++ main_effects r |}
      | Panic =>
          {| main_result := Panic; main_final := final q;
             main_effects := map InPackage (effects q) |}
      | Blocked =>
          {| main_result := Blocked; main_final := final q;
             main_effects := map InPackage (effects q) |}
      end
  end.

(** The body of [for event := range activityChan] in the goroutine of
    the command; [notifier] is nil in monitor-only mode and when the
    notifier could not be made. *)
Definition on_activity (notifier : option ECSNotifier) (event : ActivityEvent)
  : main_prog :=
  MainLog (LogActivityReceived (ContainerName event) (ContainerID event)
             (Action event) (ImageName event))
    match notifier with
    | Some n =>
        if String.eqb (Action event) "start" || String.eqb (Action event) "exec_start"
        then
          MainLib (NotifyActivity n event) (λ err,
            match err with
            | Some e => MainLog (LogErrorNotifying e) MainDone
            | None => MainDone
            end)
        else MainDone
    | None => MainDone
    end.

(** The end of [main], from the shutdown signal on: the explicit stops,
    then the [monitor.Stop()] deferred at the start. *)
Definition shutdown (notifier : option ECSNotifier) (monitor : Monitor) : main_prog :=
  MainLog LogShutdownReceived
    (let stop_monitor :=
       MainLib (Stop monitor) (λ _,
         MainLog LogApplicationStopped
           (MainLib (Stop monitor) (λ _, MainDone))) in
     match notifier with
     | Some _ => MainNotifierStop stop_monitor
     | None => stop_monitor
     end).

(** The calls to ECS among the effects of the command. *)
Definition ecs_calls (es : list MainEffect) : list call :=
  omap (λ e, match e with
             | InPackage (Call c) => if is_ecs_call c then Some c else None
             | _ => None
             end) es.

(** ** More sample inputs *)

Module fixture.

(** An instance of the cluster, on the EC2 instance [ec2]. *)
Definition instance (ec2 arn : string) : ecstypes.ContainerInstance :=
  {| ecstypes.Ec2InstanceId := Some ec2;
     ecstypes.ContainerInstanceArn := Some arn |}.

Definition build_cluster : ecstypes.Cluster :=
  {| ecstypes.ClusterName := Some "build-cluster";
     ecstypes.Status := Some "ACTIVE";
     ecstypes.RunningTasksCount := 3;
     ecstypes.PendingTasksCount := 0;
     ecstypes.ActiveServicesCount := 1 |}.

(** A cloud in which the process runs on the EC2 instance
    "i-0abc", the second of two instances of the cluster. *)
Definition cloud : Cloud :=
  {| environ := {[ "AWS_DEFAULT_REGION" := "eu-west-1" ]};
     loadDefaultConfig := λ _, None;
     getMetadata := λ _, Reply ("i-0abc", None);
     listContainerInstances := λ _, Reply ["arn:1"; "arn:2"];
     describeContainerInstances := λ _ _,
       Reply [instance "i-0fff" "arn:1"; instance "i-0abc" "arn:2"];
     describeClusters := λ _, Reply [build_cluster] |}.

(** The same without a metadata service. *)
Definition off_ec2 : Cloud :=
  {| environ := ∅;
     loadDefaultConfig := λ _, None;
     getMetadata := λ _, Failure (ErrExternal "no route to host");
     listContainerInstances := λ _, Reply ["arn:1"; "arn:2"];
     describeContainerInstances := λ _ _,
       Reply [instance "i-0fff" "arn:1"; instance "i-0abc" "arn:2"];
     describeClusters := λ _, Reply [] |}.

Definition resolved : ECSNotifier :=
  {| clusterName := "build-cluster";
     containerInstanceARN := "arn:2";
     heartbeatInterval := 30 * time.Second |}.

(** A listed container that is no agent. *)
Definition web_container : types.Container :=
  {| types.ID := "9d8c7b6a5f4e3d2c1b0a9f8e7d6c5b4a3f2e1d0c9b8a7f6e5d4c3b2a1f0e9d8c";
     types.Names := ["/web"];
     types.Image := "nginx:latest";
     types.Created := 1700000000 |}.

(** A daemon that lists [containers] and inspects each to a configuration
    with its listed image. *)
Definition world_of (containers : list types.Container) (clock : time.Time)
  : World :=
  {| containerList := Reply containers;
     containerInspect := λ id,
       match find (λ c, String.eqb (types.ID c) id) containers with
       | Some c => Reply (sample.inspected (types.Image c) [] ∅)
       | None => Failure (ErrExternal "No such container")
       end;
     now := clock;
     putAttributes := None;
     updateContainerInstancesState := None |}.

End fixture.

(** * Proofs *)

Section StringFacts.

Lemma HasPrefix_app (pre r : string) : strings.HasPrefix (pre +:+ r) pre = true.
Proof.
  induction pre as [|a pre IH]; simpl; [done|].
  by rewrite Ascii.eqb_refl, IH.
Qed.

Lemma HasPrefix_split (s pre : string) :
  strings.HasPrefix s pre = true → ∃ r, s = pre +:+ r.
Proof.
  revert s. induction pre as [|a pre IH]; intros s H; simpl in *.
  - by exists s.
  - destruct s as [|b s]; [done|].
    apply andb_true_iff in H as [Hab Hs].
    apply Ascii.eqb_eq in Hab as ->.
    destruct (IH _ Hs) as [r ->]. by exists r.
Qed.

Lemma Contains_occurs (s sub : string) :
  strings.Contains s sub = true ↔ strings.occurs_in sub s.
Proof.
  unfold strings.occurs_in. split.
  - induction s as [|c s IH]; simpl; intros H.
    + rewrite orb_false_r in H. apply HasPrefix_split in H as [r ->].
      by exists "", r.
    + apply orb_true_iff in H as [H|H].
      * apply HasPrefix_split in H as [r ->]. by exists "", r.
      * destruct (IH H) as (l & r & ->). by exists (String c l), r.
  - intros (l & r & ->). induction l as [|c l IH]; simpl.
    + assert (strings.HasPrefix (sub +:+ r) sub = true) as Hp by apply HasPrefix_app.
      destruct (sub +:+ r); simpl in *; rewrite Hp; done.
    + rewrite IH. by rewrite orb_true_r.
Qed.

Lemma Contains_not_occurs (s sub : string) :
  strings.Contains s sub = false ↔ ¬ strings.occurs_in sub s.
Proof.
  rewrite <- Contains_occurs. by destruct (strings.Contains s sub).
Qed.

Lemma slice_to_Some (s : string) (n : nat) :
  (n ≤ String.length s)%nat →
  strings.slice_to s n = Some (String.substring 0 n s).
Proof.
  intros H. unfold strings.slice_to.
  by destruct (Nat.leb_spec n (String.length s)); [|lia].
Qed.

Lemma slice_to_None (s : string) (n : nat) :
  (String.length s < n)%nat → strings.slice_to s n = None.
Proof.
  intros H. unfold strings.slice_to.
  by destruct (Nat.leb_spec n (String.length s)); [lia|].
Qed.

Lemma slice_to_inv (s p : string) (n : nat) :
  strings.slice_to s n = Some p →
  (n ≤ String.length s)%nat ∧ p = String.substring 0 n s.
Proof.
  unfold strings.slice_to.
  destruct (Nat.leb_spec n (String.length s)); [|done].
  intros [= <-]. done.
Qed.

End StringFacts.

(** ** The classifier *)

Section Classifier.

Lemma image_rule_decided (image : string) :
  (let s := strings.ToLower image in
   strings.Contains s "azure" && strings.Contains s "agent"
   || (strings.Contains s "azp" || strings.Contains s "vsts")) = true
  ↔ image_rule image.
Proof.
  unfold image_rule. cbv zeta.
  rewrite !orb_true_iff, andb_true_iff, !Contains_occurs. tauto.
Qed.

Lemma label_matches_spec (k v : string) :
  label_matches (k, v) = true ↔
    (strings.occurs_in "azure" (strings.ToLower k)
     ∨ strings.occurs_in "azure" (strings.ToLower v))
    ∧ (strings.occurs_in "agent" (strings.ToLower k)
       ∨ strings.occurs_in "agent" (strings.ToLower v)).
Proof.
  unfold label_matches. cbn [fst snd]. cbv zeta.
  rewrite <- !Contains_occurs, <- !orb_true_iff.
  destruct (_ || _); [tauto|]. split; [done|]. intros [? _]. done.
Qed.

Lemma label_rule_decided (labels : gmap string string) :
  existsb label_matches (map_to_list labels) = true ↔ label_rule labels.
Proof.
  unfold label_rule. rewrite existsb_exists. split.
  - intros ([k v] & Hin & Hm).
    apply list_elem_of_In, elem_of_map_to_list in Hin.
    exists k, v. split; [done|]. by apply label_matches_spec.
  - intros (k & v & Hkv & Hm).
    exists (k, v). split.
    + by apply list_elem_of_In, elem_of_map_to_list.
    + by apply label_matches_spec.
Qed.

Lemma env_rule_decided (env : list string) :
  existsb env_matches env = true ↔ env_rule env.
Proof.
  unfold env_rule. rewrite existsb_exists. unfold env_matches. cbv zeta.
  split.
  - intros (e & Hin & Hm). exists e. split; [by apply list_elem_of_In|].
    by rewrite orb_true_iff, !Contains_occurs in Hm.
  - intros (e & Hin & Hm). exists e. split; [by apply list_elem_of_In|].
    by rewrite orb_true_iff, !Contains_occurs.
Qed.

Lemma classify_spec (cfg : container.Config) :
  classify cfg = true ↔ agent_rule cfg.
Proof.
  unfold agent_rule.
  rewrite <- image_rule_decided, <- label_rule_decided, <- env_rule_decided.
  unfold classify. cbv zeta.
  destruct (_ && _); [rewrite orb_true_l; tauto|]. rewrite orb_false_l.
  destruct (_ || _); [tauto|].
  destruct (existsb label_matches _); [tauto|].
  destruct (existsb env_matches _); [tauto|].
  split; [done|]. intros [?|[?|?]]; done.
Qed.

Lemma nginx_image_no_rule : ¬ image_rule "nginx:latest".
Proof.
  rewrite <- image_rule_decided. vm_compute. done.
Qed.

End Classifier.

(** C1.  For every container configuration, [IsAzureAgentContainer]
    returns [true] exactly when rule (a), (b) or (c) holds, and [false]
    otherwise; with the image "nginx:latest" and no matching label or
    environment entry it returns [false]. *)
Theorem C1_classifier_rules :
  (∀ cfg : container.Config,
     let info := {| types.Config := Some cfg |} in
     (IsAzureAgentContainer info = Ok true ↔ agent_rule cfg)
     ∧ (IsAzureAgentContainer info = Ok false ↔ ¬ agent_rule cfg))
  ∧ (∀ (env : list string) (labels : gmap string string),
       ¬ label_rule labels → ¬ env_rule env →
       IsAzureAgentContainer
         {| types.Config :=
              Some {| container.Image := "nginx:latest";
                      container.Env := env;
                      container.Labels := labels |} |} = Ok false).
Proof.
  assert (∀ cfg, (IsAzureAgentContainer {| types.Config := Some cfg |} = Ok true
                  ↔ agent_rule cfg)
                 ∧ (IsAzureAgentContainer {| types.Config := Some cfg |} = Ok false
                    ↔ ¬ agent_rule cfg)) as Hall.
  { intros cfg. unfold IsAzureAgentContainer. cbn [types.Config].
    rewrite <- classify_spec.
    destruct (classify cfg); split; split; intros H; try done; by inversion H. }
  split; [exact Hall|].
  intros env labels Hl He. apply Hall.
  unfold agent_rule. cbn. intros [H|[H|H]]; [|done..].
  by apply nginx_image_no_rule.
Qed.

Lemma C1_classifier_rules_witness :
  IsAzureAgentContainer
    {| types.Config :=
         Some {| container.Image := "nginx:latest";
                 container.Env := ["PORT=8080"];
                 container.Labels := ∅ |} |} = Ok false.
Proof.
  apply (proj2 C1_classifier_rules).
  - intros (k & v & Hkv & _). by rewrite lookup_empty in Hkv.
  - rewrite <- env_rule_decided. vm_compute. done.
Defined.

(** ** Runs *)

Section Runs.
Context {A B : Type}.

Lemma after_then_run (e : Effect) (r : Run A) (f : A → State → Run B) :
  then_run (after e r) f = after e (then_run r f).
Proof. unfold then_run, after. cbn. by destruct (result r). Qed.

Lemma run_bind (p : prog A) (f : A → prog B) (st : State) :
  run (p ≫= f) st = then_run (run p st) (λ a, run (f a)).
Proof.
  unfold mbind, prog_bind. revert st.
  induction p as [a| | |a k IH|k IH|id k IH|k IH|c at' k IH|c i s k IH|w k IH];
    intros st; cbn [bind run].
  - unfold then_run. cbn. by destruct (run (f a) st).
  - done.
  - done.
  - destruct (perform a st); [|done..]. by rewrite IH, after_then_run.
  - by rewrite IH, after_then_run.
  - by rewrite IH, after_then_run.
  - by rewrite IH, after_then_run.
  - by rewrite IH, after_then_run.
  - by rewrite IH, after_then_run.
  - by rewrite IH.
Qed.

End Runs.

Lemma run_log (l : LogLine) (st : State) :
  run (log l) st = {| result := Ok tt; final := st; effects := [Act (Log l)] |}.
Proof. done. Qed.

Lemma run_slice12_ok (s : string) (st : State) :
  (12 ≤ String.length s)%nat →
  run (slice12 s) st = halt (Ok (String.substring 0 12 s)) st.
Proof. intros H. unfold slice12. by rewrite slice_to_Some. Qed.

Lemma run_slice12_short (s : string) (st : State) :
  (String.length s < 12)%nat → run (slice12 s) st = halt Panic st.
Proof. intros H. unfold slice12. by rewrite slice_to_None. Qed.

(** ** The exclusion filter *)

Section Exclusion.
Context (m : Monitor) (containerID containerName imageName : string).

Lemma find_existsb {X : Type} (f : X → bool) (l : list X) :
  existsb f l = bool_decide (is_Some (find f l)).
Proof.
  induction l as [|x l IH]; cbn; [done|].
  destruct (f x); cbn; done.
Qed.

Lemma excluded_by_spec :
  excluded_by m containerID containerName imageName = true
  ↔ exclusion_rule m containerID containerName imageName.
Proof.
  unfold excluded_by, exclusion_rule.
  rewrite orb_true_iff, !existsb_exists. split.
  - intros [(e & Hin & H)|(e & Hin & H)]; [left|right]; exists e;
      (split; [by apply list_elem_of_In|]).
    + by rewrite orb_true_iff, !Contains_occurs in H.
    + by rewrite Contains_occurs in H.
  - intros [(e & Hin & H)|(e & Hin & H)]; [left|right]; exists e;
      (split; [by apply list_elem_of_In|]).
    + by rewrite orb_true_iff, !Contains_occurs.
    + by rewrite Contains_occurs.
Qed.

(** A container no entry matches: [false], and nothing is logged. *)
Lemma isExcluded_false (st : State) :
  excluded_by m containerID containerName imageName = false →
  run (isExcluded m containerID containerName imageName) st = halt (Ok false) st.
Proof.
  unfold excluded_by. rewrite orb_false_iff, !find_existsb.
  intros [H1 H2]. unfold isExcluded.
  apply bool_decide_eq_false in H1, H2.
  destruct (find _ (excludeContainers m)); [by destruct H1|].
  destruct (find _ (excludeImages m)); [by destruct H2|]. done.
Qed.

(** A container some entry matches, with an identity of 12 bytes or
    more: [true], after one log line that is not a warning. *)
Lemma isExcluded_true (st : State) :
  excluded_by m containerID containerName imageName = true →
  (12 ≤ String.length containerID)%nat →
  ∃ l, is_warning l = false ∧
       run (isExcluded m containerID containerName imageName) st
       = {| result := Ok true; final := st; effects := [Act (Log l)] |}.
Proof.
  unfold excluded_by. rewrite orb_true_iff, !find_existsb.
  intros H Hlen. unfold isExcluded.
  destruct (find _ (excludeContainers m)) as [e|].
  - eexists. split; [|rewrite run_bind, run_slice12_ok by done; reflexivity]. done.
  - destruct H as [H|H]; [by apply bool_decide_eq_true in H as [? ?]|].
    apply bool_decide_eq_true in H as [e He]. rewrite He.
    eexists. split; [|rewrite run_bind, run_slice12_ok by done; reflexivity]. done.
Qed.

(** A container some entry matches, with a shorter identity: the slice
    in the log line panics. *)
Lemma isExcluded_panic (st : State) :
  excluded_by m containerID containerName imageName = true →
  (String.length containerID < 12)%nat →
  run (isExcluded m containerID containerName imageName) st = halt Panic st.
Proof.
  unfold excluded_by. rewrite orb_true_iff, !find_existsb.
  intros H Hlen. unfold isExcluded.
  destruct (find _ (excludeContainers m)) as [e|].
  - by rewrite run_bind, run_slice12_short.
  - destruct H as [H|H]; [by apply bool_decide_eq_true in H as [? ?]|].
    apply bool_decide_eq_true in H as [e He]. rewrite He.
    by rewrite run_bind, run_slice12_short.
Qed.

(** [isExcluded] only logs, never a warning, and leaves the state
    alone; it returns [false] when no entry matches, [true] when one
    does and the identity has 12 bytes, and panics when one does and the
    identity is shorter. *)
Lemma isExcluded_cases (st : State) :
  let r := run (isExcluded m containerID containerName imageName) st in
  final r = st
  ∧ (∃ ls, effects r = map (λ l, Act (Log l)) ls
           ∧ Forall (λ l, is_warning l = false) ls)
  ∧ (result r = Ok false ∧ excluded_by m containerID containerName imageName = false
     ∧ effects r = []
     ∨ result r = Ok true ∧ excluded_by m containerID containerName imageName = true
       ∧ (12 ≤ String.length containerID)%nat
     ∨ result r = Panic ∧ excluded_by m containerID containerName imageName = true
       ∧ (String.length containerID < 12)%nat ∧ effects r = []).
Proof.
  cbv zeta.
  destruct (excluded_by m containerID containerName imageName) eqn:He.
  - destruct (Nat.le_gt_cases 12 (String.length containerID)) as [Hl|Hl].
    + destruct (isExcluded_true st He Hl) as (l & Hw & ->). cbn.
      split; [done|]. split; [|right; left; done].
      exists [l]. split; [done|]. by apply Forall_singleton.
    + rewrite (isExcluded_panic st He Hl). cbn.
      split; [done|]. split; [|right; right; done].
      by exists [].
  - rewrite (isExcluded_false st He). cbn.
    split; [done|]. split; [|left; done].
    by exists [].
Qed.

End Exclusion.

(** ** The inventory pass *)

Lemma inventory_effect_logs (ls : list LogLine) :
  Forall inventory_effect (map (λ l, Act (Log l)) ls).
Proof. induction ls; cbn; constructor; done. Qed.

Lemma inventory_effects_quiet (es : list Effect) :
  Forall inventory_effect es →
  sends es = [] ∧ subscriptions es = []
  ∧ (∀ c, c ∈ calls es → is_ecs_call c = false).
Proof.
  induction 1 as [|e es He _ (IH1 & IH2 & IH3)].
  - repeat split; try done. intros c Hc. by apply elem_of_nil in Hc.
  - unfold sends, subscriptions, calls in *.
    destruct e as [[]|[]]; try done; cbn; rewrite ?IH1, ?IH2; repeat split;
      try done; intros c Hc; try (by apply IH3);
      apply elem_of_cons in Hc as [->|Hc]; try done; by apply IH3.
Qed.

Section Scan.
Context (m : Monitor).

Lemma scan_run (containers : list types.Container) :
  ∀ (agents : list ActivityEvent) (st : State),
    scan_post m st containers agents (run (scan m containers agents) st).
Proof.
  induction containers as [|c rest IH]; intros agents st.
  - cbn. unfold scan_post. cbn. split_post ltac:(done).
    + injection Hout as <-. by rewrite app_nil_r.
    + by eexists.
  - cbn [scan]. unfold scan_post. cbn [List.filter].
    destruct (types.Names c !! 0%nat) as [name0|] eqn:Hn.
    2:{ cbn. split_post ltac:(done); [done|].
        apply Forall_cons in Hwf as [(_ & Hnames & _) _].
        by destruct (types.Names c). }
    assert (tracked m (world st) c
            = negb (excluded_by m (types.ID c) (strings.TrimPrefix name0 "/")
                      (types.Image c))
              && match containerInspect (world st) (types.ID c) with
                 | Reply info =>
                     match types.Config info with
                     | Some cfg => classify cfg
                     | None => false
                     end
                 | Failure _ => false
                 end) as Htr.
    { unfold tracked, display_name. by rewrite Hn. }
    rewrite Htr. clear Htr.
    rewrite run_bind.
    pose proof (isExcluded_cases m (types.ID c) (strings.TrimPrefix name0 "/")
                  (types.Image c) st) as (Hf & (ls & Hls & _) & Hcase).
    pose proof (inventory_effect_logs ls) as Hq. rewrite <- Hls in Hq.
    destruct Hcase as [(Hr & He & Heff)|[(Hr & He & Hlen)|(Hr & He & Hlen & Heff)]];
      unfold then_run; rewrite Hr; cbn [result final effects]; rewrite He;
      cbn [negb andb].
    + (* not excluded *)
      rewrite Hf, Heff. cbn [app run].
      destruct (containerInspect (world st) (types.ID c)) as [info|err] eqn:Hi.
      * rewrite run_bind. unfold IsAzureAgentContainer.
        destruct (types.Config info) as [cfg|] eqn:Hcfg.
        2:{ cbn. split_post ltac:(by repeat constructor); [done|].
            apply Forall_cons in Hwf as [(_ & _ & Hcf) _].
            destruct (Hcf info Hi) as [? Hsome]. congruence. }
        unfold then_run. cbn [lift run halt result final effects app].
        destruct (classify cfg) eqn:Hcl.
        -- rewrite run_bind. unfold slice12, then_run.
           destruct (strings.slice_to (types.ID c) 12) as [id12|] eqn:Hsl.
           2:{ cbn. split_post ltac:(by repeat constructor); [done|].
               apply Forall_cons in Hwf as [(Hlen & _) _].
               by rewrite slice_to_Some in Hsl. }
           apply slice_to_inv in Hsl as [Hlen ->].
           cbn [run halt result final effects app].
           destruct (IH (agents ++
               [{| ContainerID := String.substring 0 12 (types.ID c);
                   ContainerName := strings.TrimPrefix name0 "/";
                   ImageName := types.Image c; Action := "running";
                   Timestamp := now (world st); IsAzureAgent := true |}]) st)
             as (IH1 & IH2 & IH3 & IH4 & IH5).
           cbn [after result final effects].
           split_post ltac:(by repeat constructor).
           ++ destruct (IH4 out Hout) as [-> Hall]. split; [|by constructor].
              cbn [map]. rewrite <- app_assoc. f_equal. cbn. f_equal.
              unfold running_event, display_name. by rewrite Hn.
           ++ apply Forall_cons in Hwf as [_ Hwf]. by apply IH5.
        -- destruct (IH agents st) as (IH1 & IH2 & IH3 & IH4 & IH5).
           cbn [after result final effects].
           split_post ltac:(by repeat constructor).
           ++ by apply IH4.
           ++ apply Forall_cons in Hwf as [_ Hwf]. by apply IH5.
      * rewrite run_bind, run_log. unfold then_run.
        cbn [result final effects after app].
        destruct (IH agents st) as (IH1 & IH2 & IH3 & IH4 & IH5).
        split_post ltac:(by repeat constructor).
        -- by apply IH4.
        -- apply Forall_cons in Hwf as [_ Hwf]. by apply IH5.
    + (* excluded *)
      rewrite Hf.
      destruct (IH agents st) as (IH1 & IH2 & IH3 & IH4 & IH5).
      split_post ltac:(by apply Forall_app).
      * by apply IH4.
      * apply Forall_cons in Hwf as [_ Hwf]. by apply IH5.
    + rewrite Hf. split_post ltac:(done); [done|].
      apply Forall_cons in Hwf as [(Hlen' & _) _]. lia.
Qed.

End Scan.

Section Inventory.
Context (m : Monitor) (st : State).

(** The listing fails: the error is wrapped and returned. *)
Lemma GetRunningAzureAgents_failure (err : error) :
  containerList (world st) = Failure err →
  run (GetRunningAzureAgents m) st
  = {| result := Ok ([], Some (ErrorfW "failed to list containers" err));
       final := st; effects := [Call CallContainerList] |}.
Proof. intros H. cbn. by rewrite H. Qed.

(** The listing succeeds: the run is the run of the loop, after the
    call. *)
Lemma GetRunningAzureAgents_listing (containers : list types.Container) :
  containerList (world st) = Reply containers →
  run (GetRunningAzureAgents m) st
  = after (Call CallContainerList)
      (then_run (run (scan m containers []) st) (λ agents, run (Ret (agents, None)))).
Proof. intros H. cbn [GetRunningAzureAgents run]. by rewrite H, run_bind. Qed.

Lemma GetRunningAzureAgents_run :
  let r := run (GetRunningAzureAgents m) st in
  final r = st
  ∧ Forall inventory_effect (effects r)
  ∧ result r ≠ Blocked
  ∧ (∀ agents err, result r = Ok (agents, Some err) →
       agents = [] ∧ ∃ e, containerList (world st) = Failure e
                          ∧ err = ErrorfW "failed to list containers" e)
  ∧ (∀ agents, result r = Ok (agents, None) →
       ∃ containers, containerList (world st) = Reply containers
         ∧ agents = map (running_event (world st))
                        (List.filter (tracked m (world st)) containers)
         ∧ Forall (λ c, (12 ≤ String.length (types.ID c))%nat)
                  (List.filter (tracked m (world st)) containers))
  ∧ (∀ containers, containerList (world st) = Reply containers →
       Forall (well_formed (world st)) containers →
       ∃ agents, result r = Ok (agents, None)).
Proof.
  cbv zeta.
  destruct (containerList (world st)) as [containers|e] eqn:Hl.
  - rewrite (GetRunningAzureAgents_listing _ Hl).
    destruct (scan_run m containers [] st) as (H1 & H2 & H3 & H4 & H5).
    unfold then_run.
    destruct (result (run (scan m containers []) st)) as [out| |] eqn:Hr;
      [| |done].
    + cbn. rewrite app_nil_r.
      split; [done|]. split; [by constructor|]. split; [done|].
      split; [done|]. split.
      * intros agents [= <-]. eexists. split; [done|]. by apply H4.
      * intros ? _ _. by eexists.
    + cbn. split; [done|]. split; [by constructor|]. split; [done|].
      split; [done|]. split; [done|].
      intros ? [= <-] Hwf. by destruct (H5 Hwf).
  - rewrite (GetRunningAzureAgents_failure _ Hl). cbn.
    split; [done|]. split; [by repeat constructor|]. split; [done|].
    split; [|done].
    intros agents err' [= <- <-]. split; [done|]. by eexists.
Qed.

End Inventory.

(** ** Start of the monitoring *)

Lemma UnixOf_minute_before (t : time.Time) :
  time.UnixOf (time.Add t (-1 * time.Minute)) = time.UnixOf t - 60.
Proof.
  unfold time.UnixOf, time.Add, time.Minute.
  replace (t + -1 * (60 * time.Second)) with (t + (-60) * time.Second) by lia.
  rewrite Z.div_add by done. lia.
Qed.

Lemma sends_app (es es' : list Effect) : sends (es ++ es') = sends es ++ sends es'.
Proof. apply omap_app. Qed.

Lemma subscriptions_app (es es' : list Effect) :
  subscriptions (es ++ es') = subscriptions es ++ subscriptions es'.
Proof. apply omap_app. Qed.

Lemma sends_of_sends (evs : list ActivityEvent) :
  sends (map (λ ev, Act (Send ev)) evs) = evs.
Proof.
  induction evs as [|ev evs IH]; cbn; [done|].
  unfold sends in IH. by rewrite IH.
Qed.

Lemma subscriptions_of_sends (evs : list ActivityEvent) :
  subscriptions (map (λ ev, Act (Send ev)) evs) = [].
Proof. induction evs as [|ev evs IH]; cbn; done. Qed.

Lemma perform_send (ev : ActivityEvent) (st : State) :
  perform (Send ev) st = Panic
  ∨ perform (Send ev) st = Blocked
  ∨ closed (activityChan st) = false
    ∧ perform (Send ev) st
      = Ok (set_chan st {| buf := buf (activityChan st) ++ [ev];
                           cap := cap (activityChan st); closed := false |}).
Proof.
  unfold perform. destruct (closed (activityChan st)); [by left|].
  destruct (_ <? _)%nat; [|by right; left]. by right; right.
Qed.

Lemma set_chan_same (st : State) :
  set_chan st {| buf := buf (activityChan st) ++ [];
                 cap := cap (activityChan st);
                 closed := closed (activityChan st) |} = st.
Proof. destruct st as [? []]. unfold set_chan. cbn. by rewrite app_nil_r. Qed.

(** The sends of the inventory pass: a prefix of the agents goes onto the
    channel, all of them when the loop returns; nothing else changes. *)
Lemma send_all_run (agents : list ActivityEvent) :
  ∀ st : State,
    let r := run (send_all agents) st in
    ∃ sent rest,
      agents = sent ++ rest
      ∧ effects r = map (λ ev, Act (Send ev)) sent
      ∧ final r = set_chan st {| buf := buf (activityChan st) ++ sent;
                                 cap := cap (activityChan st);
                                 closed := closed (activityChan st) |}
      ∧ (result r = Ok tt → rest = []).
Proof.
  induction agents as [|ev agents IH]; intros st; cbv zeta.
  - exists [], []. cbn. by rewrite set_chan_same.
  - cbn [send_all]. rewrite run_bind. unfold send. cbn [run].
    destruct (perform_send ev st) as [->|[->|[Hc ->]]].
    + exists [], (ev :: agents). cbn. by rewrite set_chan_same.
    + exists [], (ev :: agents). cbn. by rewrite set_chan_same.
    + unfold then_run. cbn [after halt result final effects app].
      match goal with |- context [run (send_all agents) ?s] =>
        destruct (IH s) as (sent & rest & -> & Heff & Hfin & Hres) end.
      exists (ev :: sent), rest. cbn in *.
      rewrite Heff, Hfin, Hc. unfold set_chan. cbn. rewrite <- app_assoc. cbn.
      repeat split; done.
Qed.

Lemma send_all_returns (agents : list ActivityEvent) :
  ∀ st : State,
    closed (activityChan st) = false →
    (length (buf (activityChan st)) + length agents ≤ cap (activityChan st))%nat →
    result (run (send_all agents) st) = Ok tt.
Proof.
  induction agents as [|ev agents IH]; intros st Hc Hroom; [done|].
  cbn [send_all]. rewrite run_bind. unfold send. cbn [run].
  cbn [length] in Hroom.
  unfold perform. rewrite Hc.
  destruct (Nat.ltb_spec (length (buf (activityChan st))) (cap (activityChan st)));
    [|lia].
  unfold then_run. cbn [after halt result final effects].
  apply IH; cbn; [done|]. rewrite length_app. cbn. lia.
Qed.

Section Start.
Context (m : Monitor) (st : State).

Lemma StartMonitoring_run :
  let r := run (StartMonitoring m) st in
  ((∃ err, result r = Ok (Some err)) ↔ (∃ e, containerList (world st) = Failure e))
  ∧ (result r = Ok None →
     ∃ containers pre,
       containerList (world st) = Reply containers
       ∧ effects r
         = pre
           ++ map (λ ev, Act (Send ev))
                  (map (running_event (world st))
                       (List.filter (tracked m (world st)) containers))
           ++ [Call CallNow; Act (Events (lookback (world st))); Act Go]
       ∧ sends pre = [] ∧ subscriptions pre = []
       ∧ buf (activityChan (final r))
         = buf (activityChan st)
           ++ map (running_event (world st))
                  (List.filter (tracked m (world st)) containers)).
Proof.
  cbv zeta. unfold StartMonitoring. rewrite run_bind.
  destruct (GetRunningAzureAgents_run m st) as (Hf & Hq & Hnb & Herr & Hok & _).
  unfold then_run.
  destruct (result (run (GetRunningAzureAgents m) st))
    as [[agents [err|]]| |] eqn:Hr; cbn [fst snd].
  - (* the listing failed *)
    destruct (Herr _ _ eq_refl) as (-> & e & He & ->).
    cbn. split; [|by intros [=]]. split; intros _; eauto.
  - (* the listing succeeded *)
    destruct (Hok _ eq_refl) as (containers & Hl & Hag & _).
    rewrite Hf, run_bind, run_log. cbn [then_run result final effects].
    rewrite run_bind.
    destruct (send_all_run agents st) as (sent & rest & Hsplit & Heff & Hfin & Hres).
    unfold then_run.
    destruct (result (run (send_all agents) st)) as [[]| |] eqn:Hrs;
      cbn [result final effects run after act halt perform mbind prog_bind bind].
    + split.
      * split; [by intros [? [=]]|]. intros [e He]. by rewrite Hl in He.
      * intros _. exists containers.
        exists (effects (run (GetRunningAzureAgents m) st)
                ++ [Act (Log (LogFound (length agents)))]).
        split; [done|].
        rewrite Heff, Hfin.
        rewrite (Hres eq_refl), app_nil_r in Hsplit.
        rewrite <- Hsplit, <- Hag.
        unfold lookback. rewrite <- UnixOf_minute_before.
        split; [by rewrite <- !app_assoc|].
        destruct (inventory_effects_quiet _ Hq) as (Hs1 & Hs2 & _).
        rewrite sends_app, subscriptions_app, Hs1, Hs2. done.
    + split; [|done].
      split; [by intros [? [=]]|]. intros [e He]. by rewrite Hl in He.
    + split; [|done].
      split; [by intros [? [=]]|]. intros [e He]. by rewrite Hl in He.
  - split; [|done].
    split; [by intros [? [=]]|]. intros [e He].
    rewrite (GetRunningAzureAgents_failure m st e He) in Hr. done.
  - done.
Qed.

(** Whatever the run of [StartMonitoring] put on the channel is the
    [running_event] of a listed, tracked container whose identity has 12
    bytes or more. *)
Lemma StartMonitoring_sends (ev : ActivityEvent) :
  ev ∈ sends (effects (run (StartMonitoring m) st)) →
  ∃ containers c,
    containerList (world st) = Reply containers
    ∧ c ∈ containers
    ∧ tracked m (world st) c = true
    ∧ (12 ≤ String.length (types.ID c))%nat
    ∧ ev = running_event (world st) c.
Proof.
  unfold StartMonitoring. rewrite run_bind.
  destruct (GetRunningAzureAgents_run m st) as (Hf & Hq & Hnb & Herr & Hok & _).
  destruct (inventory_effects_quiet _ Hq) as (Hs1 & _ & _).
  unfold then_run.
  destruct (result (run (GetRunningAzureAgents m) st))
    as [[agents [err|]]| |] eqn:Hr; cbn [fst snd result final effects run halt];
    rewrite ?app_nil_r, ?Hs1; try (by intros ?%elem_of_nil).
  destruct (Hok _ eq_refl) as (containers & Hl & Hag & Hlen).
  rewrite Hf, run_bind, run_log. cbn [then_run result final effects].
  rewrite run_bind.
  destruct (send_all_run agents st) as (sent & rest & Hsplit & Heff & Hfin & Hres).
  match goal with |- context [then_run (run (send_all agents) st) ?f] =>
    assert (sends (effects (then_run (run (send_all agents) st) f)) = sent)
      as Hsent end.
  { unfold then_run.
    destruct (result (run (send_all agents) st)) as [[]| |];
      cbn [result final effects run after act halt perform mbind prog_bind bind];
      rewrite ?sends_app, Heff, sends_of_sends; cbn; by rewrite ?app_nil_r. }
  rewrite sends_app, Hs1, (sends_app [_]), Hsent. cbn [app sends omap].
  intros Hin.
  assert (ev ∈ agents) as Hin' by (rewrite Hsplit; apply elem_of_app; by left).
  rewrite Hag in Hin'. apply list_elem_of_fmap in Hin' as (c & -> & Hc).
  apply list_elem_of_In, filter_In in Hc as [Hc Htr].
  exists containers, c. repeat split; try done.
  - by apply list_elem_of_In.
  - rewrite Forall_forall in Hlen. apply Hlen.
    by apply list_elem_of_In, filter_In.
Qed.

(** With the channel open and room on it for every tracked container,
    and the containers as the daemon hands them out, [StartMonitoring]
    returns [nil]. *)
Lemma StartMonitoring_returns (containers : list types.Container) :
  containerList (world st) = Reply containers →
  Forall (well_formed (world st)) containers →
  closed (activityChan st) = false →
  (length (buf (activityChan st))
   + length (List.filter (tracked m (world st)) containers)
   ≤ cap (activityChan st))%nat →
  result (run (StartMonitoring m) st) = Ok None.
Proof.
  intros Hl Hwf Hc Hroom.
  unfold StartMonitoring. rewrite run_bind.
  destruct (GetRunningAzureAgents_run m st) as (Hf & _ & _ & _ & Hok & Htot).
  destruct (Htot _ Hl Hwf) as [agents Hr].
  destruct (Hok _ Hr) as (containers' & Hl' & Hag & _).
  rewrite Hl in Hl'. injection Hl' as <-.
  unfold then_run. rewrite Hr. cbn [fst snd result final effects].
  rewrite Hf, run_bind, run_log. cbn [then_run result final effects].
  rewrite run_bind. unfold then_run.
  rewrite send_all_returns; [done|done|].
  by rewrite Hag, length_map.
Qed.

End Start.

(** ** The handler of runtime events *)

Lemma interestingActions_allowed (a : string) :
  default false (interestingActions !! a) = true ↔ a ∈ allowed_actions.
Proof.
  unfold interestingActions, allowed_actions.
  repeat (rewrite lookup_insert; case_decide;
          [subst; cbn; split; [intros _; set_solver|done]|]).
  rewrite lookup_singleton. case_decide.
  - subst. cbn. split; [intros _; set_solver|done].
  - cbn. split; [done|]. intros Hin.
    repeat (apply elem_of_cons in Hin as [->|Hin]; [done|]).
    by apply elem_of_nil in Hin.
Qed.

Lemma terminal_decided (a : string) :
  String.eqb a "die" || String.eqb a "stop" || String.eqb a "kill" = true
  ↔ a ∈ terminal_actions.
Proof.
  unfold terminal_actions.
  rewrite !orb_true_iff, !String.eqb_eq. split.
  - intros [[->| ->]| ->]; by repeat constructor.
  - intros Hin.
    repeat (apply elem_of_cons in Hin as [->|Hin]; [tauto|]).
    by apply elem_of_nil in Hin.
Qed.

Section Handler.
Context (m : Monitor) (event : events.Message) (st : State).

(** Not a container event, or an action outside the allow-list: the
    handler returns at once. *)
Lemma handleDockerEvent_irrelevant :
  ¬ relevant event → run (handleDockerEvent m event) st = halt (Ok tt) st.
Proof.
  unfold relevant, handleDockerEvent. intros Hn.
  destruct (String.eqb_spec (events.Type_ event) events.ContainerEventType)
    as [Ht|Ht]; [|done]. cbn [negb].
  destruct (default false (interestingActions !! events.Action event)) eqn:Ha;
    [|done].
  apply interestingActions_allowed in Ha. by destruct Hn.
Qed.

(** A relevant event: the handler inspects the container first. *)
Lemma handleDockerEvent_relevant :
  relevant event →
  run (handleDockerEvent m event) st
  = after (Call (CallContainerInspect (event_id event)))
      (match containerInspect (world st) (event_id event) with
       | Failure err =>
           run (id12 ← slice12 (event_id event);
                log (if String.eqb (events.Action event) "die"
                        || String.eqb (events.Action event) "stop"
                        || String.eqb (events.Action event) "kill"
                     then LogAlreadyRemoved id12
                     else LogFailedInspect id12 err)) st
       | Reply containerInfo =>
           run (excluded ← isExcluded m (event_id event) (event_name event)
                             (event_image event);
                if excluded : bool then Ret tt
                else
                  isAzureAgent ← lift (IsAzureAgentContainer containerInfo);
                  if negb isAzureAgent then Ret tt
                  else
                    id12 ← slice12 (event_id event);
                    log (LogActivity (events.Action event) (event_name event) id12);;
                    send {| ContainerID := id12;
                            ContainerName := (event_name event);
                            ImageName := (event_image event);
                            Action := events.Action event;
                            Timestamp := time.Unix (events.Time event) 0;
                            IsAzureAgent := true |}) st
       end).
Proof.
  unfold relevant, handleDockerEvent. intros [Ht Ha].
  apply interestingActions_allowed in Ha.
  fold events.ContainerEventType in Ht. apply String.eqb_eq in Ht.
  rewrite Ht, Ha. cbn [negb run].
  destruct (containerInspect (world st) (event_id event));
    [done|].
  by destruct (_ || _).
Qed.

(** The container is gone and its identity has 12 bytes: one log line,
    a warning unless the action is terminal; the event is dropped. *)
Lemma handleDockerEvent_vanished (err : error) :
  relevant event →
  containerInspect (world st) (event_id event) = Failure err →
  (12 ≤ String.length (event_id event))%nat →
  run (handleDockerEvent m event) st
  = {| result := Ok tt; final := st;
       effects :=
         [Call (CallContainerInspect (event_id event));
          Act (Log (if bool_decide (events.Action event ∈ terminal_actions)
                    then LogAlreadyRemoved (String.substring 0 12 (event_id event))
                    else LogFailedInspect
                           (String.substring 0 12 (event_id event)) err))] |}.
Proof.
  intros Hrel Hi Hlen. rewrite (handleDockerEvent_relevant Hrel), Hi.
  rewrite run_bind, run_slice12_ok by done.
  cbn [then_run halt result final effects run_log log run perform after app].
  pose proof (terminal_decided (events.Action event)) as Hterm.
  destruct (_ || _).
  - by rewrite bool_decide_eq_true_2 by by apply Hterm.
  - rewrite bool_decide_eq_false_2; [done|].
    intros Hin. apply Hterm in Hin. done.
Qed.

(** The container is gone and its identity is shorter: the slice in the
    log line panics before anything is logged. *)
Lemma handleDockerEvent_vanished_short (err : error) :
  relevant event →
  containerInspect (world st) (event_id event) = Failure err →
  (String.length (event_id event) < 12)%nat →
  run (handleDockerEvent m event) st
  = {| result := Panic; final := st;
       effects := [Call (CallContainerInspect (event_id event))] |}.
Proof.
  intros Hrel Hi Hlen. rewrite (handleDockerEvent_relevant Hrel), Hi.
  by rewrite run_bind, run_slice12_short.
Qed.

(** The container is there and excluded, identity of 12 bytes: dropped
    after the log line of the filter. *)
Lemma handleDockerEvent_excluded (info : types.ContainerJSON) :
  relevant event →
  containerInspect (world st) (event_id event) = Reply info →
  excluded_by m (event_id event) (event_name event) (event_image event) = true →
  (12 ≤ String.length (event_id event))%nat →
  ∃ l, is_warning l = false
       ∧ run (handleDockerEvent m event) st
         = {| result := Ok tt; final := st;
              effects := [Call (CallContainerInspect (event_id event));
                          Act (Log l)] |}.
Proof.
  intros Hrel Hi He Hlen. rewrite (handleDockerEvent_relevant Hrel), Hi.
  destruct (isExcluded_true m (event_id event) (event_name event)
              (event_image event) st He Hlen)
    as (l & Hw & Hrun).
  exists l. split; [done|]. by rewrite run_bind, Hrun.
Qed.

(** The container is there, not excluded and not an agent: dropped
    without a word. *)
Lemma handleDockerEvent_not_agent (info : types.ContainerJSON)
    (cfg : container.Config) :
  relevant event →
  containerInspect (world st) (event_id event) = Reply info →
  excluded_by m (event_id event) (event_name event) (event_image event) = false →
  types.Config info = Some cfg →
  classify cfg = false →
  run (handleDockerEvent m event) st
  = {| result := Ok tt; final := st;
       effects := [Call (CallContainerInspect (event_id event))] |}.
Proof.
  intros Hrel Hi He Hcfg Hcl. rewrite (handleDockerEvent_relevant Hrel), Hi.
  rewrite run_bind, (isExcluded_false _ _ _ _ _ He).
  cbn [then_run halt result final effects app].
  rewrite run_bind. unfold IsAzureAgentContainer. rewrite Hcfg, Hcl. done.
Qed.

(** The container is there, passes the filter and is an agent: the
    handler logs the activity and sends [live_event event], which
    succeeds on an open channel with room. *)
Lemma handleDockerEvent_agent :
  relevant event →
  passes m (world st) event →
  (12 ≤ String.length (event_id event))%nat →
  run (handleDockerEvent m event) st
  = after (Call (CallContainerInspect (event_id event)))
      (after (Act (Log (LogActivity (events.Action event) (event_name event)
                          (String.substring 0 12 (event_id event)))))
         (run (send (live_event event)) st)).
Proof.
  intros Hrel (He & info & cfg & Hi & Hcfg & Hcl) Hlen.
  rewrite (handleDockerEvent_relevant Hrel), Hi.
  rewrite run_bind, (isExcluded_false _ _ _ _ _ He).
  cbn [then_run halt result final effects app].
  rewrite run_bind. unfold IsAzureAgentContainer. rewrite Hcfg, Hcl.
  cbn [lift run then_run halt result final effects app negb].
  rewrite run_bind, run_slice12_ok by done.
  cbn [then_run halt result final effects app].
  rewrite run_bind, run_log.
  cbn [then_run halt result final effects app].
  reflexivity.
Qed.

(** Whatever the handler put on the channel is [live_event event], for a
    relevant event of a container that passes the filter and is an agent,
    with an identity of 12 bytes or more. *)
Lemma handleDockerEvent_sends :
  let r := run (handleDockerEvent m event) st in
  sends (effects r) = []
  ∨ sends (effects r) = [live_event event]
    ∧ relevant event
    ∧ passes m (world st) event
    ∧ (12 ≤ String.length (event_id event))%nat.
Proof.
  cbv zeta.
  destruct (decide (relevant event)) as [Hrel|Hrel].
  2:{ left. by rewrite handleDockerEvent_irrelevant. }
  destruct (Nat.le_gt_cases 12 (String.length (event_id event))) as [Hlen|Hlen].
  - destruct (containerInspect (world st) (event_id event)) as [info|err] eqn:Hi.
    + destruct (excluded_by m (event_id event) (event_name event)
                  (event_image event)) eqn:He.
      * destruct (handleDockerEvent_excluded info Hrel Hi He Hlen)
          as (l & _ & ->). by left.
      * destruct (types.Config info) as [cfg|] eqn:Hcfg.
        -- destruct (classify cfg) eqn:Hcl.
           ++ assert (passes m (world st) event) as Hp.
              { split; [done|]. by exists info, cfg. }
              rewrite (handleDockerEvent_agent Hrel Hp Hlen).
              unfold send. cbn [run].
              destruct (perform_send (live_event event) st) as [->|[->|[_ ->]]];
                [by left|by left|].
              right. done.
           ++ left. by rewrite (handleDockerEvent_not_agent info cfg).
        -- left. rewrite (handleDockerEvent_relevant Hrel), Hi.
           rewrite run_bind, (isExcluded_false _ _ _ _ _ He).
           cbn [then_run halt result final effects app].
           rewrite run_bind. unfold IsAzureAgentContainer. rewrite Hcfg. done.
    + left. by rewrite (handleDockerEvent_vanished err Hrel Hi Hlen).
  - left. rewrite (handleDockerEvent_relevant Hrel).
    destruct (containerInspect (world st) (event_id event)) as [info|err] eqn:Hi.
    + rewrite run_bind.
      destruct (isExcluded_cases m (event_id event) (event_name event)
                  (event_image event) st)
        as (Hf & _ & [(Hr & He & Heff)|[(Hr & He & Hl)|(Hr & He & Hl & Heff)]]);
        [|lia|].
      * unfold then_run. rewrite Hr, Heff, Hf.
        cbn [result final effects app]. rewrite run_bind.
        unfold IsAzureAgentContainer.
        destruct (types.Config info) as [cfg|]; [|done].
        cbn [lift run then_run halt result final effects app].
        destruct (classify cfg); [|done]. cbn [negb].
        by rewrite run_bind, run_slice12_short.
      * unfold then_run. by rewrite Hr, Heff.
    + by rewrite run_bind, run_slice12_short.
Qed.

End Handler.

(** ** The notifier *)

Section Notifier.
Context (n : ECSNotifier) (st : State).

(** Self-identity unresolved: a log line, no call, [nil]. *)
Lemma SendActivitySignal_unresolved (hasActivity : bool) :
  containerInstanceARN n = "" →
  run (SendActivitySignal n hasActivity) st
  = {| result := Ok None; final := st; effects := [Act (Log LogArnNotSet)] |}.
Proof. intros H. unfold SendActivitySignal. by rewrite H. Qed.

(** Self-identity unresolved: an error, and nothing done. *)
Lemma SetProtectionEnabled_unresolved (enabled : bool) :
  containerInstanceARN n = "" →
  run (SetProtectionEnabled n enabled) st
  = halt (Ok (Some (Errorf "container instance ARN not set"))) st.
Proof. intros H. unfold SetProtectionEnabled. by rewrite H. Qed.

(** [SendActivitySignal] always returns, and leaves the state alone. *)
Lemma SendActivitySignal_returns (hasActivity : bool) :
  ∃ err, result (run (SendActivitySignal n hasActivity) st) = Ok err
         ∧ final (run (SendActivitySignal n hasActivity) st) = st.
Proof.
  unfold SendActivitySignal.
  destruct (String.eqb _ _); [by eexists|]. cbn.
  destruct (putAttributes (world st)); by eexists.
Qed.

End Notifier.

(** ** The heartbeat *)

Section Heartbeat.
Context (n : ECSNotifier) (monitor : Monitor).

(** The snapshot query: it returns an error when the listing fails,
    a boolean otherwise, or panics in the inventory loop; it never parks,
    never calls ECS and leaves the state alone. *)
Lemma HasActiveAgents_run (st : State) :
  let q := run (HasActiveAgents monitor) st in
  final q = st
  ∧ Forall inventory_effect (effects q)
  ∧ ((∃ e, containerList (world st) = Failure e
           ∧ result q = Ok (false, Some (ErrorfW "failed to list containers" e)))
     ∨ (∃ containers, containerList (world st) = Reply containers
           ∧ result q = Ok (bool_decide
                  (0 < length (List.filter (tracked monitor (world st)) containers))%nat,
                None))
     ∨ result q = Panic).
Proof.
  cbv zeta. unfold HasActiveAgents. rewrite run_bind.
  destruct (GetRunningAzureAgents_run monitor st)
    as (Hf & Hq & Hnb & Herr & Hok & _).
  unfold then_run.
  destruct (result (run (GetRunningAzureAgents monitor) st))
    as [[agents [err|]]| |] eqn:Hr; cbn [fst snd run halt result final effects];
    rewrite ?app_nil_r; [| | |done].
  - destruct (Herr _ _ eq_refl) as (-> & e & He & ->).
    split; [done|]. split; [done|]. left. by exists e.
  - destruct (Hok _ eq_refl) as (containers & Hl & -> & _).
    split; [done|]. split; [done|]. right; left.
    exists containers. by rewrite length_map.
  - split; [done|]. split; [done|]. by right; right.
Qed.

(** One tick, when the snapshot query reports an error: the error is
    logged and nothing else happens. *)
Lemma heartbeat_tick_error (st : State) (b : bool) (err : error) :
  result (run (HasActiveAgents monitor) st) = Ok (b, Some err) →
  run (heartbeat_tick n monitor) st
  = {| result := Ok tt; final := st;
       effects := effects (run (HasActiveAgents monitor) st)
                  ++ [Act (Log (LogErrorChecking err))] |}.
Proof.
  intros Hq. unfold heartbeat_tick. rewrite run_bind. unfold then_run.
  destruct (HasActiveAgents_run st) as (Hf & _). cbv zeta in Hf.
  by rewrite Hq, Hf.
Qed.

(** One tick, when the snapshot query answers [b]: the signal is sent
    with [b], and a failure of the send is logged. *)
Lemma heartbeat_tick_answer (st : State) (b : bool) :
  result (run (HasActiveAgents monitor) st) = Ok (b, None) →
  run (heartbeat_tick n monitor) st
  = {| result := Ok tt; final := st;
       effects :=
         effects (run (HasActiveAgents monitor) st)
         ++ effects (run (SendActivitySignal n b) st)
         ++ match result (run (SendActivitySignal n b) st) with
            | Ok (Some e) => [Act (Log (LogErrorSending e))]
            | _ => []
            end |}.
Proof.
  intros Hq. unfold heartbeat_tick. rewrite run_bind. unfold then_run at 1.
  destruct (HasActiveAgents_run st) as (Hf & _). cbv zeta in Hf.
  rewrite Hq, Hf. cbn [fst snd]. rewrite run_bind.
  destruct (SendActivitySignal_returns n st b) as (err & Hr & Hfs).
  unfold then_run. rewrite Hr, Hfs.
  destruct err; cbn; by rewrite ?app_nil_r.
Qed.

(** One tick, when the snapshot query panics: so does the tick. *)
Lemma heartbeat_tick_panic (st : State) :
  result (run (HasActiveAgents monitor) st) = Panic →
  result (run (heartbeat_tick n monitor) st) = Panic.
Proof.
  intros Hq. unfold heartbeat_tick. rewrite run_bind. unfold then_run.
  by rewrite Hq.
Qed.

(** A tick returns or panics, and leaves the state alone. *)
Lemma heartbeat_tick_run (st : State) :
  final (run (heartbeat_tick n monitor) st) = st
  ∧ (result (run (heartbeat_tick n monitor) st) = Ok tt
     ∨ result (run (heartbeat_tick n monitor) st) = Panic
       ∧ result (run (HasActiveAgents monitor) st) = Panic).
Proof.
  destruct (HasActiveAgents_run st)
    as (Hf & _ & [(e & _ & Hr)|[(cs & _ & Hr)|Hr]]); cbv zeta in *.
  - rewrite (heartbeat_tick_error _ _ _ Hr). split; [done|by left].
  - rewrite (heartbeat_tick_answer _ _ Hr). split; [done|by left].
  - split; [|right; split; [by apply heartbeat_tick_panic|done]].
    unfold heartbeat_tick. rewrite run_bind. unfold then_run. by rewrite Hr.
Qed.

Lemma heartbeat_loop_parked (st : State) :
  run (heartbeat_loop n monitor []) st = halt Blocked st.
Proof. done. Qed.

Lemma heartbeat_loop_stop (st : State) (w : World)
    (rest : list (World * heartbeat_case)) :
  run (heartbeat_loop n monitor ((w, StopChan) :: rest)) st
  = {| result := Ok tt; final := set_world st w;
       effects := [Act (Log LogHeartbeatStopped); Act TickerStop] |}.
Proof. done. Qed.

Lemma heartbeat_loop_tick (st : State) (w : World)
    (rest : list (World * heartbeat_case)) :
  run (heartbeat_loop n monitor ((w, TickerC) :: rest)) st
  = then_run (run (heartbeat_tick n monitor) (set_world st w))
      (λ _, run (heartbeat_loop n monitor rest)).
Proof. cbn [heartbeat_loop run]. by rewrite run_bind. Qed.

(** The loop returns only through the stop case, after ticks only. *)
Lemma heartbeat_loop_returns (wakes : list (World * heartbeat_case)) :
  ∀ st, result (run (heartbeat_loop n monitor wakes) st) = Ok tt →
        ∃ ticks w rest, wakes = ticks ++ (w, StopChan) :: rest
                        ∧ Forall is_tick ticks.
Proof.
  induction wakes as [|[w []] wakes IH]; intros st Hr.
  - done.
  - rewrite heartbeat_loop_tick in Hr. unfold then_run in Hr.
    destruct (heartbeat_tick_run (set_world st w)) as [Hf [Ht|[Ht _]]];
      rewrite Ht in Hr; [|done].
    cbn in Hr. destruct (IH _ Hr) as (ticks & w' & rest & -> & Hticks).
    exists ((w, TickerC) :: ticks), w', rest. split; [done|].
    by constructor.
  - exists [], w, wakes. split; [done|]. constructor.
Qed.

(** The loop ends in a panic only when the snapshot query of some tick
    panicked, in the world of that tick. *)
Lemma heartbeat_loop_panics (wakes : list (World * heartbeat_case)) :
  ∀ st, result (run (heartbeat_loop n monitor wakes) st) = Panic →
        ∃ ticks w rest,
          wakes = ticks ++ (w, TickerC) :: rest
          ∧ Forall is_tick ticks
          ∧ result (run (HasActiveAgents monitor) (set_world st w)) = Panic.
Proof.
  induction wakes as [|[w []] wakes IH]; intros st Hr.
  - done.
  - rewrite heartbeat_loop_tick in Hr. unfold then_run in Hr.
    destruct (heartbeat_tick_run (set_world st w)) as [Hf [Ht|[Ht Hq]]];
      rewrite Ht in Hr.
    + rewrite Hf in Hr. cbn [result] in Hr.
      destruct (IH _ Hr) as (ticks & w' & rest & -> & Hticks & Hq).
      exists ((w, TickerC) :: ticks), w', rest. split; [done|].
      split; [by constructor|]. by destruct st.
    + exists [], w, wakes. split; [done|].
      split; [constructor|done].
  - done.
Qed.

End Heartbeat.

(** ** The claims *)

(** C2, as amended.  For an identity of at least 12 bytes, [isExcluded]
    returns [true] exactly when an excluded-container entry occurs in the
    name or in the identity or an excluded-image entry occurs in the image,
    and [false] exactly when none does. *)
Theorem C2_isExcluded_rule (m : Monitor) (containerID containerName imageName : string)
    (st : State) :
  (12 ≤ String.length containerID)%nat →
  let r := run (isExcluded m containerID containerName imageName) st in
  (result r = Ok true ↔ exclusion_rule m containerID containerName imageName)
  ∧ (result r = Ok false ↔ ¬ exclusion_rule m containerID containerName imageName).
Proof.
  intros Hlen. cbv zeta. rewrite <- excluded_by_spec.
  destruct (isExcluded_cases m containerID containerName imageName st)
    as (_ & _ & [(Hr & He & _)|[(Hr & He & _)|(_ & _ & Hl & _)]]); [| |lia];
    cbv zeta in Hr; rewrite Hr, He; split; split; try done; by intros [=].
Qed.

Lemma C2_isExcluded_rule_witness :
  result (run (isExcluded sample.image_filter sample.agent_id "agent-1"
                 "myrepo/azure-agent:latest")
              (NewMonitor sample.gone_world).2) = Ok true
  ∧ result (run (isExcluded sample.image_filter sample.agent_id "web"
                   "nginx:latest")
                (NewMonitor sample.gone_world).2) = Ok false.
Proof.
  split.
  - apply (C2_isExcluded_rule sample.image_filter sample.agent_id "agent-1"
             "myrepo/azure-agent:latest"); [vm_compute; lia|].
    right. exists "azure-agent". split; [by constructor|].
    by exists "myrepo/", ":latest".
  - apply (C2_isExcluded_rule sample.image_filter sample.agent_id "web"
             "nginx:latest"); [vm_compute; lia|].
    rewrite <- excluded_by_spec. vm_compute. done.
Defined.

(** C2 as stated fails on an identity shorter than 12 bytes: the rule
    holds, and the call panics instead of returning [true]. *)
Lemma C2_counterexample_short_identity :
  exclusion_rule sample.image_filter "abc" "agent-1" "myrepo/azure-agent:latest"
  ∧ result (run (isExcluded sample.image_filter "abc" "agent-1"
                   "myrepo/azure-agent:latest")
                (NewMonitor sample.gone_world).2) = Panic.
Proof.
  split; [|done].
  right. exists "azure-agent". split; [by constructor|].
  by exists "myrepo/", ":latest".
Qed.

(** C3.  With the self-identity unresolved, [SendActivitySignal] returns
    [nil] and [SetProtectionEnabled] returns an error, for either argument,
    and neither makes a call. *)
Theorem C3_unresolved_identity (n : ECSNotifier) (st : State)
    (hasActivity enabled : bool) :
  containerInstanceARN n = "" →
  let s := run (SendActivitySignal n hasActivity) st in
  let p := run (SetProtectionEnabled n enabled) st in
  (result s = Ok None ∧ calls (effects s) = [] ∧ final s = st)
  ∧ ((∃ err, result p = Ok (Some err)) ∧ calls (effects p) = [] ∧ final p = st).
Proof.
  intros H. cbv zeta.
  rewrite (SendActivitySignal_unresolved n st hasActivity H).
  rewrite (SetProtectionEnabled_unresolved n st enabled H).
  cbn. repeat split; try done. by eexists.
Qed.

Lemma C3_unresolved_identity_witness :
  result (run (SendActivitySignal sample.unresolved true)
              (NewMonitor sample.gone_world).2) = Ok None
  ∧ result (run (SendActivitySignal sample.unresolved false)
                (NewMonitor sample.gone_world).2) = Ok None
  ∧ (∃ err, result (run (SetProtectionEnabled sample.unresolved true)
                        (NewMonitor sample.gone_world).2) = Ok (Some err))
  ∧ (∃ err, result (run (SetProtectionEnabled sample.unresolved false)
                        (NewMonitor sample.gone_world).2) = Ok (Some err)).
Proof.
  pose proof (C3_unresolved_identity sample.unresolved
                (NewMonitor sample.gone_world).2 true true eq_refl) as Ht.
  pose proof (C3_unresolved_identity sample.unresolved
                (NewMonitor sample.gone_world).2 false false eq_refl) as Hf.
  cbv zeta in Ht, Hf.
  destruct Ht as ((Ht1 & _) & (Ht2 & _)), Hf as ((Hf1 & _) & (Hf2 & _)).
  repeat split; assumption.
Defined.

(** C4.  [StartMonitoring] returns an error exactly when the listing of
    the running containers fails.  When it returns [nil], it has sent, in
    the order of the listing, the [running_event] of each listed container
    that is [tracked] (not excluded, inspected, classified as an agent) and
    nothing else, and the subscription to the event stream, from one
    minute before the clock's reading, comes after the last send. *)
Theorem C4_StartMonitoring_inventory (m : Monitor) (st : State) :
  let r := run (StartMonitoring m) st in
  ((∃ err, result r = Ok (Some err)) ↔ (∃ e, containerList (world st) = Failure e))
  ∧ (result r = Ok None →
     ∃ containers pre,
       containerList (world st) = Reply containers
       ∧ effects r
         = pre
           ++ map (λ ev, Act (Send ev))
                  (map (running_event (world st))
                       (List.filter (tracked m (world st)) containers))
           ++ [Call CallNow; Act (Events (lookback (world st))); Act Go]
       ∧ sends pre = [] ∧ subscriptions pre = []
       ∧ buf (activityChan (final r))
         = buf (activityChan st)
           ++ map (running_event (world st))
                  (List.filter (tracked m (world st)) containers)).
Proof. apply StartMonitoring_run. Qed.

Lemma C4_StartMonitoring_inventory_witness :
  let w := sample.agent_world [sample.agent_container] (time.Unix 1700000200 0) in
  let r := run (StartMonitoring (NewMonitor w).1) (NewMonitor w).2 in
  result r = Ok None
  ∧ ∃ containers pre,
      containerList w = Reply containers
      ∧ effects r
        = pre
          ++ map (λ ev, Act (Send ev))
                 (map (running_event w)
                      (List.filter (tracked (NewMonitor w).1 w) containers))
          ++ [Call CallNow; Act (Events (lookback w)); Act Go]
      ∧ sends pre = [] ∧ subscriptions pre = []
      ∧ buf (activityChan (final r))
        = map (running_event w)
              (List.filter (tracked (NewMonitor w).1 w) containers).
Proof.
  cbv zeta.
  assert (result (run (StartMonitoring
            (NewMonitor (sample.agent_world [sample.agent_container]
                           (time.Unix 1700000200 0))).1)
            (NewMonitor (sample.agent_world [sample.agent_container]
                           (time.Unix 1700000200 0))).2) = Ok None) as Hr
    by (vm_compute; reflexivity).
  split; [exact Hr|].
  exact (proj2 (C4_StartMonitoring_inventory _ _) Hr).
Defined.

(** C5, as amended.  An event that is not of the container category or
    whose action is outside the allow-list is dropped with no effect at
    all, and whatever the handler sends belongs to a relevant event of a
    container that passes the exclusion filter and is classified.  When
    the container identity has at least 12 bytes: for a relevant event
    whose container cannot be inspected the handler returns without
    sending, after a log line that is no warning when the action is stop,
    kill or die and a warning otherwise; and an excluded or non-classified
    container is dropped without a send. *)
Theorem C5_handleDockerEvent_drops (m : Monitor) (event : events.Message)
    (st : State) :
  let r := run (handleDockerEvent m event) st in
  ((events.Type_ event ≠ "container" ∨ events.Action event ∉ allowed_actions) →
     r = halt (Ok tt) st)
  ∧ (∀ ev, ev ∈ sends (effects r) → relevant event ∧ passes m (world st) event)
  ∧ ((12 ≤ String.length (event_id event))%nat →
     relevant event →
     (∀ err, containerInspect (world st) (event_id event) = Failure err →
        result r = Ok tt ∧ final r = st ∧ sends (effects r) = []
        ∧ (events.Action event ∈ terminal_actions →
             ∀ l, l ∈ logs (effects r) → is_warning l = false)
        ∧ (events.Action event ∉ terminal_actions →
             ∃ l, l ∈ logs (effects r) ∧ is_warning l = true))
     ∧ (∀ info, containerInspect (world st) (event_id event) = Reply info →
          (excluded_by m (event_id event) (event_name event) (event_image event)
           = true →
             result r = Ok tt ∧ final r = st ∧ sends (effects r) = [])
          ∧ (∀ cfg, types.Config info = Some cfg → classify cfg = false →
               result r = Ok tt ∧ final r = st ∧ sends (effects r) = []))).
Proof.
  cbv zeta. split; [|split].
  - intros Hn. apply handleDockerEvent_irrelevant. intros [Ht Ha]. by destruct Hn.
  - intros ev Hev.
    destruct (handleDockerEvent_sends m event st) as [Hs|(Hs & Hrel & Hp & _)];
      cbv zeta in Hs; rewrite Hs in Hev; [by apply elem_of_nil in Hev|done].
  - intros Hlen Hrel. split.
    + intros err Hi.
      rewrite (handleDockerEvent_vanished m event st err Hrel Hi Hlen).
      cbn [result final effects]. split; [done|]. split; [done|]. split; [done|].
      split.
      * intros Hterm l Hl. rewrite bool_decide_eq_true_2 in Hl by done.
        cbn in Hl. by apply list_elem_of_singleton in Hl as ->.
      * intros Hterm. rewrite bool_decide_eq_false_2 by done.
        eexists. split; [by apply list_elem_of_singleton|done].
    + intros info Hi. split.
      * intros He.
        destruct (handleDockerEvent_excluded m event st info Hrel Hi He Hlen)
          as (l & _ & ->). done.
      * intros cfg Hcfg Hcl.
        destruct (excluded_by m (event_id event) (event_name event)
                    (event_image event)) eqn:He.
        -- destruct (handleDockerEvent_excluded m event st info Hrel Hi He Hlen)
             as (l & _ & ->). done.
        -- by rewrite (handleDockerEvent_not_agent m event st info cfg
                         Hrel Hi He Hcfg Hcl).
Qed.

(** A "die" event for a container that is gone at inspection: no event
    sent and no warning logged. *)
Lemma C5_handleDockerEvent_drops_witness :
  let event := sample.event_of "die" sample.agent_container in
  let r := run (handleDockerEvent (NewMonitor sample.gone_world).1 event)
               (NewMonitor sample.gone_world).2 in
  result r = Ok tt
  ∧ sends (effects r) = []
  ∧ ∀ l, l ∈ logs (effects r) → is_warning l = false.
Proof.
  cbv zeta.
  assert (12 ≤ String.length
            (events.ID (events.Actor_
               (sample.event_of "die" sample.agent_container))))%nat as Hlen
    by (vm_compute; lia).
  assert (relevant (sample.event_of "die" sample.agent_container)) as Hrel
    by (split; [reflexivity|by repeat constructor]).
  destruct (C5_handleDockerEvent_drops (NewMonitor sample.gone_world).1
              (sample.event_of "die" sample.agent_container)
              (NewMonitor sample.gone_world).2) as (_ & _ & Hlong).
  destruct (Hlong Hlen Hrel) as (Hgone & _).
  destruct (Hgone _ eq_refl) as (Hr & _ & Hs & Hterm & _).
  split; [exact Hr|]. split; [exact Hs|].
  apply Hterm. by repeat constructor.
Defined.

(** C5 as stated fails on an identity shorter than 12 bytes: a "create"
    event, relevant and not terminal, for a container that cannot be
    inspected, is not dropped with a warning; the handler panics and has
    logged nothing. *)
Lemma C5_counterexample_short_identity :
  let event := sample.event_of "create" sample.short_container in
  let r := run (handleDockerEvent (NewMonitor sample.gone_world).1 event)
               (NewMonitor sample.gone_world).2 in
  relevant event
  ∧ (events.Action event ∉ terminal_actions)
  ∧ containerInspect sample.gone_world (event_id event)
    = Failure (ErrExternal "No such container")
  ∧ result r = Panic
  ∧ logs (effects r) = [].
Proof.
  cbv zeta. split; [split; [reflexivity|by repeat constructor]|].
  split; [|done].
  intros Hin. repeat (apply elem_of_cons in Hin as [Hin|Hin]; [discriminate|]).
  by apply elem_of_nil in Hin.
Qed.

(** C6, as amended.  An event the handler sends carries the time of the
    runtime event, in whole seconds; an event the inventory pass of
    [StartMonitoring] sends carries the reading of the clock at the pass. *)
Theorem C6_timestamps (m : Monitor) (st : State) (ev : ActivityEvent) :
  (∀ event, ev ∈ sends (effects (run (handleDockerEvent m event) st)) →
     Timestamp ev = time.Unix (events.Time event) 0)
  ∧ (ev ∈ sends (effects (run (StartMonitoring m) st)) →
     Timestamp ev = now (world st)).
Proof.
  split.
  - intros event Hev.
    destruct (handleDockerEvent_sends m event st) as [Hs|(Hs & _)];
      cbv zeta in Hs; rewrite Hs in Hev; [by apply elem_of_nil in Hev|].
    by apply list_elem_of_singleton in Hev as ->.
  - intros Hev.
    by destruct (StartMonitoring_sends m st ev Hev) as (? & ? & _ & _ & _ & _ & ->).
Qed.

Lemma C6_timestamps_witness :
  let w := sample.agent_world [sample.agent_container] (time.Unix 1700000200 0) in
  let ev := live_event (sample.event_of "start" sample.agent_container) in
  Timestamp ev = time.Unix 1700000100 0
  ∧ Timestamp (running_event w sample.agent_container) = time.Unix 1700000200 0.
Proof.
  cbv zeta. split.
  - apply (proj1 (C6_timestamps
             (NewMonitor (sample.agent_world [sample.agent_container]
                            (time.Unix 1700000200 0))).1
             (NewMonitor (sample.agent_world [sample.agent_container]
                            (time.Unix 1700000200 0))).2
             (live_event (sample.event_of "start" sample.agent_container)))
             (sample.event_of "start" sample.agent_container)).
    vm_compute. by left.
  - apply (proj2 (C6_timestamps
             (NewMonitor (sample.agent_world [sample.agent_container]
                            (time.Unix 1700000200 0))).1
             (NewMonitor (sample.agent_world [sample.agent_container]
                            (time.Unix 1700000200 0))).2
             (running_event (sample.agent_world [sample.agent_container]
                               (time.Unix 1700000200 0))
                sample.agent_container))).
    vm_compute. by left.
Defined.

(** C6 as stated fails for the inventory pass: with the same daemon and
    the same container, created at 1700000000, the event it sends carries
    whatever the clock reads at the pass. *)
Lemma C6_counterexample_inventory_clock :
  let run_at clock :=
    let w := sample.agent_world [sample.agent_container] clock in
    run (StartMonitoring (NewMonitor w).1) (NewMonitor w).2 in
  map Timestamp (sends (effects (run_at (time.Unix 1700000200 0))))
  = [time.Unix 1700000200 0]
  ∧ map Timestamp (sends (effects (run_at (time.Unix 1700000999 0))))
    = [time.Unix 1700000999 0]
  ∧ types.Created sample.agent_container = 1700000000.
Proof. cbv zeta. split; [|split]; vm_compute; reflexivity. Qed.

(** C9.  Every event [StartMonitoring] or [handleDockerEvent] sends, and
    every event [GetRunningAzureAgents] returns, has its flag set and
    carries the first 12 bytes of the identity of its container. *)
Theorem C9_emitted_events (m : Monitor) (st : State) (ev : ActivityEvent) :
  (ev ∈ sends (effects (run (StartMonitoring m) st)) →
     IsAzureAgent ev = true
     ∧ ∃ containers c, containerList (world st) = Reply containers
         ∧ c ∈ containers
         ∧ strings.slice_to (types.ID c) 12 = Some (ContainerID ev))
  ∧ (∀ event, ev ∈ sends (effects (run (handleDockerEvent m event) st)) →
       IsAzureAgent ev = true
       ∧ strings.slice_to (event_id event) 12
         = Some (ContainerID ev))
  ∧ (∀ agents err,
       result (run (GetRunningAzureAgents m) st) = Ok (agents, err) →
       ev ∈ agents →
       IsAzureAgent ev = true
       ∧ ∃ containers c, containerList (world st) = Reply containers
           ∧ c ∈ containers
           ∧ strings.slice_to (types.ID c) 12 = Some (ContainerID ev)).
Proof.
  split; [|split].
  - intros Hev.
    destruct (StartMonitoring_sends m st ev Hev)
      as (containers & c & Hl & Hc & _ & Hlen & ->).
    split; [done|]. exists containers, c. by rewrite slice_to_Some.
  - intros event Hev.
    destruct (handleDockerEvent_sends m event st) as [Hs|(Hs & _ & _ & Hlen)];
      cbv zeta in Hs; rewrite Hs in Hev; [by apply elem_of_nil in Hev|].
    apply list_elem_of_singleton in Hev as ->.
    split; [done|]. by rewrite slice_to_Some.
  - intros agents err Hr Hev.
    destruct (GetRunningAzureAgents_run m st) as (_ & _ & _ & Herr & Hok & _).
    destruct err as [err|].
    + destruct (Herr _ _ Hr) as (-> & _). by apply elem_of_nil in Hev.
    + destruct (Hok _ Hr) as (containers & Hl & -> & Hlen).
      apply list_elem_of_fmap in Hev as (c & -> & Hc).
      split; [done|]. exists containers, c.
      split; [done|]. split.
      * by apply list_elem_of_In, filter_In in Hc as [?%list_elem_of_In _].
      * rewrite Forall_forall in Hlen. rewrite slice_to_Some; [done|].
        by apply Hlen.
Qed.

Lemma C9_emitted_events_witness :
  let ev := live_event (sample.event_of "start" sample.agent_container) in
  IsAzureAgent ev = true
  ∧ strings.slice_to sample.agent_id 12 = Some (ContainerID ev).
Proof.
  cbv zeta.
  apply (proj1 (proj2 (C9_emitted_events
           (NewMonitor (sample.agent_world [sample.agent_container]
                          (time.Unix 1700000200 0))).1
           (NewMonitor (sample.agent_world [sample.agent_container]
                          (time.Unix 1700000200 0))).2
           (live_event (sample.event_of "start" sample.agent_container))))
           (sample.event_of "start" sample.agent_container)).
  vm_compute. by left.
Defined.

(** ** Identities shorter than 12 bytes *)

Lemma GetRunningAzureAgents_short (m : Monitor) (st : State)
    (containers : list types.Container) (c : types.Container) :
  containerList (world st) = Reply containers →
  c ∈ containers →
  tracked m (world st) c = true →
  (String.length (types.ID c) < 12)%nat →
  result (run (GetRunningAzureAgents m) st) = Panic.
Proof.
  intros Hl Hc Htr Hlen.
  destruct (GetRunningAzureAgents_run m st) as (_ & _ & Hnb & Herr & Hok & _).
  destruct (result (run (GetRunningAzureAgents m) st))
    as [[agents [err|]]| |] eqn:Hr; [| |done|done].
  - destruct (Herr _ _ eq_refl) as (_ & e & He & _). congruence.
  - destruct (Hok _ eq_refl) as (containers' & Hl' & _ & Hall).
    rewrite Hl in Hl'. injection Hl' as <-.
    rewrite Forall_forall in Hall.
    assert (12 ≤ String.length (types.ID c))%nat; [|lia].
    apply Hall. apply list_elem_of_In, filter_In. split; [|done].
    by apply list_elem_of_In.
Qed.

Lemma handleDockerEvent_agent_short (m : Monitor) (event : events.Message)
    (st : State) :
  relevant event →
  passes m (world st) event →
  (String.length (event_id event) < 12)%nat →
  run (handleDockerEvent m event) st
  = {| result := Panic; final := st;
       effects := [Call (CallContainerInspect (event_id event))] |}.
Proof.
  intros Hrel (He & info & cfg & Hi & Hcfg & Hcl) Hlen.
  rewrite (handleDockerEvent_relevant m event st Hrel), Hi.
  rewrite run_bind, (isExcluded_false _ _ _ _ _ He).
  cbn [then_run halt result final effects app].
  rewrite run_bind. unfold IsAzureAgentContainer. rewrite Hcfg, Hcl.
  cbn [lift run then_run halt result final effects app negb].
  by rewrite run_bind, run_slice12_short.
Qed.

(** C10.  For an identity shorter than 12 bytes the slice [[:12]] panics:
    in [isExcluded] when an entry matches and the match is logged, in
    [GetRunningAzureAgents] when a tracked container's event is built, and
    in [handleDockerEvent] when a vanished container is logged or a
    matched event is built. *)
Theorem C10_short_identity_panics (id : string) :
  (String.length id < 12)%nat →
  (∀ m name image st,
     excluded_by m id name image = true →
     result (run (isExcluded m id name image) st) = Panic)
  ∧ (∀ m st containers c,
       types.ID c = id →
       containerList (world st) = Reply containers →
       c ∈ containers →
       tracked m (world st) c = true →
       result (run (GetRunningAzureAgents m) st) = Panic)
  ∧ (∀ m st event,
       event_id event = id →
       relevant event →
       (∃ err, containerInspect (world st) id = Failure err)
       ∨ passes m (world st) event →
       result (run (handleDockerEvent m event) st) = Panic).
Proof.
  intros Hlen. split; [|split].
  - intros m name image st He. by rewrite isExcluded_panic.
  - intros m st containers c <- Hl Hc Htr.
    by apply (GetRunningAzureAgents_short m st containers c).
  - intros m st event <- Hrel [[err Hi]|Hp].
    + by rewrite (handleDockerEvent_vanished_short m event st err).
    + by rewrite handleDockerEvent_agent_short.
Qed.

Lemma C10_short_identity_panics_witness :
  let w := sample.agent_world [sample.short_container] (time.Unix 1700000200 0) in
  result (run (isExcluded sample.image_filter "abc" "agent-2"
                 "myrepo/azure-agent:latest") (NewMonitor w).2) = Panic
  ∧ result (run (GetRunningAzureAgents (NewMonitor w).1) (NewMonitor w).2) = Panic
  ∧ result (run (handleDockerEvent (NewMonitor w).1
                   (sample.event_of "start" sample.short_container))
                (NewMonitor w).2) = Panic
  ∧ result (run (handleDockerEvent (NewMonitor sample.gone_world).1
                   (sample.event_of "die" sample.short_container))
                (NewMonitor sample.gone_world).2) = Panic.
Proof.
  cbv zeta.
  assert (String.length "abc" < 12)%nat as Hlen by (vm_compute; lia).
  destruct (C10_short_identity_panics "abc" Hlen) as (Hex & Hget & Hev).
  split; [|split; [|split]].
  - apply Hex. vm_compute. reflexivity.
  - apply (Hget _ _ [sample.short_container] sample.short_container);
      [reflexivity|reflexivity|by constructor|vm_compute; reflexivity].
  - apply Hev; [reflexivity|split; [reflexivity|by repeat constructor]|].
    right. split; [vm_compute; reflexivity|].
    exists {| types.Config := Some sample.vsts_config |}, sample.vsts_config.
    split; [reflexivity|]. split; [reflexivity|]. vm_compute. reflexivity.
  - apply Hev; [reflexivity|split; [reflexivity|by repeat constructor]|].
    left. by eexists.
Defined.

(** ** Shutdown *)

(** [Stop] on an open channel: the context is cancelled, the client
    closed and the channel closed, in this order, once each. *)
Lemma Stop_run (m : Monitor) (st : State) :
  closed (activityChan st) = false →
  run (Stop m) st
  = {| result := Ok tt;
       final := {| world := world st;
                   activityChan := {| buf := buf (activityChan st);
                                      cap := cap (activityChan st);
                                      closed := true |};
                   ctxDone := true; clientClosed := true |};
       effects := [Act Cancel; Act ClientClose; Act Close] |}.
Proof. intros Hc. unfold Stop. cbn. by rewrite Hc. Qed.

(** A second [Stop] closes a closed channel, which panics. *)
Lemma Stop_again_panics (m : Monitor) (st : State) :
  closed (activityChan st) = true →
  run (Stop m) st
  = {| result := Panic;
       final := {| world := world st; activityChan := activityChan st;
                   ctxDone := true; clientClosed := true |};
       effects := [Act Cancel; Act ClientClose] |}.
Proof. intros Hc. unfold Stop. cbn. by rewrite Hc. Qed.

(** A step is the first move of a run. *)
Lemma step_run {A : Type} (p p' : prog A) (st st' : State) (es : list Effect) :
  step p st = Ok (p', st', es) → run p st = prepend es (run p' st').
Proof.
  destruct p; cbn; try done.
  - intros [= <- <- <-]. unfold prepend. cbn. done.
  - destruct (perform a st); [|done..]. by intros [= <- <- <-].
  - by intros [= <- <- <-].
  - by intros [= <- <- <-].
  - by intros [= <- <- <-].
  - by intros [= <- <- <-].
  - by intros [= <- <- <-].
  - intros [= <- <- <-]. unfold prepend. cbn. by destruct (run p _).
Qed.

(** ** [Stop] against the consumption goroutine *)

Section Race.
Context (m : Monitor) (event : events.Message) (w : World).

(** The handler of an event that is relevant, passes the filter, is
    classified and has a long enough identity, as a program: inspect, log
    the activity, send. *)
Lemma handleDockerEvent_agent_prog (info : types.ContainerJSON) :
  relevant event →
  passes m w event →
  containerInspect w (event_id event) = Reply info →
  (12 ≤ String.length (event_id event))%nat →
  ∃ k : reply types.ContainerJSON → prog unit,
    handleDockerEvent m event = ContainerInspect (event_id event) k
    ∧ k (Reply info)
      = Do (Log (LogActivity (events.Action event)
                   (event_name event)
                   (String.substring 0 12 (event_id event))))
          (Do (Send (live_event event)) (Ret tt)).
Proof.
  intros [Ht Ha] (He & info' & cfg & Hi' & Hcfg & Hcl) Hi Hlen.
  rewrite Hi in Hi'. injection Hi' as <-.
  apply interestingActions_allowed in Ha.
  fold events.ContainerEventType in Ht. apply String.eqb_eq in Ht.
  unfold handleDockerEvent. rewrite Ht, Ha. cbn [negb].
  eexists. split; [reflexivity|]. cbn beta iota.
  unfold excluded_by in He. rewrite orb_false_iff, !find_existsb in He.
  destruct He as [He1 He2]. apply bool_decide_eq_false in He1, He2.
  unfold isExcluded.
  destruct (find _ (excludeContainers m)); [by destruct He1|].
  destruct (find _ (excludeImages m)); [by destruct He2|].
  unfold IsAzureAgentContainer, slice12.
  rewrite Hcfg, Hcl, slice_to_Some by done.
  reflexivity.
Qed.

(** The goroutine wakes up on the event, inspects the container and logs
    the activity; [Stop] runs to its end; the goroutine moves again: its
    send finds the channel closed. *)
Lemma Stop_races_with_handler (st : State) (info : types.ContainerJSON) :
  relevant event →
  passes m w event →
  containerInspect w (event_id event) = Reply info →
  (12 ≤ String.length (event_id event))%nat →
  closed (activityChan st) = false →
  let b := interleave [Second; Second; Second; First; First; First; Second]
             (Stop m) (consume m [(w, EventsChan event)]) st [] in
  first b = Ret tt
  ∧ closed (activityChan (shared b)) = true
  ∧ sends (map snd (trail b)) = []
  ∧ (∃ k, second b = Do (Send (live_event event)) k)
  ∧ panicked b = Some Second.
Proof.
  intros Hrel Hp Hi Hlen Hopen.
  destruct (handleDockerEvent_agent_prog info Hrel Hp Hi Hlen) as (k & Hprog & Hk).
  destruct st as [w0 [b c cl] d e]. cbn in Hopen. subst cl.
  cbv zeta. cbn [consume]. rewrite Hprog.
  cbn [interleave step mbind prog_bind bind set_world world app map].
  rewrite Hi, Hk.
  cbn -[live_event String.substring].
  repeat split; try done. by eexists.
Qed.

End Race.

(** C7.  [Stop], called once, closes the channel without waiting for the
    consumption goroutine.  Here the goroutine has received a "start"
    event of an agent container and inspected it; [Stop] then runs to its
    end; the goroutine's next move is its send, on the closed channel,
    which panics. *)
Theorem C7_send_after_close :
  let w := sample.agent_world [] (time.Unix 1700000200 0) in
  let m := (NewMonitor w).1 in
  let event := sample.event_of "start" sample.agent_container in
  let b := interleave [Second; Second; Second; First; First; First; Second]
             (Stop m) (consume m [(w, EventsChan event)]) (NewMonitor w).2 [] in
  first b = Ret tt
  ∧ trail b
    = [(Second, Call (CallContainerInspect sample.agent_id));
       (Second, Act (Log (LogActivity "start" "agent-1" "4f2a9c1d7e3b")));
       (First, Act Cancel); (First, Act ClientClose); (First, Act Close)]
  ∧ closed (activityChan (shared b)) = true
  ∧ (∃ k, second b = Do (Send (live_event event)) k)
  ∧ panicked b = Some Second.
Proof.
  cbv zeta. split; [|split; [|split; [|split]]]; try (vm_compute; reflexivity).
  eexists. vm_compute. reflexivity.
Qed.

(** ** The heartbeat loop *)

Lemma then_run_returned {A B : Type} (a : A) (s : State) (es : list Effect)
    (f : A → State → Run B) :
  then_run {| result := Ok a; final := s; effects := es |} f = prepend es (f a s).
Proof. done. Qed.

(** With a positive period [StartHeartbeat] makes its ticker, logs its
    start and enters the loop. *)
Lemma StartHeartbeat_run (n : ECSNotifier) (monitor : Monitor)
    (wakes : list (World * heartbeat_case)) (st : State) :
  0 < heartbeatInterval n →
  run (StartHeartbeat n monitor wakes) st
  = prepend [Act (NewTicker (heartbeatInterval n));
             Act (Log (LogStartingHeartbeat (heartbeatInterval n)))]
      (run (heartbeat_loop n monitor wakes) st).
Proof.
  intros Hpos. unfold StartHeartbeat. cbn [mbind prog_bind bind act log run].
  unfold perform at 1.
  destruct (Z.leb_spec (heartbeatInterval n) 0); [lia|].
  cbn [perform]. unfold prepend, after. cbn. done.
Qed.

(** With a period of zero or less [time.NewTicker] panics. *)
Lemma StartHeartbeat_nonpositive (n : ECSNotifier) (monitor : Monitor)
    (wakes : list (World * heartbeat_case)) (st : State) :
  heartbeatInterval n ≤ 0 →
  run (StartHeartbeat n monitor wakes) st = halt Panic st.
Proof.
  intros Hneg. unfold StartHeartbeat. cbn [mbind prog_bind bind act log run].
  unfold perform at 1.
  by destruct (Z.leb_spec (heartbeatInterval n) 0); [|lia].
Qed.

(** C8, as amended.  With a positive period [StartHeartbeat] enters the
    loop.  A tick runs the snapshot query first.  When the query
    reports an error, the error is logged, no call to ECS is made and the
    loop goes on; when it answers [b], [SendActivitySignal] runs with [b]
    and the loop goes on, a failed send being logged; when it panics, so
    does the loop.  A wake-up on the stop channel makes the loop return.
    The loop returns only so, and ends otherwise only by a panic of the
    snapshot query. *)
Theorem C8_heartbeat_loop (n : ECSNotifier) (monitor : Monitor) (st : State)
    (w : World) (rest : list (World * heartbeat_case)) :
  let st' := set_world st w in
  let q := run (HasActiveAgents monitor) st' in
  (0 < heartbeatInterval n →
   ∀ wakes, run (StartHeartbeat n monitor wakes) st
            = prepend [Act (NewTicker (heartbeatInterval n));
                       Act (Log (LogStartingHeartbeat (heartbeatInterval n)))]
                (run (heartbeat_loop n monitor wakes) st))
  ∧ (∀ b err, result q = Ok (b, Some err) →
     run (heartbeat_loop n monitor ((w, TickerC) :: rest)) st
     = prepend (effects q ++ [Act (Log (LogErrorChecking err))])
         (run (heartbeat_loop n monitor rest) st')
     ∧ ∀ c, c ∈ calls (effects q ++ [Act (Log (LogErrorChecking err))]) →
            is_ecs_call c = false)
  ∧ (∀ b, result q = Ok (b, None) →
     let s := run (SendActivitySignal n b) st' in
     run (heartbeat_loop n monitor ((w, TickerC) :: rest)) st
     = prepend (effects q ++ effects s
                ++ match result s with
                   | Ok (Some e) => [Act (Log (LogErrorSending e))]
                   | _ => []
                   end)
         (run (heartbeat_loop n monitor rest) st'))
  ∧ (result q = Panic →
     result (run (heartbeat_loop n monitor ((w, TickerC) :: rest)) st) = Panic)
  ∧ run (heartbeat_loop n monitor ((w, StopChan) :: rest)) st
    = {| result := Ok tt; final := st';
         effects := [Act (Log LogHeartbeatStopped); Act TickerStop] |}
  ∧ (∀ wakes, result (run (heartbeat_loop n monitor wakes) st) = Ok tt →
       ∃ ticks w' rest', wakes = ticks ++ (w', StopChan) :: rest'
                         ∧ Forall is_tick ticks)
  ∧ (∀ wakes, result (run (heartbeat_loop n monitor wakes) st) = Panic →
       ∃ ticks w' rest',
         wakes = ticks ++ (w', TickerC) :: rest'
         ∧ Forall is_tick ticks
         ∧ result (run (HasActiveAgents monitor) (set_world st w')) = Panic).
Proof.
  cbv zeta. split; [|split; [|split; [|split; [|split; [|split]]]]].
  - intros Hpos wakes. by apply StartHeartbeat_run.
  - intros b err Hq. split.
    + by rewrite heartbeat_loop_tick, (heartbeat_tick_error n monitor _ b err Hq).
    + intros c Hc.
      destruct (HasActiveAgents_run monitor (set_world st w)) as (_ & Hinv & _).
      cbv zeta in Hinv.
      assert (Forall inventory_effect
                (effects (run (HasActiveAgents monitor) (set_world st w))
                 ++ [Act (Log (LogErrorChecking err))])) as Hall
        by (apply Forall_app; split; [done|by repeat constructor]).
      by apply (inventory_effects_quiet _ Hall).
  - intros b Hq.
    by rewrite heartbeat_loop_tick, (heartbeat_tick_answer n monitor _ b Hq).
  - intros Hq. rewrite heartbeat_loop_tick. unfold then_run.
    by rewrite (heartbeat_tick_panic n monitor _ Hq).
  - apply heartbeat_loop_stop.
  - intros wakes. apply heartbeat_loop_returns.
  - intros wakes. apply heartbeat_loop_panics.
Qed.

(** One tick with an agent running and the self-identity unresolved, then
    the stop signal. *)
Lemma C8_heartbeat_loop_witness :
  let w := sample.agent_world [sample.agent_container] (time.Unix 1700000200 0) in
  run (heartbeat_loop sample.unresolved (NewMonitor w).1
         [(w, TickerC); (w, StopChan)]) (NewMonitor w).2
  = {| result := Ok tt; final := (NewMonitor w).2;
       effects := [Call CallContainerList;
                   Call (CallContainerInspect sample.agent_id);
                   Call CallNow;
                   Act (Log LogArnNotSet);
                   Act (Log LogHeartbeatStopped);
                   Act TickerStop] |}.
Proof.
  cbv zeta.
  destruct (C8_heartbeat_loop sample.unresolved
              (NewMonitor (sample.agent_world [sample.agent_container]
                             (time.Unix 1700000200 0))).1
              (NewMonitor (sample.agent_world [sample.agent_container]
                             (time.Unix 1700000200 0))).2
              (sample.agent_world [sample.agent_container]
                 (time.Unix 1700000200 0))
              [(sample.agent_world [sample.agent_container]
                  (time.Unix 1700000200 0), StopChan)])
    as (_ & _ & Hanswer & _).
  rewrite (Hanswer true); vm_compute; reflexivity.
Defined.

(** C8 as stated fails when the snapshot query panics: with a listed
    agent container whose identity has three bytes, one tick ends the
    loop, and no stop signal was given. *)
Lemma C8_counterexample_panic_ends_loop :
  let w := sample.agent_world [sample.short_container] (time.Unix 1700000200 0) in
  let wakes := [(w, TickerC)] in
  Forall is_tick wakes
  ∧ result (run (StartHeartbeat sample.unresolved (NewMonitor w).1 wakes)
                (NewMonitor w).2) = Panic.
Proof. cbv zeta. split; [by repeat constructor|]. vm_compute. reflexivity. Qed.

(** ** When the operations return *)

(** With an identity of 12 bytes or more [isExcluded] returns. *)
Lemma isExcluded_returns (m : Monitor) (containerID containerName imageName : string)
    (st : State) :
  (12 ≤ String.length containerID)%nat →
  result (run (isExcluded m containerID containerName imageName) st)
  = Ok (excluded_by m containerID containerName imageName).
Proof.
  intros Hlen.
  destruct (isExcluded_cases m containerID containerName imageName st)
    as (_ & _ & [(Hr & -> & _)|[(Hr & -> & _)|(_ & _ & Hl & _)]]); [done|done|lia].
Qed.

(** With an identity of 12 bytes or more, a configuration in every
    inspection, and an open channel with room, the handler returns. *)
Lemma handleDockerEvent_returns (m : Monitor) (event : events.Message) (st : State) :
  (12 ≤ String.length (event_id event))%nat →
  (∀ info, containerInspect (world st) (event_id event) = Reply info →
     is_Some (types.Config info)) →
  closed (activityChan st) = false →
  (length (buf (activityChan st)) < cap (activityChan st))%nat →
  result (run (handleDockerEvent m event) st) = Ok tt.
Proof.
  intros Hlen Hcfg Hopen Hroom.
  destruct (decide (relevant event)) as [Hrel|Hrel].
  2:{ by rewrite handleDockerEvent_irrelevant. }
  destruct (containerInspect (world st) (event_id event))
    as [info|err] eqn:Hi.
  2:{ by rewrite (handleDockerEvent_vanished m event st err Hrel Hi Hlen). }
  destruct (excluded_by m (event_id event)
              (event_name event)
              (event_image event))
    eqn:He.
  { destruct (handleDockerEvent_excluded m event st info Hrel Hi He Hlen)
      as (l & _ & ->). done. }
  destruct (Hcfg info eq_refl) as [cfg Hc].
  destruct (classify cfg) eqn:Hcl.
  2:{ by rewrite (handleDockerEvent_not_agent m event st info cfg Hrel Hi He Hc Hcl). }
  rewrite handleDockerEvent_agent; [|done| |done].
  2:{ split; [done|]. by exists info, cfg. }
  unfold send. cbn [run after result]. unfold perform. rewrite Hopen.
  by destruct (Nat.ltb_spec (length (buf (activityChan st))) (cap (activityChan st)));
    [|lia].
Qed.

(** With the channel full and a tracked container listed, the inventory
    pass of [StartMonitoring] parks on its first send: nothing receives
    from the channel before [StartMonitoring] returns. *)
Lemma StartMonitoring_parks_when_full (m : Monitor) (st : State)
    (containers : list types.Container) (c : types.Container) :
  containerList (world st) = Reply containers →
  Forall (well_formed (world st)) containers →
  c ∈ containers →
  tracked m (world st) c = true →
  closed (activityChan st) = false →
  (cap (activityChan st) ≤ length (buf (activityChan st)))%nat →
  result (run (StartMonitoring m) st) = Blocked.
Proof.
  intros Hl Hwf Hc Htr Hopen Hfull.
  unfold StartMonitoring. rewrite run_bind.
  destruct (GetRunningAzureAgents_run m st) as (Hf & _ & _ & _ & Hok & Htot).
  destruct (Htot _ Hl Hwf) as [agents Hr].
  destruct (Hok _ Hr) as (containers' & Hl' & Hag & _).
  rewrite Hl in Hl'. injection Hl' as <-.
  unfold then_run. rewrite Hr. cbn [fst snd result final effects].
  rewrite Hf, run_bind, run_log. cbn [then_run result final effects].
  rewrite run_bind. unfold then_run.
  assert (running_event (world st) c ∈ agents) as Hin.
  { rewrite Hag. apply list_elem_of_fmap. exists c. split; [done|].
    apply list_elem_of_In, filter_In. split; [by apply list_elem_of_In|done]. }
  destruct agents as [|ev agents]; [by apply elem_of_nil in Hin|].
  cbn [send_all]. rewrite run_bind. unfold send. cbn [run]. unfold perform.
  rewrite Hopen.
  by destruct (Nat.ltb_spec (length (buf (activityChan st))) (cap (activityChan st)));
    [lia|].
Qed.

(** * Further properties of the package *)

(** ** The classifier and the order of the label map *)

Lemma existsb_Permutation {X : Type} (f : X → bool) (l l' : list X) :
  l ≡ₚ l' → existsb f l = existsb f l'.
Proof.
  induction 1 as [|x l l' _ IH|x y l|l l' l'' _ IH1 _ IH2]; cbn.
  - done.
  - by rewrite IH.
  - by destruct (f x), (f y).
  - by rewrite IH1.
Qed.

(** X1.  Go leaves the order in which [range] visits a map open.  Whatever
    the order in which the labels are visited, the body of
    [IsAzureAgentContainer] gives the same answer. *)
Theorem classify_any_label_order (cfg : container.Config)
    (kvs : list (string * string)) :
  kvs ≡ₚ map_to_list (container.Labels cfg) →
  classify_in_order kvs cfg = classify cfg.
Proof.
  intros Hp. unfold classify_in_order, classify.
  by rewrite (existsb_Permutation label_matches _ _ Hp).
Qed.

Lemma classify_any_label_order_witness :
  let cfg := {| container.Image := "worker:2";
                container.Env := [];
                container.Labels := {[ "team" := "build";
                                       "azure.role" := "agent" ]} |} in
  classify_in_order [("team", "build"); ("azure.role", "agent")] cfg = true
  ∧ classify_in_order [("azure.role", "agent"); ("team", "build")] cfg = true.
Proof.
  cbv zeta. split.
  - rewrite classify_any_label_order; [by vm_compute|].
    vm_compute. first [reflexivity | apply perm_swap].
  - rewrite classify_any_label_order; [by vm_compute|].
    vm_compute. first [reflexivity | apply perm_swap].
Defined.

(** ** An empty entry in an exclusion list *)

Lemma Contains_empty (s : string) : strings.Contains s "" = true.
Proof. by destruct s. Qed.

Lemma excluded_by_empty_entry (m : Monitor) (id name image : string) :
  "" ∈ excludeContainers m ∨ "" ∈ excludeImages m →
  excluded_by m id name image = true.
Proof.
  intros [H|H]; unfold excluded_by; apply orb_true_iff; [left|right];
    apply existsb_exists; exists ""; (split; [by apply list_elem_of_In|]);
    by rewrite ?Contains_empty.
Qed.

(** The inventory loop over containers that are all excluded: nothing but
    the log lines of the filter, and the slice it was given. *)
Lemma scan_all_excluded (m : Monitor) (containers : list types.Container) :
  ∀ (agents : list ActivityEvent) (st : State),
    Forall (λ c, (12 ≤ String.length (types.ID c))%nat ∧ types.Names c ≠ []
                 ∧ excluded_by m (types.ID c) (display_name c) (types.Image c) = true)
           containers →
    let r := run (scan m containers agents) st in
    result r = Ok agents ∧ final r = st ∧ calls (effects r) = [].
Proof.
  induction containers as [|c rest IH]; intros agents st Hall; cbv zeta.
  - done.
  - apply Forall_cons in Hall as [(Hlen & Hnames & Hex) Hall].
    cbn [scan]. unfold display_name in Hex.
    destruct (types.Names c !! 0%nat) as [name0|] eqn:Hn;
      [|by destruct (types.Names c)].
    cbn [default from_option id] in Hex.
    destruct (isExcluded_true m _ _ _ st Hex Hlen) as (l & _ & Hrun).
    rewrite run_bind, Hrun. unfold then_run. cbn [result final effects].
    destruct (IH agents st Hall) as (H1 & H2 & H3).
    split; [done|]. split; [done|].
    unfold calls in *. cbn. done.
Qed.

(** X2.  [strings.Contains(s, "")] holds for every [s]: with an empty entry in
    either exclusion list, [isExcluded] returns [true] for every
    container, the inventory lists nothing and inspects nothing, and
    [HasActiveAgents] answers [false]. *)
Theorem empty_entry_excludes_everything (m : Monitor) (st : State)
    (containers : list types.Container) :
  "" ∈ excludeContainers m ∨ "" ∈ excludeImages m →
  containerList (world st) = Reply containers →
  Forall (λ c, (12 ≤ String.length (types.ID c))%nat ∧ types.Names c ≠ [])
         containers →
  (∀ id name image,
     (12 ≤ String.length id)%nat →
     result (run (isExcluded m id name image) st) = Ok true)
  ∧ result (run (GetRunningAzureAgents m) st) = Ok ([], None)
  ∧ calls (effects (run (GetRunningAzureAgents m) st)) = [CallContainerList]
  ∧ result (run (HasActiveAgents m) st) = Ok (false, None).
Proof.
  intros Hempty Hl Hall.
  assert (Forall (λ c, (12 ≤ String.length (types.ID c))%nat ∧ types.Names c ≠ []
                       ∧ excluded_by m (types.ID c) (display_name c) (types.Image c)
                         = true) containers) as Hall'.
  { eapply Forall_impl; [exact Hall|]. intros c [? ?].
    split; [done|]. split; [done|]. by apply excluded_by_empty_entry. }
  destruct (scan_all_excluded m containers [] st Hall') as (H1 & H2 & H3).
  assert (run (GetRunningAzureAgents m) st
          = {| result := Ok ([], None); final := st;
               effects := Call CallContainerList
                          :: effects (run (scan m containers []) st) ++ [] |}) as Hg.
  { rewrite (GetRunningAzureAgents_listing m st _ Hl).
    unfold then_run. rewrite H1. cbn. by rewrite H2. }
  split; [|split; [|split]].
  - intros id name image Hlen.
    rewrite isExcluded_returns by done.
    by rewrite excluded_by_empty_entry.
  - by rewrite Hg.
  - rewrite Hg. cbn [effects]. rewrite app_nil_r.
    unfold calls in *. cbn. by rewrite H3.
  - unfold HasActiveAgents. rewrite run_bind, Hg. done.
Qed.

Lemma empty_entry_excludes_everything_witness :
  let m := {| excludeContainers := []; excludeImages := [""] |} in
  let st := (NewMonitor (sample.agent_world [sample.agent_container]
                           (time.Unix 1700000200 0))).2 in
  result (run (GetRunningAzureAgents m) st) = Ok ([], None)
  ∧ result (run (HasActiveAgents m) st) = Ok (false, None).
Proof.
  cbv zeta.
  destruct (empty_entry_excludes_everything
              {| excludeContainers := []; excludeImages := [""] |}
              (NewMonitor (sample.agent_world [sample.agent_container]
                             (time.Unix 1700000200 0))).2
              [sample.agent_container]) as (_ & H2 & _ & H4).
  - right. by repeat constructor.
  - reflexivity.
  - apply Forall_singleton. split; [vm_compute; lia|done].
  - by split.
Defined.

(** ** The calls of the inventory *)

Lemma calls_app (es es' : list Effect) : calls (es ++ es') = calls es ++ calls es'.
Proof. unfold calls. by rewrite omap_app. Qed.

Lemma calls_call (c : call) (es : list Effect) : calls (Call c :: es) = c :: calls es.
Proof. done. Qed.

Lemma calls_act (a : action) (es : list Effect) : calls (Act a :: es) = calls es.
Proof. done. Qed.

Lemma calls_logs (ls : list LogLine) : calls (map (λ l, Act (Log l)) ls) = [].
Proof. by induction ls. Qed.

Lemma scan_calls (m : Monitor) (containers : list types.Container) :
  ∀ (agents out : list ActivityEvent) (st : State),
    result (run (scan m containers agents) st) = Ok out →
    calls (effects (run (scan m containers agents) st))
    = concat (map (inventory_calls m (world st)) containers).
Proof.
  induction containers as [|c rest IH]; intros agents out st Hr.
  - done.
  - cbn [scan map concat] in *. unfold inventory_calls at 1.
    assert (tracked m (world st) c
            = negb (excluded_by m (types.ID c) (display_name c) (types.Image c))
              && match containerInspect (world st) (types.ID c) with
                 | Reply info =>
                     match types.Config info with
                     | Some cfg => classify cfg
                     | None => false
                     end
                 | Failure _ => false
                 end) as Htr by done.
    rewrite Htr. clear Htr. unfold display_name.
    destruct (types.Names c !! 0%nat) as [name0|] eqn:Hn; [|done].
    cbn [default from_option id].
    rewrite run_bind in Hr |- *.
    pose proof (isExcluded_cases m (types.ID c) (strings.TrimPrefix name0 "/")
                  (types.Image c) st) as (Hf & (ls & Hls & _) & Hcase).
    destruct Hcase as [(Hx & He & Heff)|[(Hx & He & Hlen)|(Hx & He & Hlen & Heff)]];
      unfold then_run in Hr |- *; rewrite Hx in Hr |- *;
      cbn [result final effects] in Hr |- *; rewrite He; [| |done].
    + (* not excluded: the inspection *)
      rewrite Hf in Hr |- *. rewrite Heff. cbn [app run negb andb] in Hr |- *.
      destruct (containerInspect (world st) (types.ID c)) as [info|err] eqn:Hi.
      * rewrite run_bind in Hr |- *. unfold IsAzureAgentContainer in Hr |- *.
        destruct (types.Config info) as [cfg|]; [|done].
        unfold then_run in Hr |- *.
        cbn [lift run halt result final effects app] in Hr |- *.
        destruct (classify cfg).
        -- rewrite run_bind in Hr |- *. unfold slice12, then_run in Hr |- *.
           destruct (strings.slice_to (types.ID c) 12) as [id12|]; [|done].
           cbn [run halt result final effects app after] in Hr |- *.
           rewrite !calls_call. by erewrite IH by exact Hr.
        -- cbn [after result final effects] in Hr |- *.
           rewrite calls_call. by erewrite IH by exact Hr.
      * rewrite run_bind, run_log in Hr |- *. unfold then_run in Hr |- *.
        cbn [result final effects after app] in Hr |- *.
        rewrite calls_call, calls_act. by erewrite IH by exact Hr.
    + (* excluded: on to the next *)
      rewrite Hf in Hr |- *. cbn [negb andb].
      destruct (result (run (scan m rest agents) st)) eqn:Hrest; [|done..].
      cbn [effects]. rewrite calls_app, Hls, calls_logs.
      by erewrite IH by exact Hrest.
Qed.

(** X3.  When the inventory returns a list, its calls are the listing and
    then, container by container in the order of the listing, an
    inspection unless the container is excluded, and a reading of the
    clock when it is tracked.  An excluded container costs no call. *)
Theorem inventory_never_inspects_excluded (m : Monitor) (st : State)
    (containers : list types.Container) (agents : list ActivityEvent) :
  containerList (world st) = Reply containers →
  result (run (GetRunningAzureAgents m) st) = Ok (agents, None) →
  calls (effects (run (GetRunningAzureAgents m) st))
  = CallContainerList :: concat (map (inventory_calls m (world st)) containers).
Proof.
  intros Hl Hr.
  rewrite (GetRunningAzureAgents_listing m st _ Hl) in Hr |- *.
  unfold then_run in Hr |- *.
  destruct (result (run (scan m containers []) st)) as [out| |] eqn:Hs; [|done..].
  cbn [after effects run halt]. rewrite app_nil_r, calls_call.
  by rewrite (scan_calls m containers [] out st Hs).
Qed.

Lemma inventory_never_inspects_excluded_witness :
  let m := {| excludeContainers := ["web"]; excludeImages := [] |} in
  let w := fixture.world_of [fixture.web_container; sample.agent_container]
             (time.Unix 1700000200 0) in
  calls (effects (run (GetRunningAzureAgents m) (NewMonitor w).2))
  = [CallContainerList; CallContainerInspect sample.agent_id; CallNow].
Proof.
  cbv zeta.
  rewrite (inventory_never_inspects_excluded
             {| excludeContainers := ["web"]; excludeImages := [] |}
             (NewMonitor (fixture.world_of
                            [fixture.web_container; sample.agent_container]
                            (time.Unix 1700000200 0))).2
             [fixture.web_container; sample.agent_container]
             [running_event
                (fixture.world_of [fixture.web_container; sample.agent_container]
                   (time.Unix 1700000200 0))
                sample.agent_container]).
  - vm_compute. reflexivity.
  - reflexivity.
  - vm_compute. reflexivity.
Defined.

(** ** The snapshot query *)

Lemma existsb_filter_length {X : Type} (f : X → bool) (l : list X) :
  bool_decide (0 < length (List.filter f l))%nat = existsb f l.
Proof.
  induction l as [|x l IH]; cbn; [done|].
  destruct (f x); cbn; [|done]. apply bool_decide_eq_true. lia.
Qed.

(** With the containers as the daemon hands them out, the snapshot query
    answers whether a tracked container is listed, and the inventory
    returns the events of the tracked containers. *)
Lemma HasActiveAgents_tracked (m : Monitor) (st : State)
    (containers : list types.Container) :
  containerList (world st) = Reply containers →
  Forall (well_formed (world st)) containers →
  result (run (HasActiveAgents m) st)
  = Ok (existsb (tracked m (world st)) containers, None)
  ∧ result (run (GetRunningAzureAgents m) st)
    = Ok (map (running_event (world st))
              (List.filter (tracked m (world st)) containers), None)
  ∧ effects (run (HasActiveAgents m) st) = effects (run (GetRunningAzureAgents m) st)
  ∧ final (run (HasActiveAgents m) st) = st.
Proof.
  intros Hl Hwf.
  destruct (GetRunningAzureAgents_run m st) as (Hf & _ & _ & _ & Hok & Htot).
  destruct (Htot _ Hl Hwf) as [agents Hr].
  destruct (Hok _ Hr) as (containers' & Hl' & Hag & _).
  rewrite Hl in Hl'. injection Hl' as <-.
  unfold HasActiveAgents. rewrite run_bind. unfold then_run. rewrite Hr.
  cbn [fst snd run halt result final effects]. rewrite app_nil_r.
  rewrite <- existsb_filter_length, Hag, length_map. done.
Qed.

(** X4.  With the containers as the daemon hands them out, [HasActiveAgents]
    answers [true] exactly when some listed container is tracked, which
    is when [GetRunningAzureAgents], in the same world, returns a list
    that is not empty; both make the same calls. *)
Theorem HasActiveAgents_iff_tracked (m : Monitor) (st : State)
    (containers : list types.Container) :
  containerList (world st) = Reply containers →
  Forall (well_formed (world st)) containers →
  let q := run (HasActiveAgents m) st in
  let r := run (GetRunningAzureAgents m) st in
  result q = Ok (existsb (tracked m (world st)) containers, None)
  ∧ (∃ agents, result r = Ok (agents, None)
       ∧ (existsb (tracked m (world st)) containers = true ↔ agents ≠ []))
  ∧ effects q = effects r
  ∧ final q = st.
Proof.
  intros Hl Hwf. cbv zeta.
  destruct (HasActiveAgents_tracked m st containers Hl Hwf) as (H1 & H2 & H3 & H4).
  split; [done|]. split; [|done].
  eexists. split; [exact H2|].
  rewrite <- existsb_filter_length.
  destruct (List.filter _ containers); cbn; split; done.
Qed.

Lemma HasActiveAgents_iff_tracked_witness :
  let w := fixture.world_of [fixture.web_container; sample.agent_container]
             (time.Unix 1700000200 0) in
  result (run (HasActiveAgents (NewMonitor w).1) (NewMonitor w).2) = Ok (true, None)
  ∧ result (run (HasActiveAgents (NewMonitor w).1)
                (NewMonitor (fixture.world_of [fixture.web_container]
                               (time.Unix 1700000200 0))).2) = Ok (false, None).
Proof.
  cbv zeta. split.
  - refine (proj1 (HasActiveAgents_iff_tracked _ _
                     [fixture.web_container; sample.agent_container] _ _)).
    + reflexivity.
    + repeat constructor; try (vm_compute; lia); try done;
        intros info [= <-]; by eexists.
  - refine (proj1 (HasActiveAgents_iff_tracked _ _ [fixture.web_container] _ _)).
    + reflexivity.
    + repeat constructor; try (vm_compute; lia); try done;
        intros info [= <-]; by eexists.
Defined.

(** ** The handler and the daemon *)

(** X5.  The handler inspects the container of every container event with an
    allowed action, once, before the exclusion filter is asked, and makes
    no other call; for any other event it does nothing at all.  This
    holds however the run ends. *)
Theorem handleDockerEvent_inspects_once (m : Monitor) (event : events.Message)
    (st : State) :
  let r := run (handleDockerEvent m event) st in
  calls (effects r)
  = (if bool_decide (relevant event)
     then [CallContainerInspect (event_id event)] else [])
  ∧ (¬ relevant event → effects r = [])
  ∧ (length (sends (effects r)) ≤ 1)%nat.
Proof.
  cbv zeta. case_bool_decide as Hrel.
  2:{ rewrite (handleDockerEvent_irrelevant m event st Hrel). cbn.
      split; [done|]. split; [done|lia]. }
  split; [|split; [done|]].
  - rewrite (handleDockerEvent_relevant m event st Hrel).
    cbn [after effects]. rewrite calls_call. f_equal.
    destruct (containerInspect (world st) (event_id event)) as [info|err].
    + rewrite run_bind.
      pose proof (isExcluded_cases m (event_id event) (event_name event)
                    (event_image event) st) as (Hf & (ls & Hls & _) & Hcase).
      unfold then_run.
      destruct Hcase as [(Hx & _ & _)|[(Hx & _ & _)|(Hx & _ & _)]]; rewrite Hx;
        cbn [result final effects]; rewrite Hls, ?Hf.
      * rewrite calls_app, calls_logs. cbn [app].
        rewrite run_bind. unfold IsAzureAgentContainer.
        destruct (types.Config info) as [cfg|]; [|done].
        unfold then_run. cbn [lift run halt result final effects app].
        destruct (classify cfg); [|done]. cbn [negb].
        rewrite run_bind. unfold slice12, then_run.
        destruct (strings.slice_to (event_id event) 12); [|done].
        cbn [run halt result final effects app].
        rewrite run_bind, run_log. unfold then_run.
        cbn [result final effects app]. rewrite calls_act.
        unfold send. cbn [run]. by destruct (perform _ st).
      * rewrite calls_app, calls_logs. done.
      * apply calls_logs.
    + rewrite run_bind. unfold slice12, then_run.
      by destruct (strings.slice_to (event_id event) 12).
  - destruct (handleDockerEvent_sends m event st) as [H|[H _]];
      cbv zeta in H; rewrite H; cbn; lia.
Qed.

(** ** The consumption goroutine *)

Lemma queued_nil (st : State) : queued st [] = st.
Proof. destruct st as [w [b c cl] d e]. unfold queued, set_chan. cbn. by rewrite app_nil_r. Qed.

Lemma queued_queued (st : State) (l l' : list ActivityEvent) :
  queued (queued st l) l' = queued st (l ++ l').
Proof. unfold queued, set_chan. cbn. by rewrite app_assoc. Qed.

(** One event, as the daemon sends them, on an open channel with room for
    it: the handler returns, and the channel holds the [live_event] more
    exactly when the event is one the handler emits. *)
Lemma handleDockerEvent_step (m : Monitor) (event : events.Message) (st : State) :
  docker_event (world st, event) →
  closed (activityChan st) = false →
  (emits m (world st) event = true →
   (length (buf (activityChan st)) < cap (activityChan st))%nat) →
  let l := if emits m (world st) event then [live_event event] else [] in
  let r := run (handleDockerEvent m event) st in
  result r = Ok tt ∧ final r = queued st l ∧ sends (effects r) = l.
Proof.
  intros Hd Hopen Hroom. cbv zeta. unfold emits in *.
  case_bool_decide as Hrel; cbn [andb] in *.
  2:{ rewrite (handleDockerEvent_irrelevant m event st Hrel), queued_nil. done. }
  destruct (Hd Hrel) as [Hlen Hcfg]. cbn [fst snd] in Hlen, Hcfg.
  destruct (containerInspect (world st) (event_id event)) as [info|err] eqn:Hi.
  2:{ rewrite (handleDockerEvent_vanished m event st err Hrel Hi Hlen).
      rewrite andb_false_r, queued_nil. done. }
  destruct (Hcfg info eq_refl) as [cfg Hc]. rewrite Hc in *.
  destruct (excluded_by m (event_id event) (event_name event) (event_image event))
    eqn:He; cbn [negb andb] in *.
  { destruct (handleDockerEvent_excluded m event st info Hrel Hi He Hlen)
      as (l & _ & ->).
    rewrite queued_nil. done. }
  destruct (classify cfg) eqn:Hcl.
  2:{ rewrite (handleDockerEvent_not_agent m event st info cfg Hrel Hi He Hc Hcl).
      rewrite queued_nil. done. }
  assert (passes m (world st) event) as Hp.
  { split; [done|]. by exists info, cfg. }
  rewrite (handleDockerEvent_agent m event st Hrel Hp Hlen).
  unfold send. cbn [run]. unfold perform. rewrite Hopen.
  specialize (Hroom eq_refl).
  destruct (Nat.ltb_spec (length (buf (activityChan st))) (cap (activityChan st)));
    [|lia].
  cbn. split; [done|]. split; [|done].
  unfold queued. by rewrite Hopen.
Qed.

Lemma closed_set_world (st : State) (w : World) :
  activityChan (set_world st w) = activityChan st.
Proof. done. Qed.

Lemma consume_events (m : Monitor) (evs : list (World * events.Message)) :
  ∀ (w : World) (c : select_case) (rest : list (World * select_case)) (st : State),
    Forall docker_event evs →
    ends_consumption c →
    closed (activityChan st) = false →
    (length (buf (activityChan st))
     + length (List.filter (λ x, emits m x.1 x.2) evs)
     ≤ cap (activityChan st))%nat →
    let out := map (λ x, live_event x.2) (List.filter (λ x, emits m x.1 x.2) evs) in
    let r := run (consume m (event_wakes evs ++ (w, c) :: rest)) st in
    result r = Ok tt
    ∧ sends (effects r) = out
    ∧ final r = set_world (queued st out) w.
Proof.
  induction evs as [|[w1 e] evs IH]; intros w c rest st Hd Hend Hopen Hroom;
    cbv zeta.
  - cbn [event_wakes map app List.filter]. rewrite queued_nil.
    destruct c as [|[err|]|ev]; [| | |done]; cbn [consume run].
    + done.
    + by destruct err.
    + done.
  - apply Forall_cons in Hd as [Hd1 Hd].
    cbn [event_wakes map app fst snd consume run List.filter] in *.
    fold (event_wakes evs).
    change (handleDockerEvent m e;; consume m (event_wakes evs ++ (w, c) :: rest))
      with (handleDockerEvent m e ≫= λ _, consume m (event_wakes evs ++ (w, c) :: rest)).
    rewrite run_bind.
    destruct (handleDockerEvent_step m e (set_world st w1)) as (H1 & H2 & H3).
    + done.
    + done.
    + intros Hem. cbn [world set_world] in Hem. rewrite Hem in Hroom.
      cbn [length] in Hroom. rewrite closed_set_world. lia.
    + cbn [world set_world] in H2, H3.
      unfold then_run. rewrite H1, H2.
      destruct (IH w c rest
                  (queued (set_world st w1)
                     (if emits m w1 e then [live_event e] else [])))
        as (I1 & I2 & I3).
      * done.
      * done.
      * done.
      * cbn. destruct (emits m w1 e); cbn in Hroom |- *;
          rewrite ?length_app; cbn; lia.
      * cbn [result final effects]. rewrite I1, I3, sends_app, H3, I2.
        split; [done|]. split.
        -- by destruct (emits m w1 e).
        -- rewrite queued_queued. destruct st as [w0 ch d cc].
           by destruct (emits m w1 e).
Qed.

(** X6.  The consumption goroutine handles the events it receives in order
    and ends at the first wake-up on the context or on the error channel;
    what comes later is not looked at.  With the events as the daemon
    sends them and room on the channel, it returns, and what it put on the
    channel is the [live_event] of each event that is relevant, not
    excluded, inspected and classified, in the order of arrival. *)
Theorem consume_emits_in_order (m : Monitor) (evs : list (World * events.Message))
    (w : World) (c : select_case) (rest : list (World * select_case)) (st : State) :
  Forall docker_event evs →
  ends_consumption c →
  closed (activityChan st) = false →
  (length (buf (activityChan st))
   + length (List.filter (λ x, emits m x.1 x.2) evs)
   ≤ cap (activityChan st))%nat →
  let out := map (λ x, live_event x.2) (List.filter (λ x, emits m x.1 x.2) evs) in
  let r := run (consume m (event_wakes evs ++ (w, c) :: rest)) st in
  result r = Ok tt
  ∧ sends (effects r) = out
  ∧ buf (activityChan (final r)) = buf (activityChan st) ++ out
  ∧ closed (activityChan (final r)) = false
  ∧ run (consume m (event_wakes evs ++ (w, c) :: rest)) st
    = run (consume m (event_wakes evs ++ [(w, c)])) st.
Proof.
  intros Hd Hend Hopen Hroom. cbv zeta.
  destruct (consume_events m evs w c rest st Hd Hend Hopen Hroom) as (H1 & H2 & H3).
  rewrite H1, H2, H3. cbn. split; [done|]. split; [done|]. split; [done|].
  split; [done|].
  clear - Hend. revert st. induction evs as [|[w1 e] evs IH]; intros st.
  - cbn [event_wakes map app]. by destruct c.
  - cbn [event_wakes map app fst snd consume run]. fold (event_wakes evs).
    change (handleDockerEvent m e;; consume m ?k)
      with (handleDockerEvent m e ≫= λ _, consume m k).
    rewrite !run_bind. unfold then_run.
    destruct (result (run (handleDockerEvent m e) (set_world st w1))); [|done..].
    by rewrite IH.
Qed.

Lemma consume_emits_in_order_witness :
  let w := sample.agent_world [] (time.Unix 1700000200 0) in
  let image_event :=
    {| events.Type_ := "image"; events.Action := "pull";
       events.Actor_ := {| events.ID := "alpine"; events.Attributes := ∅ |};
       events.Time := 1700000090; events.TimeNano := 0 |} in
  let start := sample.event_of "start" sample.agent_container in
  let die := sample.event_of "die" sample.agent_container in
  let r := run (consume (NewMonitor w).1
                  (event_wakes [(w, image_event); (w, start);
                                (sample.gone_world, die)]
                   ++ [(sample.gone_world, CtxDone); (w, EventsChan start)]))
             (NewMonitor w).2 in
  result r = Ok tt ∧ sends (effects r) = [live_event start].
Proof.
  cbv zeta.
  destruct (consume_emits_in_order
              (NewMonitor (sample.agent_world [] (time.Unix 1700000200 0))).1
              [(sample.agent_world [] (time.Unix 1700000200 0),
                {| events.Type_ := "image"; events.Action := "pull";
                   events.Actor_ := {| events.ID := "alpine";
                                       events.Attributes := ∅ |};
                   events.Time := 1700000090; events.TimeNano := 0 |});
               (sample.agent_world [] (time.Unix 1700000200 0),
                sample.event_of "start" sample.agent_container);
               (sample.gone_world, sample.event_of "die" sample.agent_container)]
              sample.gone_world CtxDone
              [(sample.agent_world [] (time.Unix 1700000200 0),
                EventsChan (sample.event_of "start" sample.agent_container))]
              (NewMonitor (sample.agent_world [] (time.Unix 1700000200 0))).2)
    as (H1 & H2 & _).
  - apply Forall_cons_2; [|apply Forall_cons_2; [|apply Forall_cons_2; [|apply Forall_nil_2]]].
    + intros [Hty _]. discriminate Hty.
    + intros _. split; [vm_compute; lia|]. intros info [= <-]. by eexists.
    + intros _. split; [vm_compute; lia|]. intros info H. discriminate H.
  - exact I.
  - reflexivity.
  - vm_compute. lia.
  - split; [exact H1|]. rewrite H2. vm_compute. reflexivity.
Defined.

(** ** An inventory larger than the channel *)

(** More events than the channel has room for: the loop puts as many as
    fit and parks on the next send. *)
Lemma send_all_parks (agents : list ActivityEvent) :
  ∀ st : State,
    closed (activityChan st) = false →
    (length (buf (activityChan st)) ≤ cap (activityChan st))%nat →
    (cap (activityChan st) < length (buf (activityChan st)) + length agents)%nat →
    let r := run (send_all agents) st in
    result r = Blocked
    ∧ effects r
      = map (λ ev, Act (Send ev))
            (take (cap (activityChan st) - length (buf (activityChan st))) agents).
Proof.
  induction agents as [|agent rest IH]; intros st Hopen Hinv Hover; cbv zeta.
  - cbn in Hover. lia.
  - cbn [send_all].
    change (send agent;; send_all rest) with (send agent ≫= λ _, send_all rest).
    rewrite run_bind. unfold send. cbn [run]. unfold perform. rewrite Hopen.
    destruct (Nat.ltb_spec (length (buf (activityChan st))) (cap (activityChan st)))
      as [Hlt|Hge].
    + unfold then_run. cbn [after halt result final effects app].
      destruct (IH (set_chan st {| buf := buf (activityChan st) ++ [agent];
                                   cap := cap (activityChan st);
                                   closed := false |})) as [I1 I2].
      * done.
      * cbn. rewrite length_app. cbn. lia.
      * cbn. rewrite length_app. cbn in *. lia.
      * rewrite I1, I2. cbn. rewrite length_app. cbn.
        split; [done|].
        replace (cap (activityChan st) - length (buf (activityChan st)))%nat
          with (S (cap (activityChan st) - (length (buf (activityChan st)) + 1)))%nat
          by lia.
        done.
    + cbn. replace (cap (activityChan st) - length (buf (activityChan st)))%nat
        with 0%nat by lia.
      done.
Qed.

(** X7.  [StartMonitoring] puts the inventory on the channel before anything
    receives from it.  With more tracked containers than the channel has
    room for, it puts as many events as fit, in listing order, and parks on
    the next send: it does not return, no subscription to the event
    stream is made and the goroutine is not started. *)
Theorem StartMonitoring_parks_beyond_capacity (m : Monitor) (st : State)
    (containers : list types.Container) :
  containerList (world st) = Reply containers →
  Forall (well_formed (world st)) containers →
  closed (activityChan st) = false →
  (length (buf (activityChan st)) ≤ cap (activityChan st))%nat →
  (cap (activityChan st)
   < length (buf (activityChan st))
     + length (List.filter (tracked m (world st)) containers))%nat →
  let r := run (StartMonitoring m) st in
  result r = Blocked
  ∧ sends (effects r)
    = take (cap (activityChan st) - length (buf (activityChan st)))
           (map (running_event (world st))
                (List.filter (tracked m (world st)) containers))
  ∧ subscriptions (effects r) = []
  ∧ Act Go ∉ effects r.
Proof.
  intros Hl Hwf Hopen Hinv Hover. cbv zeta.
  unfold StartMonitoring. rewrite run_bind.
  destruct (GetRunningAzureAgents_run m st) as (Hf & Hq & _ & _ & Hok & Htot).
  destruct (Htot _ Hl Hwf) as [agents Hr].
  destruct (Hok _ Hr) as (containers' & Hl' & Hag & _).
  rewrite Hl in Hl'. injection Hl' as <-.
  unfold then_run. rewrite Hr. cbn [fst snd result final effects].
  rewrite Hf, run_bind, run_log. cbn [then_run result final effects].
  rewrite run_bind. unfold then_run.
  destruct (send_all_parks agents st Hopen Hinv) as [P1 P2].
  { rewrite Hag, length_map. done. }
  rewrite P1, P2. cbn [result final effects].
  destruct (inventory_effects_quiet _ Hq) as (Hs1 & Hs2 & _).
  split; [done|]. split; [|split].
  - rewrite !sends_app, Hs1, sends_of_sends. cbn. by rewrite Hag.
  - rewrite !subscriptions_app, Hs2, subscriptions_of_sends. done.
  - intros Hin. rewrite !elem_of_app in Hin.
    destruct Hin as [Hin|[Hin|Hin]].
    + rewrite Forall_forall in Hq. by apply (Hq _ Hin).
    + apply elem_of_cons in Hin as [Hin|Hin]; [done|by apply elem_of_nil in Hin].
    + apply list_elem_of_fmap in Hin as (ev & Hev & _). done.
Qed.

Lemma StartMonitoring_parks_beyond_capacity_witness :
  let w := sample.agent_world [sample.agent_container; sample.agent_container]
             (time.Unix 1700000200 0) in
  let st := {| world := w;
               activityChan := {| buf := []; cap := 1; closed := false |};
               ctxDone := false; clientClosed := false |} in
  result (run (StartMonitoring (NewMonitor w).1) st) = Blocked
  ∧ sends (effects (run (StartMonitoring (NewMonitor w).1) st))
    = [running_event w sample.agent_container].
Proof.
  cbv zeta.
  destruct (StartMonitoring_parks_beyond_capacity
              (NewMonitor (sample.agent_world
                             [sample.agent_container; sample.agent_container]
                             (time.Unix 1700000200 0))).1
              {| world := sample.agent_world
                            [sample.agent_container; sample.agent_container]
                            (time.Unix 1700000200 0);
                 activityChan := {| buf := []; cap := 1; closed := false |};
                 ctxDone := false; clientClosed := false |}
              [sample.agent_container; sample.agent_container])
    as (H1 & H2 & _).
  - reflexivity.
  - apply Forall_cons_2; [|apply Forall_cons_2; [|apply Forall_nil_2]];
      (split; [vm_compute; lia|]); (split; [done|]);
      intros info [= <-]; by eexists.
  - reflexivity.
  - vm_compute. lia.
  - vm_compute. lia.
  - split; [exact H1|]. rewrite H2. vm_compute. reflexivity.
Defined.

(** ** What the heartbeat reports *)

Lemma SendActivitySignal_resolved (n : ECSNotifier) (hasActivity : bool) (st : State) :
  containerInstanceARN n ≠ "" →
  run (SendActivitySignal n hasActivity) st
  = {| result :=
         Ok match putAttributes (world st) with
            | Some e => Some (ErrorfW "failed to put attributes" e)
            | None => None
            end;
       final := st;
       effects :=
         [Call CallNow;
          Call (CallPutAttributes (clusterName n)
                  (activity_attributes hasActivity (now (world st))))]
         ++ match putAttributes (world st) with
            | Some _ => []
            | None =>
                [Act (Log (LogSignalSent
                             (if hasActivity then "active" else "inactive")
                             (time.UnixOf (now (world st)))))]
            end |}.
Proof.
  intros Harn. unfold SendActivitySignal.
  destruct (String.eqb_spec (containerInstanceARN n) ""); [done|].
  cbn [run]. unfold activity_attributes.
  by destruct (putAttributes (world st)).
Qed.

Lemma ecs_calls_inventory (es : list Effect) :
  Forall inventory_effect es → List.filter is_ecs_call (calls es) = [].
Proof.
  intros H. destruct (inventory_effects_quiet es H) as (_ & _ & Hc).
  induction (calls es) as [|c cs IH]; [done|].
  cbn. rewrite (Hc c) by (apply elem_of_cons; by left).
  apply IH. intros c' Hc'. apply Hc. apply elem_of_cons. by right.
Qed.

(** X8.  On a tick, with the instance identity resolved and the containers as
    the daemon hands them out, the heartbeat makes one call to ECS: it
    puts, on the notifier's cluster, the attribute "azure-agent-activity"
    with "active" exactly when some listed container is tracked and
    "inactive" otherwise, and "azure-agent-last-check" with the clock in
    seconds.  The tick returns whether or not ECS accepts the call. *)
Theorem heartbeat_tick_reports_tracked (n : ECSNotifier) (m : Monitor) (st : State)
    (containers : list types.Container) :
  containerInstanceARN n ≠ "" →
  containerList (world st) = Reply containers →
  Forall (well_formed (world st)) containers →
  let r := run (heartbeat_tick n m) st in
  result r = Ok tt
  ∧ List.filter is_ecs_call (calls (effects r))
    = [CallPutAttributes (clusterName n)
         [("azure-agent-activity",
           if existsb (tracked m (world st)) containers then "active" else "inactive");
          ("azure-agent-last-check", fmt.Sprintf_d (time.UnixOf (now (world st))))]].
Proof.
  intros Harn Hl Hwf. cbv zeta.
  destruct (HasActiveAgents_tracked m st containers Hl Hwf) as (Hq & _ & _ & _).
  rewrite (heartbeat_tick_answer n m st _ Hq). cbn [result effects].
  split; [done|].
  destruct (HasActiveAgents_run m st) as (_ & Hinv & _).
  rewrite !calls_app, !List.filter_app, (ecs_calls_inventory _ Hinv).
  rewrite (SendActivitySignal_resolved n _ st Harn). cbn [result effects app].
  rewrite !calls_call. cbn [List.filter is_ecs_call app].
  unfold activity_attributes.
  by destruct (putAttributes (world st)).
Qed.

Lemma heartbeat_tick_reports_tracked_witness :
  let w := fixture.world_of [fixture.web_container; sample.agent_container]
             (time.Unix 1700000200 0) in
  List.filter is_ecs_call
    (calls (effects (run (heartbeat_tick fixture.resolved (NewMonitor w).1)
                       (NewMonitor w).2)))
  = [CallPutAttributes "build-cluster"
       [("azure-agent-activity", "active");
        ("azure-agent-last-check", "1700000200")]].
Proof.
  cbv zeta.
  destruct (heartbeat_tick_reports_tracked fixture.resolved
              (NewMonitor (fixture.world_of
                             [fixture.web_container; sample.agent_container]
                             (time.Unix 1700000200 0))).1
              (NewMonitor (fixture.world_of
                             [fixture.web_container; sample.agent_container]
                             (time.Unix 1700000200 0))).2
              [fixture.web_container; sample.agent_container]) as [_ H].
  - done.
  - reflexivity.
  - apply Forall_cons_2; [|apply Forall_cons_2; [|apply Forall_nil_2]];
      (split; [vm_compute; lia|]); (split; [done|]);
      intros info [= <-]; by eexists.
  - rewrite H. vm_compute. reflexivity.
Defined.

(** ** The heartbeat and the monitor's channel *)

Lemma heartbeat_effect_inventory (es : list Effect) :
  Forall inventory_effect es → Forall heartbeat_effect es.
Proof.
  intros H. eapply Forall_impl; [exact H|]. by intros [[]|[]].
Qed.

Lemma SendActivitySignal_effects (n : ECSNotifier) (b : bool) (st : State) :
  Forall heartbeat_effect (effects (run (SendActivitySignal n b) st)).
Proof.
  unfold SendActivitySignal.
  destruct (String.eqb (containerInstanceARN n) ""); cbn [run].
  - by repeat constructor.
  - destruct (putAttributes (world st)); by repeat constructor.
Qed.

Lemma heartbeat_tick_effects (n : ECSNotifier) (m : Monitor) (st : State) :
  Forall heartbeat_effect (effects (run (heartbeat_tick n m) st)).
Proof.
  destruct (HasActiveAgents_run m st) as (Hf & Hinv & Hcase).
  apply heartbeat_effect_inventory in Hinv.
  destruct (result (run (HasActiveAgents m) st)) as [[b [err|]]| |] eqn:Hq.
  - rewrite (heartbeat_tick_error n m st b err Hq). cbn [effects].
    apply Forall_app. split; [done|]. by repeat constructor.
  - rewrite (heartbeat_tick_answer n m st b Hq). cbn [effects].
    apply Forall_app. split; [done|].
    apply Forall_app. split; [apply SendActivitySignal_effects|].
    destruct (result (run (SendActivitySignal n b) st)) as [[e|]| |];
      by repeat constructor.
  - unfold heartbeat_tick. rewrite run_bind. unfold then_run. by rewrite Hq.
  - unfold heartbeat_tick. rewrite run_bind. unfold then_run. by rewrite Hq.
Qed.

Lemma heartbeat_loop_effects (n : ECSNotifier) (m : Monitor)
    (wakes : list (World * heartbeat_case)) :
  ∀ st, let r := run (heartbeat_loop n m wakes) st in
        Forall heartbeat_effect (effects r)
        ∧ activityChan (final r) = activityChan st
        ∧ ctxDone (final r) = ctxDone st
        ∧ clientClosed (final r) = clientClosed st.
Proof.
  induction wakes as [|[w []] wakes IH]; intros st; cbv zeta.
  - done.
  - rewrite heartbeat_loop_tick. unfold then_run.
    pose proof (heartbeat_tick_effects n m (set_world st w)) as Ht.
    destruct (heartbeat_tick_run n m (set_world st w)) as [Hf _].
    destruct (result (run (heartbeat_tick n m) (set_world st w))); rewrite ?Hf;
      cbn [result final effects]; [|done..].
    destruct (IH (set_world st w)) as (I1 & I2 & I3 & I4).
    split; [by apply Forall_app|]. done.
  - rewrite heartbeat_loop_stop. cbn. split; [by repeat constructor|done].
Qed.

(** X9.  Whatever wakes it up, and however its run ends, [StartHeartbeat]
    only logs, handles its ticker and calls the daemon, the clock and
    ECS: it puts nothing on the monitor's channel, does not close it, and
    does not cancel the monitor's context or close its client. *)
Theorem StartHeartbeat_leaves_monitor (n : ECSNotifier) (m : Monitor)
    (wakes : list (World * heartbeat_case)) (st : State) :
  let r := run (StartHeartbeat n m wakes) st in
  Forall heartbeat_effect (effects r)
  ∧ sends (effects r) = []
  ∧ activityChan (final r) = activityChan st
  ∧ ctxDone (final r) = ctxDone st
  ∧ clientClosed (final r) = clientClosed st.
Proof.
  cbv zeta.
  assert (∀ es, Forall heartbeat_effect es → sends es = []) as Hquiet.
  { induction 1 as [|[[]|] es He _ IH]; done. }
  destruct (Z.leb_spec (heartbeatInterval n) 0) as [Hle|Hlt].
  - rewrite (StartHeartbeat_nonpositive n m wakes st Hle). done.
  - rewrite (StartHeartbeat_run n m wakes st Hlt).
    destruct (heartbeat_loop_effects n m wakes st) as (H1 & H2 & H3 & H4).
    assert (Forall heartbeat_effect
              (effects (prepend
                          [Act (NewTicker (heartbeatInterval n));
                           Act (Log (LogStartingHeartbeat (heartbeatInterval n)))]
                          (run (heartbeat_loop n m wakes) st)))) as Hall.
    { cbn. by repeat constructor. }
    split; [done|]. split; [by apply Hquiet|done].
Qed.

(** ** The protection switch *)

(** X10.  [SetProtectionEnabled] returns [nil] exactly when the instance
    identity is resolved and ECS accepts the update.  It calls ECS only
    when the identity is resolved, once, for this instance alone, with
    the status ACTIVE when enabling and DRAINING when disabling, and it
    logs only after a success. *)
Theorem SetProtectionEnabled_contract (n : ECSNotifier) (enabled : bool) (st : State) :
  let r := run (SetProtectionEnabled n enabled) st in
  (result r = Ok None
   ↔ containerInstanceARN n ≠ "" ∧ updateContainerInstancesState (world st) = None)
  ∧ (∃ err, result r = Ok err)
  ∧ calls (effects r)
    = (if bool_decide (containerInstanceARN n = "") then []
       else [CallUpdateContainerInstancesState (clusterName n)
               [containerInstanceARN n]
               (if enabled then "ACTIVE" else "DRAINING")])
  ∧ logs (effects r)
    = match result r with
      | Ok None => [LogProtectionSet enabled]
      | _ => []
      end
  ∧ final r = st.
Proof.
  cbv zeta. unfold SetProtectionEnabled.
  destruct (String.eqb_spec (containerInstanceARN n) "") as [Harn|Harn].
  - rewrite bool_decide_eq_true_2 by done. cbn.
    split; [split; [done|by intros [? _]]|]. split; [by eexists|done].
  - rewrite bool_decide_eq_false_2 by done. cbn [run].
    destruct (updateContainerInstancesState (world st)) as [e|]; cbn.
    + split; [split; [done|by intros [_ ?]]|]. split; [by eexists|done].
    + split; [done|]. split; [by eexists|done].
Qed.

(** ** The region *)

(** X11.  [getAWSRegion] prefers AWS_REGION to AWS_DEFAULT_REGION and falls
    back on "us-east-1"; a variable set to the empty string counts as not
    set, so the region is never empty.  It asks nothing but the
    environment. *)
Theorem getAWSRegion_precedence (cloud : Cloud) :
  let primary := default "" (environ cloud !! "AWS_REGION") in
  let secondary := default "" (environ cloud !! "AWS_DEFAULT_REGION") in
  (primary ≠ "" → getAWSRegion cloud = (Ok primary, []))
  ∧ (primary = "" → secondary ≠ "" → getAWSRegion cloud = (Ok secondary, []))
  ∧ (primary = "" → secondary = "" → getAWSRegion cloud = (Ok "us-east-1", []))
  ∧ (∃ region, getAWSRegion cloud = (Ok region, []) ∧ region ≠ "").
Proof.
  cbv zeta. unfold getAWSRegion, mbind, setup_bind, Getenv, mret, setup_ret.
  cbn [fst snd app].
  destruct (String.eqb_spec (default "" (environ cloud !! "AWS_REGION")) "")
    as [Hp|Hp]; cbn [negb].
  - rewrite Hp.
    destruct (String.eqb_spec (default "" (environ cloud !! "AWS_DEFAULT_REGION")) "")
      as [Hs|Hs]; cbn [negb fst snd app].
    + rewrite Hs. split; [done|]. split; [done|]. split; [done|]. by eexists.
    + split; [done|]. split; [done|]. split; [done|]. by eexists.
  - split; [done|]. split; [done|]. split; [done|]. by eexists.
Qed.

(** ** The instance identity *)

Lemma find_instance_first_match (n : ECSNotifier) (id : string)
    (instances : list ecstypes.ContainerInstance) (cloud : Cloud) :
  find_instance n id instances cloud
  = match first_match id instances with
    | Some i =>
        match ecstypes.ContainerInstanceArn i with
        | Some arn => (Ok (with_arn n arn, None), [SetupLog (LogFoundInstance arn)])
        | None => (Panic, [])
        end
    | None =>
        (Ok (n, Some (Errorf ("could not find container instance for EC2 instance "
                              +:+ id))), [])
    end.
Proof.
  unfold first_match.
  induction instances as [|i rest IH]; [done|].
  cbn [find_instance find].
  destruct (ecstypes.Ec2InstanceId i) as [ec2|] eqn:He.
  - destruct (String.eqb_spec ec2 id) as [->|Hne].
    + rewrite bool_decide_eq_true_2 by done.
      by destruct (ecstypes.ContainerInstanceArn i).
    + rewrite bool_decide_eq_false_2 by congruence. done.
  - rewrite bool_decide_eq_false_2 by done. done.
Qed.

(** The four questions [fetchInstanceInfo] asks when all are answered. *)
Lemma fetchInstanceInfo_described (n : ECSNotifier) (cloud : Cloud) (id : string)
    (arns : list string) (instances : list ecstypes.ContainerInstance) :
  getMetadata cloud "instance-id" = Reply (id, None) →
  listContainerInstances cloud (clusterName n) = Reply arns →
  arns ≠ [] →
  describeContainerInstances cloud (clusterName n) arns = Reply instances →
  fetchInstanceInfo n cloud
  = ((find_instance n id instances cloud).1,
     [DidGetMetadata "instance-id"; DidRead;
      DidListContainerInstances (clusterName n);
      DidDescribeContainerInstances (clusterName n) arns]
     ++ (find_instance n id instances cloud).2 ++ [DidClose]).
Proof.
  intros Hm Hl Hne Hd.
  unfold fetchInstanceInfo, mbind, setup_bind, ask, defer, mret, setup_ret.
  rewrite Hm. cbn [fst snd app]. rewrite Hl.
  destruct arns as [|arn arns]; [done|]. cbn [length Nat.eqb fst snd app].
  rewrite Hd. cbn [fst snd app].
  by destruct (find_instance n id instances cloud) as [[[]| |] es].
Qed.

(** X12.  When the metadata service, the listing and the description all
    answer, [fetchInstanceInfo] takes the first described instance whose
    EC2 identity is the one read, and sets the notifier's identity to its
    ARN; a nil ARN there is dereferenced, a panic; with no such instance
    it reports an error that names the EC2 identity.  The content is
    closed in each case. *)
Theorem fetchInstanceInfo_first_match (n : ECSNotifier) (cloud : Cloud) (id : string)
    (arns : list string) (instances : list ecstypes.ContainerInstance) :
  getMetadata cloud "instance-id" = Reply (id, None) →
  listContainerInstances cloud (clusterName n) = Reply arns →
  arns ≠ [] →
  describeContainerInstances cloud (clusterName n) arns = Reply instances →
  let asked := [DidGetMetadata "instance-id"; DidRead;
                DidListContainerInstances (clusterName n);
                DidDescribeContainerInstances (clusterName n) arns] in
  fetchInstanceInfo n cloud
  = match first_match id instances with
    | Some i =>
        match ecstypes.ContainerInstanceArn i with
        | Some arn =>
            (Ok (with_arn n arn, None),
             asked ++ [SetupLog (LogFoundInstance arn); DidClose])
        | None => (Panic, asked ++ [DidClose])
        end
    | None =>
        (Ok (n, Some (Errorf ("could not find container instance for EC2 instance "
                              +:+ id))),
         asked ++ [DidClose])
    end.
Proof.
  intros Hm Hl Hne Hd. cbv zeta.
  rewrite (fetchInstanceInfo_described n cloud id arns instances Hm Hl Hne Hd).
  rewrite find_instance_first_match.
  destruct (first_match id instances) as [i|]; [|done].
  by destruct (ecstypes.ContainerInstanceArn i).
Qed.

Lemma fetchInstanceInfo_first_match_witness :
  fetchInstanceInfo sample.unresolved fixture.cloud
  = (Ok (fixture.resolved, None),
     [DidGetMetadata "instance-id"; DidRead;
      DidListContainerInstances "build-cluster";
      DidDescribeContainerInstances "build-cluster" ["arn:1"; "arn:2"];
      SetupLog (LogFoundInstance "arn:2"); DidClose]).
Proof.
  rewrite (fetchInstanceInfo_first_match sample.unresolved fixture.cloud "i-0abc"
             ["arn:1"; "arn:2"]
             [fixture.instance "i-0fff" "arn:1"; fixture.instance "i-0abc" "arn:2"]).
  - vm_compute. reflexivity.
  - reflexivity.
  - reflexivity.
  - done.
  - reflexivity.
Defined.

(** An error leaves the notifier as it was; a success changes its
    instance identity alone. *)
Lemma fetchInstanceInfo_keeps (n : ECSNotifier) (cloud : Cloud) :
  (∀ n' e, (fetchInstanceInfo n cloud).1 = Ok (n', Some e) → n' = n)
  ∧ (∀ n', (fetchInstanceInfo n cloud).1 = Ok (n', None) →
       clusterName n' = clusterName n ∧ heartbeatInterval n' = heartbeatInterval n).
Proof.
  unfold fetchInstanceInfo, mbind, setup_bind, ask, defer, mret, setup_ret.
  destruct (getMetadata cloud "instance-id") as [[data [rerr|]]|merr];
    cbn [fst snd app]; [| |split; intros; by simplify_eq].
  { split; intros; by simplify_eq. }
  destruct (listContainerInstances cloud (clusterName n)) as [[|arn arns]|lerr];
    cbn [length Nat.eqb fst snd app]; [| |split; intros; by simplify_eq].
  { split; intros; by simplify_eq. }
  destruct (describeContainerInstances cloud (clusterName n) (arn :: arns))
    as [instances|derr]; cbn [fst snd app]; [|split; intros; by simplify_eq].
  rewrite find_instance_first_match.
  destruct (first_match data instances) as [i|];
    [destruct (ecstypes.ContainerInstanceArn i)|]; cbn [fst snd app];
    split; intros; by simplify_eq.
Qed.

(** X13.  Whatever the outside answers: an error of [fetchInstanceInfo] leaves
    the notifier as it was, a success changes its instance identity
    alone; each failure ends the questions where it happens, and an empty
    listing is an error before any description is asked for; an error of
    [Read] is an error even when bytes were read; the content, once
    handed out, is closed once, at the end. *)
Theorem fetchInstanceInfo_failures (n : ECSNotifier) (cloud : Cloud) :
  let r := fetchInstanceInfo n cloud in
  (∀ n' e, r.1 = Ok (n', Some e) → n' = n)
  ∧ (∀ n', r.1 = Ok (n', None) →
       clusterName n' = clusterName n ∧ heartbeatInterval n' = heartbeatInterval n)
  ∧ (∀ err, getMetadata cloud "instance-id" = Failure err →
       r = (Ok (n, Some (ErrorfW "failed to get instance ID" err)),
            [DidGetMetadata "instance-id"]))
  ∧ (∀ data err, getMetadata cloud "instance-id" = Reply (data, Some err) →
       r = (Ok (n, Some (ErrorfW "failed to read instance ID" err)),
            [DidGetMetadata "instance-id"; DidRead; DidClose]))
  ∧ (∀ id, getMetadata cloud "instance-id" = Reply (id, None) →
       (∀ err, listContainerInstances cloud (clusterName n) = Failure err →
          r = (Ok (n, Some (ErrorfW "failed to list container instances" err)),
               [DidGetMetadata "instance-id"; DidRead;
                DidListContainerInstances (clusterName n); DidClose]))
       ∧ (listContainerInstances cloud (clusterName n) = Reply [] →
          r = (Ok (n, Some (Errorf "no container instances found in cluster")),
               [DidGetMetadata "instance-id"; DidRead;
                DidListContainerInstances (clusterName n); DidClose]))
       ∧ (∀ arns err,
            listContainerInstances cloud (clusterName n) = Reply arns →
            arns ≠ [] →
            describeContainerInstances cloud (clusterName n) arns = Failure err →
            r = (Ok (n, Some (ErrorfW "failed to describe container instances" err)),
                 [DidGetMetadata "instance-id"; DidRead;
                  DidListContainerInstances (clusterName n);
                  DidDescribeContainerInstances (clusterName n) arns; DidClose])))
  ∧ (∀ content, getMetadata cloud "instance-id" = Reply content →
       ∃ es, r.2 = es ++ [DidClose] ∧ DidClose ∉ es).
Proof.
  cbv zeta.
  unfold fetchInstanceInfo, mbind, setup_bind, ask, defer, mret, setup_ret.
  destruct (getMetadata cloud "instance-id") as [[data [rerr|]]|merr];
    cbn [fst snd app].
  - (* the read fails *)
    split; [by intros ? ? [= <- _]|]. split; [done|]. split; [done|].
    split; [by intros ? ? [= <- <-]|]. split; [done|].
    intros _ _. exists [DidGetMetadata "instance-id"; DidRead]. split; [done|].
    intros H. repeat (apply elem_of_cons in H as [H|H]; [done|]).
    by apply elem_of_nil in H.
  - destruct (listContainerInstances cloud (clusterName n)) as [arns|lerr];
      cbn [fst snd app].
    + destruct arns as [|arn arns]; cbn [length Nat.eqb fst snd app].
      * split; [by intros ? ? [= <- _]|]. split; [done|]. split; [done|].
        split; [done|]. split.
        -- intros id [= <-]. split; [done|]. split; [done|]. by intros ? ? [= <-].
        -- intros _ _. eexists [_; _; _]. split; [done|].
           intros H. repeat (apply elem_of_cons in H as [H|H]; [done|]).
           by apply elem_of_nil in H.
      * destruct (describeContainerInstances cloud (clusterName n) (arn :: arns))
          as [instances|derr] eqn:Hd; cbn [fst snd app].
        -- rewrite find_instance_first_match.
           destruct (first_match data instances) as [i|].
           ++ destruct (ecstypes.ContainerInstanceArn i) as [a|]; cbn [fst snd app].
              ** split; [done|]. split; [intros ? [= <-]; by split|]. split; [done|].
                 split; [done|]. split.
                 --- intros id [= <-]. split; [done|]. split; [done|].
                     intros ? ? [= <-] _ Hx. by rewrite Hd in Hx.
                 --- intros _ _. eexists [_; _; _; _; _]. split; [done|].
                     intros H. repeat (apply elem_of_cons in H as [H|H]; [done|]).
                     by apply elem_of_nil in H.
              ** split; [done|]. split; [done|]. split; [done|].
                 split; [done|]. split.
                 --- intros id [= <-]. split; [done|]. split; [done|].
                     intros ? ? [= <-] _ Hx. by rewrite Hd in Hx.
                 --- intros _ _. eexists [_; _; _; _]. split; [done|].
                     intros H. repeat (apply elem_of_cons in H as [H|H]; [done|]).
                     by apply elem_of_nil in H.
           ++ cbn [fst snd app].
              split; [by intros ? ? [= <- _]|]. split; [done|]. split; [done|].
              split; [done|]. split.
              ** intros id [= <-]. split; [done|]. split; [done|].
                 intros ? ? [= <-] _ Hx. by rewrite Hd in Hx.
              ** intros _ _. eexists [_; _; _; _]. split; [done|].
                 intros H. repeat (apply elem_of_cons in H as [H|H]; [done|]).
                 by apply elem_of_nil in H.
        -- split; [by intros ? ? [= <- _]|]. split; [done|]. split; [done|].
           split; [done|]. split.
           ++ intros id [= <-]. split; [done|]. split; [done|].
              intros ? ? [= <-] _ Hx. rewrite Hd in Hx. by injection Hx as <-.
           ++ intros _ _. eexists [_; _; _; _]. split; [done|].
              intros H. repeat (apply elem_of_cons in H as [H|H]; [done|]).
              by apply elem_of_nil in H.
    + split; [by intros ? ? [= <- _]|]. split; [done|]. split; [done|].
      split; [done|]. split.
      * intros id [= <-]. split; [by intros ? [= <-]|]. done.
      * intros _ _. eexists [_; _; _]. split; [done|].
        intros H. repeat (apply elem_of_cons in H as [H|H]; [done|]).
        by apply elem_of_nil in H.
  - split; [by intros ? ? [= <- _]|]. split; [done|].
    split; [by intros ? [= <-]|]. done.
Qed.

(** [fetchInstanceInfo] logs no warning of its own. *)
Lemma fetchInstanceInfo_no_warning (n : ECSNotifier) (cloud : Cloud) (e : error) :
  SetupLog (LogWarningFetch e) ∉ (fetchInstanceInfo n cloud).2.
Proof.
  unfold fetchInstanceInfo, mbind, setup_bind, ask, defer, mret, setup_ret.
  destruct (getMetadata cloud "instance-id") as [[data [rerr|]]|merr];
    cbn [fst snd app].
  2:{ destruct (listContainerInstances cloud (clusterName n)) as [[|arn arns]|lerr];
        cbn [length Nat.eqb fst snd app].
      2:{ destruct (describeContainerInstances cloud (clusterName n) (arn :: arns))
            as [instances|derr]; cbn [fst snd app].
          - rewrite find_instance_first_match.
            destruct (first_match data instances) as [i|];
              [destruct (ecstypes.ContainerInstanceArn i)|];
              cbn [fst snd app];
              intros H; repeat (apply elem_of_cons in H as [H|H]; [done|]);
              by apply elem_of_nil in H.
          - intros H. repeat (apply elem_of_cons in H as [H|H]; [done|]).
            by apply elem_of_nil in H. }
      all: intros H; repeat (apply elem_of_cons in H as [H|H]; [done|]);
        by apply elem_of_nil in H. }
  all: intros H; repeat (apply elem_of_cons in H as [H|H]; [done|]);
    by apply elem_of_nil in H.
Qed.

(** ** The construction of the notifier *)

Lemma getAWSRegion_returns (cloud : Cloud) :
  ∃ region, getAWSRegion cloud = (Ok region, []) ∧ region ≠ "".
Proof.
  unfold getAWSRegion, mbind, setup_bind, Getenv, mret, setup_ret.
  cbn [fst snd app].
  destruct (String.eqb_spec (default "" (environ cloud !! "AWS_REGION")) "");
    cbn [negb fst snd app]; [|by eexists].
  destruct (String.eqb_spec (default "" (environ cloud !! "AWS_DEFAULT_REGION")) "");
    cbn [negb fst snd app]; by eexists.
Qed.

(** [NewECSNotifier] once the region is known. *)
Lemma NewECSNotifier_unfold (cluster : string) (interval : Z) (cloud : Cloud)
    (region : string) :
  getAWSRegion cloud = (Ok region, []) →
  NewECSNotifier cluster interval cloud
  = match loadDefaultConfig cloud region with
    | Some e =>
        (Ok (None, Some (ErrorfW "failed to load AWS config" e)),
         [DidLoadDefaultConfig region])
    | None =>
        let fetch := fetchInstanceInfo {| clusterName := cluster;
                                          containerInstanceARN := "";
                                          heartbeatInterval := interval |} cloud in
        match fetch.1 with
        | Ok (n, Some e) =>
            (Ok (Some n, None),
             DidLoadDefaultConfig region :: fetch.2 ++ [SetupLog (LogWarningFetch e)])
        | Ok (n, None) => (Ok (Some n, None), DidLoadDefaultConfig region :: fetch.2)
        | Panic => (Panic, DidLoadDefaultConfig region :: fetch.2)
        | Blocked => (Blocked, DidLoadDefaultConfig region :: fetch.2)
        end
    end.
Proof.
  intros Hr. unfold NewECSNotifier, mbind, setup_bind at 1. rewrite Hr.
  unfold setup_bind, ask, setup_log, mret, setup_ret. cbn [fst snd app].
  destruct (loadDefaultConfig cloud region); cbn [fst snd app]; [done|].
  destruct (fetchInstanceInfo _ cloud) as [[[n [e|]]| |] es]; cbn [fst snd app];
    by rewrite ?app_nil_r.
Qed.


(** ** A notifier without an instance identity *)

Lemma heartbeat_tick_silent (n : ECSNotifier) (m : Monitor) (st : State) :
  containerInstanceARN n = "" →
  List.filter is_ecs_call (calls (effects (run (heartbeat_tick n m) st))) = [].
Proof.
  intros Harn.
  destruct (HasActiveAgents_run m st) as (_ & Hinv & _).
  pose proof (ecs_calls_inventory _ Hinv) as Hq.
  destruct (result (run (HasActiveAgents m) st)) as [[b [err|]]| |] eqn:Hr.
  - rewrite (heartbeat_tick_error n m st b err Hr). cbn [effects].
    rewrite calls_app, List.filter_app, Hq. done.
  - rewrite (heartbeat_tick_answer n m st b Hr). cbn [effects].
    rewrite (SendActivitySignal_unresolved n st b Harn). cbn [result effects].
    rewrite !calls_app, !List.filter_app, Hq. done.
  - unfold heartbeat_tick. rewrite run_bind. unfold then_run. by rewrite Hr.
  - unfold heartbeat_tick. rewrite run_bind. unfold then_run. by rewrite Hr.
Qed.

Lemma heartbeat_loop_silent (n : ECSNotifier) (m : Monitor)
    (wakes : list (World * heartbeat_case)) :
  containerInstanceARN n = "" →
  ∀ st, List.filter is_ecs_call
          (calls (effects (run (heartbeat_loop n m wakes) st))) = [].
Proof.
  intros Harn. induction wakes as [|[w []] wakes IH]; intros st.
  - done.
  - rewrite heartbeat_loop_tick. unfold then_run.
    pose proof (heartbeat_tick_silent n m (set_world st w) Harn) as Ht.
    destruct (result (run (heartbeat_tick n m) (set_world st w)));
      cbn [result final effects]; [|done..].
    by rewrite calls_app, List.filter_app, Ht, IH.
  - by rewrite heartbeat_loop_stop.
Qed.

(** X15.  When [NewECSNotifier] hands back a notifier after the warning that
    the instance information could not be fetched, the notifier has no
    instance identity, and it stays silent for good: no heartbeat of it
    and no [NotifyActivity] ever calls ECS, and both report no error. *)
Theorem unfetched_notifier_never_calls_ecs (cluster : string) (interval : Z)
    (cloud : Cloud) (n : ECSNotifier) (es : list SetupEffect) (e : error) :
  NewECSNotifier cluster interval cloud = (Ok (Some n, None), es) →
  SetupLog (LogWarningFetch e) ∈ es →
  containerInstanceARN n = ""
  ∧ (∀ m wakes st,
       List.filter is_ecs_call
         (calls (effects (run (StartHeartbeat n m wakes) st))) = [])
  ∧ (∀ event st,
       run (NotifyActivity n event) st
       = {| result := Ok None; final := st;
            effects := [Act (Log (LogNotifying (Action event) (ContainerName event)));
                        Act (Log LogArnNotSet)] |}).
Proof.
  intros Hnew Hwarn.
  assert (containerInstanceARN n = "") as Harn.
  { destruct (getAWSRegion_returns cloud) as (region & Hr & _).
    rewrite (NewECSNotifier_unfold cluster interval cloud region Hr) in Hnew.
    destruct (loadDefaultConfig cloud region); [done|]. cbv zeta in Hnew.
    destruct (fetchInstanceInfo_keeps
                {| clusterName := cluster; containerInstanceARN := "";
                   heartbeatInterval := interval |} cloud) as (Herr & _).
    pose proof (fetchInstanceInfo_no_warning
                  {| clusterName := cluster; containerInstanceARN := "";
                     heartbeatInterval := interval |} cloud e) as Hno.
    destruct (fetchInstanceInfo _ cloud) as [[[n' [e'|]]| |] es'];
      cbn [fst snd] in *; [| |done..].
    - injection Hnew as <- _. by rewrite (Herr n' e' eq_refl).
    - injection Hnew as <- <-.
      apply elem_of_cons in Hwarn as [Hwarn|Hwarn]; [done|]. by destruct Hno. }
  split; [done|]. split.
  - intros m wakes st.
    destruct (Z.leb_spec (heartbeatInterval n) 0) as [Hle|Hlt].
    + by rewrite (StartHeartbeat_nonpositive n m wakes st Hle).
    + rewrite (StartHeartbeat_run n m wakes st Hlt). cbn [prepend effects].
      rewrite calls_app, List.filter_app.
      by rewrite (heartbeat_loop_silent n m wakes Harn st).
  - intros event st. unfold NotifyActivity.
    change (log ?l;; ?p) with (log l ≫= λ _, p).
    rewrite run_bind, run_log. unfold then_run. cbn [result final effects].
    by rewrite (SendActivitySignal_unresolved n st true Harn).
Qed.

Lemma unfetched_notifier_never_calls_ecs_witness :
  let w := sample.agent_world [sample.agent_container] (time.Unix 1700000200 0) in
  List.filter is_ecs_call
    (calls (effects (run (StartHeartbeat sample.unresolved (NewMonitor w).1
                            [(w, TickerC); (w, TickerC); (w, StopChan)])
                       (NewMonitor w).2))) = [].
Proof.
  cbv zeta.
  refine (proj1 (proj2 (unfetched_notifier_never_calls_ecs
                          "build-cluster" (30 * time.Second) fixture.off_ec2
                          sample.unresolved
                          [DidLoadDefaultConfig "us-east-1";
                           DidGetMetadata "instance-id";
                           SetupLog (LogWarningFetch
                                       (ErrorfW "failed to get instance ID"
                                          (ErrExternal "no route to host")))]
                          (ErrorfW "failed to get instance ID"
                             (ErrExternal "no route to host")) _ _)) _ _ _).
  - vm_compute. reflexivity.
  - apply elem_of_cons. right. apply elem_of_cons. right.
    apply elem_of_cons. by left.
Defined.

(** ** The cluster information *)

(** X16.  [GetClusterInfo] asks ECS once, for the notifier's cluster alone.
    It returns a map or an error, never both and never neither: the
    wrapped error when the call fails, "cluster not found" when no
    cluster is described, and otherwise a map of exactly five keys read
    off the first cluster described. *)
Theorem GetClusterInfo_outcomes (n : ECSNotifier) (cloud : Cloud) :
  let r := GetClusterInfo n cloud in
  r.2 = [DidDescribeClusters [clusterName n]]
  ∧ ((∃ err, describeClusters cloud [clusterName n] = Failure err
             ∧ r.1 = Ok (None, Some (ErrorfW "failed to describe cluster" err)))
     ∨ (describeClusters cloud [clusterName n] = Reply []
        ∧ r.1 = Ok (None, Some (Errorf "cluster not found")))
     ∨ (∃ cluster rest info,
          describeClusters cloud [clusterName n] = Reply (cluster :: rest)
          ∧ r.1 = Ok (Some info, None)
          ∧ dom info = ({[ "name"; "status"; "runningTasksCount";
                           "pendingTasksCount"; "activeServicesCount" ]} : gset string)
          ∧ info !! "name" = Some (VString (ecstypes.ClusterName cluster))
          ∧ info !! "status" = Some (VString (ecstypes.Status cluster))
          ∧ info !! "runningTasksCount"
            = Some (VInt32 (ecstypes.RunningTasksCount cluster))
          ∧ info !! "pendingTasksCount"
            = Some (VInt32 (ecstypes.PendingTasksCount cluster))
          ∧ info !! "activeServicesCount"
            = Some (VInt32 (ecstypes.ActiveServicesCount cluster)))).
Proof.
  cbv zeta. unfold GetClusterInfo, mbind, setup_bind, ask, mret, setup_ret.
  destruct (describeClusters cloud [clusterName n]) as [[|cluster rest]|err];
    cbn [fst snd app].
  - split; [done|]. right. by left.
  - split; [done|]. right. right.
    eexists cluster, rest, _. split; [done|]. split; [done|].
    split; [|by vm_compute].
    rewrite !dom_insert_L, dom_singleton_L. set_solver.
  - split; [done|]. left. by eexists.
Qed.

(** ** The command *)

Lemma run_main_lib {B : Type} (p : prog B) (k : B → main_prog) (st : State) (b : B)
    (st' : State) (es : list Effect) :
  run p st = {| result := Ok b; final := st'; effects := es |} →
  run_main (MainLib p k) st
  = {| main_result := main_result (run_main (k b) st');
       main_final := main_final (run_main (k b) st');
       main_effects := map InPackage es ++ main_effects (run_main (k b) st') |}.
Proof. intros H. cbn [run_main]. by rewrite H. Qed.

Lemma ecs_calls_app (es es' : list MainEffect) :
  ecs_calls (es ++ es') = ecs_calls es ++ ecs_calls es'.
Proof. unfold ecs_calls. by rewrite omap_app. Qed.

(** X17.  What the command does with one event of the channel.  It logs it;
    it notifies ECS only when there is a notifier, the action is "start"
    or "exec_start" and the notifier has an instance identity, and what
    it then puts is always "active", with the clock's time; for every
    other action, the inventory's "running" among them, ECS is not
    called.  An error of the notification is logged and the loop goes
    on. *)
Theorem on_activity_notifies (notifier : option ECSNotifier) (event : ActivityEvent)
    (st : State) :
  let r := run_main (on_activity notifier event) st in
  main_result r = Ok tt
  ∧ main_final r = st
  ∧ ecs_calls (main_effects r)
    = match notifier with
      | Some n =>
          if bool_decide (Action event = "start" ∨ Action event = "exec_start")
             && negb (bool_decide (containerInstanceARN n = ""))
          then [CallPutAttributes (clusterName n)
                  (activity_attributes true (now (world st)))]
          else []
      | None => []
      end
  ∧ (∀ e, Printed (LogErrorNotifying e) ∈ main_effects r
          ↔ ∃ n e', notifier = Some n
                    ∧ (Action event = "start" ∨ Action event = "exec_start")
                    ∧ containerInstanceARN n ≠ ""
                    ∧ putAttributes (world st) = Some e'
                    ∧ e = ErrorfW "failed to put attributes" e').
Proof.
  cbv zeta. unfold on_activity.
  destruct notifier as [n|].
  2:{ cbn. split; [done|]. split; [done|]. split; [done|].
      intros e. split.
      - intros H. apply elem_of_cons in H as [H|H]; [done|].
        by apply elem_of_nil in H.
      - by intros (? & ? & ? & _). }
  assert (String.eqb (Action event) "start" || String.eqb (Action event) "exec_start"
          = bool_decide (Action event = "start" ∨ Action event = "exec_start")) as Hact.
  { destruct (String.eqb_spec (Action event) "start") as [H1|H1];
      destruct (String.eqb_spec (Action event) "exec_start") as [H2|H2]; cbn;
      symmetry; try (apply bool_decide_eq_true; tauto).
    apply bool_decide_eq_false. tauto. }
  rewrite Hact. case_bool_decide as Ha; cbn [andb].
  2:{ cbn. split; [done|]. split; [done|]. split; [done|].
      intros e. split.
      - intros H. apply elem_of_cons in H as [H|H]; [done|].
        by apply elem_of_nil in H.
      - intros (? & ? & ? & ? & _). naive_solver. }
  cbn [run_main]. unfold NotifyActivity.
  change (log ?l;; ?p) with (log l ≫= λ _, p).
  rewrite run_bind, run_log. unfold then_run. cbn [result final effects].
  case_bool_decide as Harn; cbn [negb].
  - rewrite (SendActivitySignal_unresolved n st true Harn). cbn.
    split; [done|]. split; [done|]. split; [done|].
    intros e. split.
    + intros H. repeat (apply elem_of_cons in H as [H|H]; [done|]).
      by apply elem_of_nil in H.
    + intros (? & ? & [= <-] & _ & ? & _). done.
  - rewrite (SendActivitySignal_resolved n true st Harn). cbn [result final effects].
    destruct (putAttributes (world st)) as [e'|]; cbn.
    + split; [done|]. split; [done|]. split; [done|].
      intros e. split.
      * intros H. repeat (apply elem_of_cons in H as [H|H]; [try done|]).
        -- injection H as ->. by exists n, e'.
        -- by apply elem_of_nil in H.
      * intros (? & ? & [= <-] & _ & _ & [= <-] & ->).
        by repeat (apply elem_of_cons; first [by left|right]).
    + split; [done|]. split; [done|]. split; [done|].
      intros e. split.
      * intros H. repeat (apply elem_of_cons in H as [H|H]; [done|]).
        by apply elem_of_nil in H.
      * by intros (? & ? & _ & _ & _ & ? & _).
Qed.

(** X18.  No event of the inventory pass of [StartMonitoring] makes the
    command notify ECS: their action is "running". *)
Theorem inventory_events_not_notified (m : Monitor) (st st' : State)
    (notifier : option ECSNotifier) (ev : ActivityEvent) :
  ev ∈ sends (effects (run (StartMonitoring m) st)) →
  ecs_calls (main_effects (run_main (on_activity notifier ev) st')) = [].
Proof.
  intros Hin.
  destruct (StartMonitoring_sends m st ev Hin) as (cs & c & _ & _ & _ & _ & ->).
  unfold on_activity. by destruct notifier.
Qed.

Lemma inventory_events_not_notified_witness :
  let w := sample.agent_world [sample.agent_container] (time.Unix 1700000200 0) in
  ecs_calls (main_effects
               (run_main (on_activity (Some fixture.resolved)
                            (running_event w sample.agent_container))
                  (NewMonitor w).2)) = [].
Proof.
  cbv zeta.
  apply (inventory_events_not_notified
           (NewMonitor (sample.agent_world [sample.agent_container]
                          (time.Unix 1700000200 0))).1
           (NewMonitor (sample.agent_world [sample.agent_container]
                          (time.Unix 1700000200 0))).2).
  vm_compute. apply elem_of_cons. by left.
Defined.

(** X19.  The end of [main].  After the shutdown signal the command stops the
    monitor, logs that it stopped successfully, and returns into the
    [monitor.Stop()] it deferred at its start: the channel is closed a
    second time, which panics. *)
Theorem shutdown_closes_twice (notifier : option ECSNotifier) (monitor : Monitor)
    (st : State) :
  closed (activityChan st) = false →
  let r := run_main (shutdown notifier monitor) st in
  main_result r = Panic
  ∧ main_effects r
    = Printed LogShutdownReceived
      :: match notifier with
         | Some _ => [NotifierStopped]
         | None => []
         end
      ++ [InPackage (Act Cancel); InPackage (Act ClientClose); InPackage (Act Close);
          Printed LogApplicationStopped;
          InPackage (Act Cancel); InPackage (Act ClientClose)]
  ∧ closed (activityChan (main_final r)) = true.
Proof.
  intros Hopen. cbv zeta. unfold shutdown.
  assert (∀ k, run_main (MainLib (Stop monitor) (λ _,
                 MainLog LogApplicationStopped (MainLib (Stop monitor) k))) st
               = {| main_result := Panic;
                    main_final :=
                      {| world := world st;
                         activityChan := {| buf := buf (activityChan st);
                                            cap := cap (activityChan st);
                                            closed := true |};
                         ctxDone := true; clientClosed := true |};
                    main_effects :=
                      [InPackage (Act Cancel); InPackage (Act ClientClose);
                       InPackage (Act Close); Printed LogApplicationStopped;
                       InPackage (Act Cancel); InPackage (Act ClientClose)] |}) as H.
  { intros k. rewrite (run_main_lib _ _ st tt _ _ (Stop_run monitor st Hopen)).
    cbn [run_main]. rewrite Stop_again_panics by done. done. }
  assert (∀ l k, run_main (MainLog l k) st
                 = {| main_result := main_result (run_main k st);
                      main_final := main_final (run_main k st);
                      main_effects := Printed l :: main_effects (run_main k st) |})
    as Hlog by done.
  assert (∀ k, run_main (MainNotifierStop k) st
               = {| main_result := main_result (run_main k st);
                    main_final := main_final (run_main k st);
                    main_effects := NotifierStopped :: main_effects (run_main k st) |})
    as Hstop by done.
  destruct notifier; rewrite Hlog, ?Hstop, H; done.
Qed.

Lemma shutdown_closes_twice_witness :
  let w := sample.agent_world [] (time.Unix 1700000200 0) in
  main_result (run_main (shutdown None (NewMonitor w).1) (NewMonitor w).2) = Panic.
Proof.
  cbv zeta.
  refine (proj1 (shutdown_closes_twice None _ _ _)). reflexivity.
Defined.

(** ** The reported identity as an exclusion entry *)

Lemma HasPrefix_substring (n : nat) (s : string) :
  strings.HasPrefix s (String.substring 0 n s) = true.
Proof.
  revert s. induction n as [|n IH]; intros [|c s]; cbn; try done.
  by rewrite Ascii.eqb_refl, IH.
Qed.

Lemma Contains_substring (n : nat) (s : string) :
  strings.Contains s (String.substring 0 n s) = true.
Proof. destruct s; cbn -[String.substring]; by rewrite HasPrefix_substring. Qed.

(** X20.  The identity the monitor reports in its events is the first 12
    bytes of the container's identity, and the exclusion filter looks for
    its entries inside the identity: with the reported [ContainerID] of a
    container among the excluded containers, [isExcluded] returns [true]
    for that container whatever its name and image, the inventory does
    not track it and the handler emits nothing for its events. *)
Theorem reported_identity_excludes (m : Monitor) (w : World) (c : types.Container)
    (st : State) :
  (12 ≤ String.length (types.ID c))%nat →
  let m' := {| excludeContainers :=
                 ContainerID (running_event w c) :: excludeContainers m;
               excludeImages := excludeImages m |} in
  (∀ name image,
     result (run (isExcluded m' (types.ID c) name image) st) = Ok true)
  ∧ tracked m' w c = false
  ∧ (∀ event, event_id event = types.ID c →
       ContainerID (live_event event) = ContainerID (running_event w c)
       ∧ emits m' w event = false).
Proof.
  intros Hlen. cbv zeta.
  assert (∀ name image,
            excluded_by
              {| excludeContainers :=
                   ContainerID (running_event w c) :: excludeContainers m;
                 excludeImages := excludeImages m |}
              (types.ID c) name image = true) as Hex.
  { intros name image. unfold excluded_by. cbn [excludeContainers existsb].
    cbn [running_event ContainerID]. by rewrite Contains_substring, orb_true_r. }
  split; [|split].
  - intros name image. by rewrite isExcluded_returns, Hex.
  - unfold tracked. by rewrite Hex.
  - intros event Hid. split.
    + cbn [live_event running_event ContainerID]. by rewrite Hid.
    + unfold emits. rewrite Hid, Hex. cbn [negb]. by rewrite andb_false_r.
Qed.

Lemma reported_identity_excludes_witness :
  let w := sample.agent_world [sample.agent_container] (time.Unix 1700000200 0) in
  tracked {| excludeContainers := ["4f2a9c1d7e3b"]; excludeImages := [] |}
    w sample.agent_container = false.
Proof.
  cbv zeta.
  refine (proj1 (proj2 (reported_identity_excludes
                          {| excludeContainers := []; excludeImages := [] |}
                          (sample.agent_world [sample.agent_container]
                             (time.Unix 1700000200 0))
                          sample.agent_container
                          (NewMonitor sample.gone_world).2 _))).
  vm_compute. lia.
Defined.

(** ** The live path and the inventory *)

(** X21.  The handler and the inventory decide alike.  For a container
    event with an allowed action whose actor carries the identity, the
    display name and the image of a listed container, the handler sends
    an event exactly when the inventory tracks the container, and the
    event it sends differs from the inventory's in its action and its
    time alone. *)
Theorem live_path_agrees_with_inventory (m : Monitor) (st : State)
    (c : types.Container) (event : events.Message) :
  relevant event →
  event_id event = types.ID c →
  event_name event = display_name c →
  event_image event = types.Image c →
  well_formed (world st) c →
  closed (activityChan st) = false →
  (length (buf (activityChan st)) < cap (activityChan st))%nat →
  let r := run (handleDockerEvent m event) st in
  result r = Ok tt
  ∧ sends (effects r)
    = (if tracked m (world st) c then [live_event event] else [])
  ∧ live_event event
    = {| ContainerID := ContainerID (running_event (world st) c);
         ContainerName := ContainerName (running_event (world st) c);
         ImageName := ImageName (running_event (world st) c);
         Action := events.Action event;
         Timestamp := time.Unix (events.Time event) 0;
         IsAzureAgent := true |}.
Proof.
  intros Hrel Hid Hname Himage (Hlen & _ & Hcfg) Hopen Hroom. cbv zeta.
  assert (emits m (world st) event = tracked m (world st) c) as Hsame.
  { unfold emits, tracked. rewrite bool_decide_eq_true_2 by done.
    by rewrite Hid, Hname, Himage. }
  destruct (handleDockerEvent_step m event st) as (H1 & _ & H3).
  - intros _. cbn [fst snd]. by rewrite Hid.
  - done.
  - done.
  - rewrite Hsame in H3. split; [done|]. split; [done|].
    unfold live_event, running_event. cbn [ContainerID ContainerName ImageName].
    by rewrite Hid, Hname, Himage.
Qed.

Lemma live_path_agrees_with_inventory_witness :
  let w := sample.agent_world [sample.agent_container] (time.Unix 1700000200 0) in
  let event := sample.event_of "exec_start" sample.agent_container in
  sends (effects (run (handleDockerEvent (NewMonitor w).1 event) (NewMonitor w).2))
  = [live_event event].
Proof.
  cbv zeta.
  destruct (live_path_agrees_with_inventory
              (NewMonitor (sample.agent_world [sample.agent_container]
                             (time.Unix 1700000200 0))).1
              (NewMonitor (sample.agent_world [sample.agent_container]
                             (time.Unix 1700000200 0))).2
              sample.agent_container
              (sample.event_of "exec_start" sample.agent_container))
    as (_ & H & _).
  - split; [done|]. vm_compute. by repeat constructor.
  - reflexivity.
  - vm_compute. reflexivity.
  - vm_compute. reflexivity.
  - split; [vm_compute; lia|]. split; [done|].
    intros info [= <-]. by eexists.
  - reflexivity.
  - vm_compute. lia.
  - rewrite H. vm_compute. reflexivity.
Defined.

(** ** The tests of the repository, on the model *)

Section RepositoryTests.

(** [TestIsAzureAgentContainer], "Azure agent by image name". *)
Example test_agent_by_image_name :
  IsAzureAgentContainer
    (sample.inspected "myregistry/azure-agent:latest" [] ∅) = Ok true.
Proof. vm_compute. reflexivity. Qed.

(** "AZP agent by image name". *)
Example test_azp_by_image_name :
  IsAzureAgentContainer (sample.inspected "azp-agent:v1" [] ∅) = Ok true.
Proof. vm_compute. reflexivity. Qed.

(** "VSTS agent by image name". *)
Example test_vsts_by_image_name :
  IsAzureAgentContainer (sample.inspected "vsts-agent:latest" [] ∅) = Ok true.
Proof. vm_compute. reflexivity. Qed.

(** "Azure agent by environment variable". *)
Example test_agent_by_environment :
  IsAzureAgentContainer
    (sample.inspected "some-image:latest"
       ["AZP_URL=https://dev.azure.com"; "AZP_TOKEN=secret"] ∅) = Ok true.
Proof. vm_compute. reflexivity. Qed.

(** "Azure agent by label". *)
Example test_agent_by_label :
  IsAzureAgentContainer
    (sample.inspected "some-image:latest" []
       {[ "app" := "azure-agent"; "type" := "devops" ]}) = Ok true.
Proof. vm_compute. reflexivity. Qed.

(** "Not an Azure agent". *)
Example test_not_an_agent :
  IsAzureAgentContainer (sample.inspected "nginx:latest" ["PORT=8080"] ∅) = Ok false.
Proof. vm_compute. reflexivity. Qed.

(** [TestNotifyActivity]: without an ARN, [nil]. *)
Example test_notify_activity_without_arn :
  result (run (NotifyActivity sample.unresolved
                 {| ContainerID := "test123";
                    ContainerName := "azure-agent-1";
                    ImageName := "azure-agent:latest";
                    Action := "start";
                    Timestamp := time.Unix 1700000100 0;
                    IsAzureAgent := true |})
              (NewMonitor sample.gone_world).2) = Ok None.
Proof. vm_compute. reflexivity. Qed.

(** [TestHeartbeatStopSignal]: the loop returns at the stop signal. *)
Example test_heartbeat_stop_signal :
  result (run (StartHeartbeat sample.unresolved (NewMonitor sample.gone_world).1
                 [(sample.gone_world, TickerC); (sample.gone_world, StopChan)])
              (NewMonitor sample.gone_world).2) = Ok tt.
Proof. vm_compute. reflexivity. Qed.

End RepositoryTests.

(** ** The end-to-end scenarios of the specification, on the model *)

(** The inventory finds one running agent container: one event, with
    action "running", before the subscription. *)
Example scenario_inventory_one_agent :
  let w := sample.agent_world [sample.agent_container] (time.Unix 1700000200 0) in
  effects (run (StartMonitoring (NewMonitor w).1) (NewMonitor w).2)
  = [Call CallContainerList;
     Call (CallContainerInspect sample.agent_id);
     Call CallNow;
     Act (Log (LogFound 1));
     Act (Send {| ContainerID := "4f2a9c1d7e3b";
                  ContainerName := "agent-1";
                  ImageName := "vsts-agent:1";
                  Action := "running";
                  Timestamp := time.Unix 1700000200 0;
                  IsAzureAgent := true |});
     Call CallNow;
     Act (Events "1700000140");
     Act Go].
Proof. vm_compute. reflexivity. Qed.

(** A live "start" event for a container of image "vsts-agent:1": one
    event with action "start". *)
Example scenario_live_start :
  let w := sample.agent_world [] (time.Unix 1700000200 0) in
  sends (effects (run (handleDockerEvent (NewMonitor w).1
                         (sample.event_of "start" sample.agent_container))
                      (NewMonitor w).2))
  = [{| ContainerID := "4f2a9c1d7e3b";
        ContainerName := "agent-1";
        ImageName := "vsts-agent:1";
        Action := "start";
        Timestamp := time.Unix 1700000100 0;
        IsAzureAgent := true |}].
Proof. vm_compute. reflexivity. Qed.

(** A live "die" event for a container that is gone: the inspection and
    one line that is no warning. *)
Example scenario_live_die_gone :
  effects (run (handleDockerEvent (NewMonitor sample.gone_world).1
                  (sample.event_of "die" sample.agent_container))
               (NewMonitor sample.gone_world).2)
  = [Call (CallContainerInspect sample.agent_id);
     Act (Log (LogAlreadyRemoved "4f2a9c1d7e3b"))].
Proof. vm_compute. reflexivity. Qed.

(** A monitor made by [NewMonitor] in a world of 101 agent containers:
    the inventory pass parks on the 101st send. *)
Example scenario_inventory_over_capacity :
  let w := sample.agent_world (replicate 101 sample.agent_container)
             (time.Unix 1700000200 0) in
  let r := run (StartMonitoring (NewMonitor w).1) (NewMonitor w).2 in
  result r = Blocked ∧ length (sends (effects r)) = 100%nat.
Proof. vm_compute. split; reflexivity. Qed.

